(** * Job orchestration and result envelopes of the AI insight pipeline

    A shallow embedding of

    - [src/collectors/base_collector.py]  (module [base_collector]),
    - [src/analyzers/base_analyzer.py]    (module [base_analyzer]),
    - [src/config/settings.py]            (module [settings]),
    - [src/scheduler/jobs.py]             (module [jobs]),

    followed by the properties of the unit contract and of the pipeline
    coordinator.

    Conventions of the embedding.

    - Python code that mutates an object and may raise is a computation in
      the monad [M Σ A := Σ → outcome A * Σ]: the object's state is threaded,
      and a raised exception keeps the mutations made before it, as in
      Python.
    - [PyException] stands for exception objects, with their class, their
      string and whether they are instances of [Exception]. Every handler of
      the sources is [except Exception]: it catches the instances of
      [Exception] and lets every other exception through
      ([asyncio.CancelledError], [GeneratorExit] and the other classes that
      derive from [BaseException] only). [KeyboardInterrupt] and
      [SystemExit] are left out: a task that raises one of them stops the
      event loop instead of handing it to [asyncio.gather].
    - The abstract methods of a unit ([collect], [validate_config],
      [analyze]) and the methods of the external collaborators
      ([MemoryStore.store], the report generators' [generate]) are not in the
      sources. Each is a field of the object: a function from the number of
      earlier invocations (and the arguments) to what the invocation does,
      return a value or raise. The object counts or records the invocations
      in a ghost field, which lets the theorems say that a method was or
      was not invoked.
    - The constructor of the pydantic model [Settings], which validates the
      keyword arguments and reads the environment, is not in the embedding
      either: it is a parameter of [load_settings].
    - [datetime.now()] is read from the section variable [now]; logging is
      not modelled. *)

From stdpp Require Import base option list strings gmap.
From Stdlib Require Import ZArith.

(** ** Exceptions and the state-and-exception monad *)

Record PyException := mkBaseException {
  exc_class : string;        (* the name of the exception's class *)
  exc_str : string;          (* what [str(e)] and [f"{e}"] give *)
  exc_is_Exception : bool    (* [isinstance(e, Exception)] *)
}.

(** An instance of [Exception] or of one of its subclasses. *)
Definition mkException (cls msg : string) : PyException :=
  mkBaseException cls msg true.

Definition ValueError (msg : string) : PyException := mkException "ValueError" msg.
Definition KeyError (key : string) : PyException :=
  mkException "KeyError" ("'" ++ key ++ "'").
Definition AttributeError (msg : string) : PyException :=
  mkException "AttributeError" msg.
(** [asyncio.CancelledError] derives from [BaseException], not from
    [Exception]. *)
Definition CancelledError (msg : string) : PyException :=
  mkBaseException "CancelledError" msg false.

Inductive outcome (A : Type) : Type :=
| Return (a : A)
| Raise (e : PyException).
Arguments Return {A} a.
Arguments Raise {A} e.

Definition M (Σ A : Type) : Type := Σ → outcome A * Σ.

Definition ret {Σ A} (a : A) : M Σ A := λ s, (Return a, s).
Definition raise {Σ A} (e : PyException) : M Σ A := λ s, (Raise e, s).
Definition bind {Σ A B} (m : M Σ A) (k : A → M Σ B) : M Σ B :=
  λ s, match m s with
       | (Return a, s') => k a s'
       | (Raise e, s') => (Raise e, s')
       end.
Definition gets {Σ A} (f : Σ → A) : M Σ A := λ s, (Return (f s), s).
Definition modify {Σ} (f : Σ → Σ) : M Σ unit := λ s, (Return tt, f s).
Definition lift_outcome {Σ A} (o : outcome A) : M Σ A := λ s, (o, s).

(** [try: body except Exception as e: handler e]. The handler runs for an
    instance of [Exception]; any other exception leaves the statement. *)
Definition try_except {Σ A} (body : M Σ A) (handler : PyException → M Σ A) : M Σ A :=
  λ s, match body s with
       | (Return a, s') => (Return a, s')
       | (Raise e, s') => if exc_is_Exception e then handler e s' else (Raise e, s')
       end.

(** What an outcome lets through an [except Exception] handler: the
    exception it raised, when that is not an instance of [Exception]. *)
Definition escaping {A} (o : outcome A) : option PyException :=
  match o with
  | Raise e => if exc_is_Exception e then None else Some e
  | Return _ => None
  end.

(** The first of several outcomes that does so. *)
Fixpoint first_escaping {A} (os : list (outcome A)) : option PyException :=
  match os with
  | [] => None
  | o :: os' =>
      match escaping o with
      | Some e => Some e
      | None => first_escaping os'
      end
  end.

(** Running a method of a sub-object held in a field of the state. *)
Definition zoom {Σ Τ A} (proj : Σ → Τ) (upd : Τ → Σ → Σ) (m : M Τ A) : M Σ A :=
  λ s, let '(o, t) := m (proj s) in (o, upd t s).

(** The local variables [L] of a method body, next to the object [Σ]. *)
Definition with_locals {Σ L A} (init : L) (m : M (Σ * L) A) : M Σ A :=
  λ s, let '(o, sl) := m (s, init) in (o, sl.1).
Definition self {Σ L A} (m : M Σ A) : M (Σ * L) A :=
  zoom fst (λ s sl, (s, sl.2)) m.
Definition local {Σ L A} (m : M L A) : M (Σ * L) A :=
  zoom snd (λ l sl, (sl.1, l)) m.

(** [asyncio.gather] with [return_exceptions=True]: every task runs to its
    end and the exception it raised, of whatever class, is returned in its
    place (for a task that ended in [CancelledError], a [CancelledError]
    that [gather] builds; the coordinator reads the class of such a result
    only). Each task of the coordinator works on a unit object of its own,
    so the interleaving of the tasks does not show: they run here in the
    order of the list. *)
Definition attempt {Σ A} (m : M Σ A) : M Σ (outcome A) :=
  λ s, let '(o, s') := m s in (Return o, s').

Declare Scope py_scope.
Delimit Scope py_scope with py.
Notation "x <- m ;; k" := (bind m (λ x, k))
  (at level 100, m at next level, right associativity) : py_scope.
Notation "m ;; k" := (bind m (λ _, k))
  (at level 100, right associativity) : py_scope.
Open Scope py_scope.

Fixpoint gather {Σ A} (tasks : list (M Σ A)) : M Σ (list (outcome A)) :=
  match tasks with
  | [] => ret []
  | t :: ts => o <- attempt t ;; os <- gather ts ;; ret (o :: os)
  end.

(** [for x in xs: body x] *)
Fixpoint for_each {Σ A} (xs : list A) (body : A → M Σ unit) : M Σ unit :=
  match xs with
  | [] => ret tt
  | x :: xs' => body x ;; for_each xs' body
  end.

Definition datetime : Type := Z.

(** [len(l)] as a Python integer. *)
Definition len {A} (l : list A) : Z := Z.of_nat (length l).

(** ** [src/collectors/base_collector.py] *)

Module base_collector.

Inductive CollectorStatus := PENDING | RUNNING | SUCCESS | FAILED | PARTIAL.

Record CollectorResult (T : Type) := mkCollectorResult {
  status : CollectorStatus;
  data : list T;
  errors : list string;
  metadata : gmap string string;
  collected_at : datetime;
  items_count : Z;
  source : string
}.
Arguments mkCollectorResult {T}.
Arguments status {T}.
Arguments data {T}.
Arguments errors {T}.
Arguments metadata {T}.
Arguments collected_at {T}.
Arguments items_count {T}.
Arguments source {T}.

Definition set_source {T} (r : CollectorResult T) (s : string) : CollectorResult T :=
  mkCollectorResult (status r) (data r) (errors r) (metadata r) (collected_at r)
    (items_count r) s.

(** [if not self.items_count: self.items_count = len(self.data)];
    an [int] is falsy exactly when it is [0]. *)
Definition __post_init__ {T} (self : CollectorResult T) : CollectorResult T :=
  if bool_decide (items_count self = 0%Z)
  then mkCollectorResult (status self) (data self) (errors self) (metadata self)
         (collected_at self) (len (data self)) (source self)
  else self.

(** A collection unit: the fields of the Python object, the behaviour of its
    two abstract methods and the ghost invocation counters. *)
Record BaseCollector (T : Type) := mkBaseCollector {
  name : string;
  config : gmap string string;
  _status : CollectorStatus;
  collect_body : nat → outcome (CollectorResult T);
  validate_config_body : nat → outcome bool;
  collect_calls : nat;
  validate_config_calls : nat
}.
Arguments mkBaseCollector {T}.
Arguments name {T}.
Arguments config {T}.
Arguments _status {T}.
Arguments collect_body {T}.
Arguments validate_config_body {T}.
Arguments collect_calls {T}.
Arguments validate_config_calls {T}.

Definition set_status {T} (st : CollectorStatus) (c : BaseCollector T) : BaseCollector T :=
  mkBaseCollector (name c) (config c) st (collect_body c) (validate_config_body c)
    (collect_calls c) (validate_config_calls c).

Section Contract.
Context {T : Type}.
Variable now : datetime.

(** The constructor the dataclass generates: an omitted keyword argument
    ([None] here) takes the field's default, then [__post_init__] runs. *)
Definition CollectorResult_init (status : CollectorStatus)
    (data : option (list T)) (errors : option (list string))
    (metadata : option (gmap string string)) (collected_at : option datetime)
    (items_count : option Z) (source : option string) : CollectorResult T :=
  __post_init__
    (mkCollectorResult status (default [] data) (default [] errors)
       (default ∅ metadata) (default now collected_at)
       (default 0%Z items_count) (default "" source)).

(** [await self.collect()] *)
Definition collect : M (BaseCollector T) (CollectorResult T) :=
  λ c, (collect_body c (collect_calls c),
        mkBaseCollector (name c) (config c) (_status c) (collect_body c)
          (validate_config_body c) (S (collect_calls c)) (validate_config_calls c)).

(** [await self.validate_config()] *)
Definition validate_config : M (BaseCollector T) bool :=
  λ c, (validate_config_body c (validate_config_calls c),
        mkBaseCollector (name c) (config c) (_status c) (collect_body c)
          (validate_config_body c) (collect_calls c) (S (validate_config_calls c))).

Definition run : M (BaseCollector T) (CollectorResult T) :=
  modify (set_status RUNNING) ;;
  try_except
    (ok <- validate_config ;;
     self_name <- gets name ;;
     (if negb ok
      then raise (ValueError ("Invalid configuration for " ++ self_name))
      else ret tt) ;;
     result <- collect ;;
     let result := set_source result self_name in
     (match errors result with
      | _ :: _ => modify (set_status PARTIAL)
      | [] => modify (set_status SUCCESS)
      end) ;;
     ret result)
    (λ e,
     modify (set_status FAILED) ;;
     self_name <- gets name ;;
     ret (CollectorResult_init FAILED None (Some [exc_str e]) None None None
            (Some self_name))).

(** [errors or []] and [metadata or {}]: [None] and the empty value both
    give the empty value; [not errors] holds for [None] and for []. *)
Definition _create_result (self : BaseCollector T) (data : list T)
    (errors : option (list string)) (metadata : option (gmap string string))
    : CollectorResult T :=
  CollectorResult_init
    (match errors with Some (_ :: _) => PARTIAL | _ => SUCCESS end)
    (Some data) (Some (default [] errors)) (Some (default ∅ metadata))
    None None (Some (name self)).

(** [BaseCollector.__init__]: [self.config = config or {}] and the status
    starts [PENDING]. The name is the class attribute [name]; the bodies of
    the abstract methods come with the subclass. *)
Definition __init__ (name : string) (config : option (gmap string string))
    (collect_body : nat → outcome (CollectorResult T))
    (validate_config_body : nat → outcome bool) : BaseCollector T :=
  mkBaseCollector name (default ∅ config) PENDING collect_body
    validate_config_body 0 0.

(** [async def close(self): pass] *)
Definition close : M (BaseCollector T) unit := ret tt.

(** The abstract methods of the unit raise nothing but instances of
    [Exception], at any invocation. *)
Definition raises_only_Exception (c : BaseCollector T) : Prop :=
  ∀ n, escaping (validate_config_body c n) = None
       ∧ escaping (collect_body c n) = None.
End Contract.

End base_collector.

(** ** [src/analyzers/base_analyzer.py] *)

Module base_analyzer.

Inductive AnalysisStatus := PENDING | RUNNING | SUCCESS | FAILED | PARTIAL.

Record AnalysisResult (R : Type) := mkAnalysisResult {
  status : AnalysisStatus;
  result : option R;
  insights : list string;
  metadata : gmap string string;
  analyzed_at : datetime;
  source : string;
  errors : list string
}.
Arguments mkAnalysisResult {R}.
Arguments status {R}.
Arguments result {R}.
Arguments insights {R}.
Arguments metadata {R}.
Arguments analyzed_at {R}.
Arguments source {R}.
Arguments errors {R}.

Definition set_source {R} (r : AnalysisResult R) (s : string) : AnalysisResult R :=
  mkAnalysisResult (status r) (result r) (insights r) (metadata r) (analyzed_at r)
    s (errors r).

(** An analysis unit. [_last_result] is an attribute that only [run] creates
    and [_last_results] one that only the coordinator creates: [None] is the
    attribute being absent. [analyze_calls] is the ghost record of the inputs
    [analyze] was invoked on, oldest first. *)
Record BaseAnalyzer (T R : Type) := mkBaseAnalyzer {
  name : string;
  config : gmap string string;
  _status : AnalysisStatus;
  _last_result : option (AnalysisResult R);
  _last_results : option (list R);
  analyze_body : nat → T → outcome (AnalysisResult R);
  analyze_calls : list T
}.
Arguments mkBaseAnalyzer {T R}.
Arguments name {T R}.
Arguments config {T R}.
Arguments _status {T R}.
Arguments _last_result {T R}.
Arguments _last_results {T R}.
Arguments analyze_body {T R}.
Arguments analyze_calls {T R}.

Definition set_status {T R} (st : AnalysisStatus) (a : BaseAnalyzer T R) : BaseAnalyzer T R :=
  mkBaseAnalyzer (name a) (config a) st (_last_result a) (_last_results a)
    (analyze_body a) (analyze_calls a).

Definition set_last_result {T R} (r : AnalysisResult R) (a : BaseAnalyzer T R)
    : BaseAnalyzer T R :=
  mkBaseAnalyzer (name a) (config a) (_status a) (Some r) (_last_results a)
    (analyze_body a) (analyze_calls a).

Definition set_last_results {T R} (l : list R) (a : BaseAnalyzer T R)
    : BaseAnalyzer T R :=
  mkBaseAnalyzer (name a) (config a) (_status a) (_last_result a) (Some l)
    (analyze_body a) (analyze_calls a).

Section Contract.
Context {T R : Type}.
Variable now : datetime.

Definition AnalysisResult_init (status : AnalysisStatus) (result : option R)
    (insights : option (list string)) (metadata : option (gmap string string))
    (analyzed_at : option datetime) (source : option string)
    (errors : option (list string)) : AnalysisResult R :=
  mkAnalysisResult status result (default [] insights) (default ∅ metadata)
    (default now analyzed_at) (default "" source) (default [] errors).

(** [await self.analyze(data)] *)
Definition analyze (data : T) : M (BaseAnalyzer T R) (AnalysisResult R) :=
  λ a, (analyze_body a (length (analyze_calls a)) data,
        mkBaseAnalyzer (name a) (config a) (_status a) (_last_result a)
          (_last_results a) (analyze_body a) (analyze_calls a ++ [data])).

Definition run (data : T) : M (BaseAnalyzer T R) (AnalysisResult R) :=
  modify (set_status RUNNING) ;;
  try_except
    (result <- analyze data ;;
     self_name <- gets name ;;
     let result := set_source result self_name in
     modify (set_last_result result) ;;
     (match errors result with
      | _ :: _ => modify (set_status PARTIAL)
      | [] => modify (set_status SUCCESS)
      end) ;;
     ret result)
    (λ e,
     modify (set_status FAILED) ;;
     self_name <- gets name ;;
     ret (AnalysisResult_init FAILED None None None None (Some self_name)
            (Some [exc_str e]))).

(** [BaseAnalyzer.__init__]: [self.config = config or {}] and the status
    starts [PENDING]; no result is retained yet. *)
Definition __init__ (name : string) (config : option (gmap string string))
    (analyze_body : nat → T → outcome (AnalysisResult R)) : BaseAnalyzer T R :=
  mkBaseAnalyzer name (default ∅ config) PENDING None None analyze_body [].

(** The body of the unit raises nothing but instances of [Exception], at
    any invocation. *)
Definition raises_only_Exception (a : BaseAnalyzer T R) : Prop :=
  ∀ n data, escaping (analyze_body a n data) = None.
End Contract.

End base_analyzer.

(** ** [src/config/settings.py]: the scheduler settings *)

Module settings.

Record SchedulerSettings := mkSchedulerSettings {
  enabled : bool;
  timezone : string;
  collector_schedule : string;
  analyzer_schedule : string;
  report_schedule : string;
  max_retries : Z;
  retry_delay : Z
}.

(** The declared defaults, [SchedulerSettings()]. *)
Definition SchedulerSettings_default : SchedulerSettings :=
  mkSchedulerSettings true "Asia/Shanghai" "0 6 * * *" "0 8 * * *" "0 10 * * *"
    3%Z 300%Z.

(** What [yaml.safe_load] gives: null, booleans, integers, strings,
    sequences and mappings with string keys. *)
#[local] Unset Elimination Schemes.
Inductive yaml :=
| YNull
| YBool (b : bool)
| YInt (z : Z)
| YStr (s : string)
| YSeq (l : list yaml)
| YMap (d : gmap string yaml).
#[local] Set Elimination Schemes.

(** [bool(y)] *)
Definition yaml_truthy (y : yaml) : bool :=
  match y with
  | YNull => false
  | YBool b => b
  | YInt z => negb (Z.eqb z 0)
  | YStr s => negb (String.eqb s "")
  | YSeq l => match l with [] => false | _ :: _ => true end
  | YMap d => negb (bool_decide (d = ∅))
  end.

Definition yaml_type_name (y : yaml) : string :=
  match y with
  | YNull => "NoneType"
  | YBool _ => "bool"
  | YInt _ => "int"
  | YStr _ => "str"
  | YSeq _ => "list"
  | YMap _ => "dict"
  end.

(** [a or b] on the results of [os.getenv]: [a] unless it is [None] or the
    empty string. *)
Definition getenv_or (a b : option string) : option string :=
  match a with
  | Some s => if String.eqb s "" then b else a
  | None => b
  end.


(** [collector[key] = value] for a string key. *)
Definition collector_setitem (collector : yaml) (key value : string) : outcome yaml :=
  match collector with
  | YMap c => Return (YMap (<[key := YStr value]> c))
  | YSeq _ =>
      Raise (mkException "TypeError" "list indices must be integers or slices, not str")
  | _ =>
      Raise (mkException "TypeError"
               ("'" ++ yaml_type_name collector
                ++ "' object does not support item assignment"))
  end.

(** [for key, value in env_settings.items(): if value is not None:
    settings_dict["collector"][key] = value] *)
Fixpoint apply_env (env_settings : list (string * option string)) (collector : yaml)
    : outcome yaml :=
  match env_settings with
  | [] => Return collector
  | (key, Some value) :: rest =>
      match collector_setitem collector key value with
      | Return collector' => apply_env rest collector'
      | Raise e => Raise e
      end
  | (_, None) :: rest => apply_env rest collector
  end.

(** The local [settings_dict] of [load_settings] when the [return] is
    reached. [read path] is what opening and parsing the file does, [None]
    when [config_path.exists()] is false; [getenv] is [os.getenv]. *)
Definition settings_dict (read : string → option (outcome yaml))
    (getenv : string → option string) (config_path : option string)
    : outcome (gmap string yaml) :=
  let loaded :=
    match config_path with
    | Some path =>
        match read path with
        | Some (Return y) => Return (if yaml_truthy y then y else YMap ∅)
        | Some (Raise e) => Raise e
        | None => Return (YMap ∅)
        end
    | None => Return (YMap ∅)
    end in
  let env_settings :=
    [ ("github_token", getenv "GITHUB_TOKEN");
      ("hf_token", getenv "HUGGINGFACE_TOKEN");
      ("llm_api_key", getenv_or (getenv "ANTHROPIC_API_KEY") (getenv "OPENAI_API_KEY")) ] in
  match loaded with
  | Raise e => Raise e
  | Return (YMap settings_dict) =>
      match settings_dict !! "collector" with
      | Some collector =>
          if yaml_truthy collector
          then match apply_env env_settings collector with
               | Return collector' => Return (<["collector" := collector']> settings_dict)
               | Raise e => Raise e
               end
          else Return settings_dict
      | None => Return settings_dict
      end
  | Return y =>
      Raise (AttributeError ("'" ++ yaml_type_name y ++ "' object has no attribute 'get'"))
  end.

(** [load_settings] returns [Settings] applied to the entries of
    [settings_dict] as keyword arguments. The constructor is pydantic's: it
    validates the keyword arguments, takes what they leave out from the
    environment and the declared defaults, and returns the settings object
    or raises (a [ValidationError]). It is a parameter,
    [Settings_init getenv kwargs]. *)
Definition load_settings {Settings : Type}
    (Settings_init : (string → option string) → gmap string yaml → outcome Settings)
    (read : string → option (outcome yaml))
    (getenv : string → option string) (config_path : option string)
    : outcome Settings :=
  match settings_dict read getenv config_path with
  | Return kwargs => Settings_init getenv kwargs
  | Raise e => Raise e
  end.

End settings.

(** ** [src/scheduler/jobs.py] *)

Module jobs.

(** The types the coordinator handles without defining them, with the
    attributes and the truth values it reads: the collected items, the
    payload of the insight analysis and the payload of a structural analysis.
    Their classes are in modules the coordinator imports. *)
Class Payloads := {
  Item : Type;
  model_id : Item → string;
  author : Item → string;
  pipeline_tag : Item → string;
  Insights : Type;
  (** [bool(payload)] *)
  insights_truthy : Insights → bool;
  (** [len(payload.insights)], [None] when [hasattr(payload, 'insights')]
      is false *)
  insights_len : Insights → option Z;
  ModelAnalysis : Type;
  analysis_truthy : ModelAnalysis → bool;
  model_name : ModelAnalysis → string
}.

(** [generate]'s report descriptor: [file_path], [title], [status.value].
    [file_path] is [None], a string or a [Path]; a [Path] is held as its
    string, which is never empty. *)
Record Report := mkReport {
  file_path : option string;
  title : string;
  status_value : string
}.

(** [str(report.file_path) if report.file_path else None]: [None] and the
    empty string are falsy. *)
Definition path_of (report : Report) : option string :=
  match file_path report with
  | Some s => if String.eqb s "" then None else Some s
  | None => None
  end.

(** What [MemoryStore.store] is given as [value]. The timestamp is kept as
    the [datetime] whose [isoformat()] is stored. *)
Inductive StoreValue :=
| LastCollection (timestamp : datetime) (models papers repos hf_models : Z)
| LastAnalysis (timestamp : datetime) (insight_count model_analyses : Z).

(** The memory store collaborator: what [store] does at its n-th invocation,
    and the ghost record of the invocations. A store object is truthy:
    [if self.memory_store] asks whether there is one. *)
Record MemoryStore := mkMemoryStore {
  store_body : nat → string → StoreValue → outcome unit;
  store_calls : list (string * StoreValue)
}.

(** [await memory_store.store(key=key, value=value)] *)
Definition store (key : string) (value : StoreValue) : M MemoryStore unit :=
  λ ms, (store_body ms (length (store_calls ms)) key value,
         mkMemoryStore (store_body ms) (store_calls ms ++ [(key, value)])).

(** A report generator delegate; the format argument is always
    [ReportFormat.PPT]. *)
Record Generator (P : Type) := mkGenerator {
  generate_body : nat → P → outcome Report;
  generate_calls : list P
}.
Arguments mkGenerator {P}.
Arguments generate_body {P}.
Arguments generate_calls {P}.

(** [generate] raises nothing but instances of [Exception], at any
    invocation. *)
Definition generator_raises_only_Exception {P} (g : Generator P) : Prop :=
  ∀ n payload, escaping (generate_body g n payload) = None.

(** [await generator.generate(payload, format=ReportFormat.PPT)] *)
Definition generate {P} (payload : P) : M (Generator P) Report :=
  λ g, (generate_body g (length (generate_calls g)) payload,
        mkGenerator (generate_body g) (generate_calls g ++ [payload])).

(** The input the coordinator builds for the structural analyzer:
    [{"model_info": {"name": .., "provider": .., "type": ..}, "config": {}}] *)
Record ModelData := mkModelData {
  mi_name : string;
  mi_provider : string;
  mi_type : string
}.

Section Coordinator.
Context `{Payloads}.
Variable now : datetime.

(** The values of the coordinator's [dict[str, Any]] mappings. *)
#[local] Unset Elimination Schemes.
Inductive pyobj :=
| PyNone
| PyStr (s : string)
| PyItem (i : Item)
| PyInsights (r : Insights)
| PyModelAnalysis (r : ModelAnalysis)
| PyList (l : list pyobj)
(** [{"path": .., "title": .., "status": ..}] *)
| PyInsightReport (path : option string) (title status : string)
(** [{"path": .., "model": .., "status": ..}] *)
| PyModelReport (path : option string) (model status : string).
#[local] Set Elimination Schemes.

(** [bool(v)] *)
Definition py_truthy (v : pyobj) : bool :=
  match v with
  | PyNone => false
  | PyStr s => negb (String.eqb s "")
  | PyList l => match l with [] => false | _ :: _ => true end
  | PyInsights r => insights_truthy r
  | PyModelAnalysis r => analysis_truthy r
  | PyItem _ | PyInsightReport _ _ _ | PyModelReport _ _ _ => true
  end.

Definition type_name (v : pyobj) : string :=
  match v with
  | PyNone => "NoneType"
  | PyStr _ => "str"
  | PyList _ => "list"
  | PyInsightReport _ _ _ | PyModelReport _ _ _ => "dict"
  | PyItem _ | PyInsights _ | PyModelAnalysis _ => "object"
  end.

(** [len(v)] *)
Definition py_len (v : pyobj) : outcome Z :=
  match v with
  | PyList l => Return (len l)
  | PyStr s => Return (Z.of_nat (String.length s))
  | PyInsightReport _ _ _ | PyModelReport _ _ _ => Return 3%Z
  | _ => Raise (mkException "TypeError"
                  ("object of type '" ++ type_name v ++ "' has no len()"))
  end.

(** [v.append(x)] *)
Definition py_append (v x : pyobj) : outcome pyobj :=
  match v with
  | PyList l => Return (PyList (l ++ [x]))
  | _ => Raise (AttributeError
                  ("'" ++ type_name v ++ "' object has no attribute 'append'"))
  end.

Fixpoint chars (s : string) : list pyobj :=
  match s with
  | EmptyString => []
  | String c s' => PyStr (String c EmptyString) :: chars s'
  end.

(** The elements [for x in v[:n]] iterates over. A [dict] takes the slice
    for a key, which cannot be hashed (up to Python 3.11; later versions
    hash it and raise a [KeyError] instead). *)
Definition py_slice_elements (n : nat) (v : pyobj) : outcome (list pyobj) :=
  match v with
  | PyList l => Return (take n l)
  | PyStr s => Return (take n (chars s))
  | PyInsightReport _ _ _ | PyModelReport _ _ _ =>
      Raise (mkException "TypeError" "unhashable type: 'slice'")
  | _ => Raise (mkException "TypeError"
                  ("'" ++ type_name v ++ "' object is not subscriptable"))
  end.

(** [model.<attr>] for the attributes of a collected item. *)
Definition getattr_item (attr : string) (proj : Item → string) (v : pyobj)
    : outcome string :=
  match v with
  | PyItem i => Return (proj i)
  | _ => Raise (AttributeError
                  ("'" ++ type_name v ++ "' object has no attribute '" ++ attr ++ "'"))
  end.

(** Operations on a [dict] held in a local variable. *)
Definition getitem (key : string) : M (gmap string pyobj) pyobj :=
  λ d, match d !! key with
       | Some v => (Return v, d)
       | None => (Raise (KeyError key), d)
       end.
Definition setitem (key : string) (v : pyobj) : M (gmap string pyobj) unit :=
  modify (<[key := v]>).
(** [d[key].append(x)] *)
Definition append_to (key : string) (x : pyobj) : M (gmap string pyobj) unit :=
  v <- getitem key ;;
  v' <- lift_outcome (py_append v x) ;;
  setitem key v'.

Record DailyJobManager := mkDailyJobManager {
  config : gmap string (gmap string string);
  memory_store : option MemoryStore;
  ai_model_collector : base_collector.BaseCollector Item;
  github_collector : base_collector.BaseCollector Item;
  hf_collector : base_collector.BaseCollector Item;
  arxiv_collector : base_collector.BaseCollector Item;
  insight_analyzer : base_analyzer.BaseAnalyzer (gmap string pyobj) Insights;
  model_analyzer : base_analyzer.BaseAnalyzer ModelData ModelAnalysis;
  insight_generator : Generator Insights;
  model_generator : Generator ModelAnalysis;
  _last_collection : gmap string datetime;
  _collected_data : gmap string pyobj
}.

Definition set_memory_store (x : option MemoryStore) (m : DailyJobManager) :=
  mkDailyJobManager (config m) x (ai_model_collector m) (github_collector m)
    (hf_collector m) (arxiv_collector m) (insight_analyzer m) (model_analyzer m)
    (insight_generator m) (model_generator m) (_last_collection m) (_collected_data m).
Definition set_ai_model_collector x (m : DailyJobManager) :=
  mkDailyJobManager (config m) (memory_store m) x (github_collector m)
    (hf_collector m) (arxiv_collector m) (insight_analyzer m) (model_analyzer m)
    (insight_generator m) (model_generator m) (_last_collection m) (_collected_data m).
Definition set_github_collector x (m : DailyJobManager) :=
  mkDailyJobManager (config m) (memory_store m) (ai_model_collector m) x
    (hf_collector m) (arxiv_collector m) (insight_analyzer m) (model_analyzer m)
    (insight_generator m) (model_generator m) (_last_collection m) (_collected_data m).
Definition set_hf_collector x (m : DailyJobManager) :=
  mkDailyJobManager (config m) (memory_store m) (ai_model_collector m)
    (github_collector m) x (arxiv_collector m) (insight_analyzer m) (model_analyzer m)
    (insight_generator m) (model_generator m) (_last_collection m) (_collected_data m).
Definition set_arxiv_collector x (m : DailyJobManager) :=
  mkDailyJobManager (config m) (memory_store m) (ai_model_collector m)
    (github_collector m) (hf_collector m) x (insight_analyzer m) (model_analyzer m)
    (insight_generator m) (model_generator m) (_last_collection m) (_collected_data m).
Definition set_insight_analyzer x (m : DailyJobManager) :=
  mkDailyJobManager (config m) (memory_store m) (ai_model_collector m)
    (github_collector m) (hf_collector m) (arxiv_collector m) x (model_analyzer m)
    (insight_generator m) (model_generator m) (_last_collection m) (_collected_data m).
Definition set_model_analyzer x (m : DailyJobManager) :=
  mkDailyJobManager (config m) (memory_store m) (ai_model_collector m)
    (github_collector m) (hf_collector m) (arxiv_collector m) (insight_analyzer m) x
    (insight_generator m) (model_generator m) (_last_collection m) (_collected_data m).
Definition set_insight_generator x (m : DailyJobManager) :=
  mkDailyJobManager (config m) (memory_store m) (ai_model_collector m)
    (github_collector m) (hf_collector m) (arxiv_collector m) (insight_analyzer m)
    (model_analyzer m) x (model_generator m) (_last_collection m) (_collected_data m).
Definition set_model_generator x (m : DailyJobManager) :=
  mkDailyJobManager (config m) (memory_store m) (ai_model_collector m)
    (github_collector m) (hf_collector m) (arxiv_collector m) (insight_analyzer m)
    (model_analyzer m) (insight_generator m) x (_last_collection m) (_collected_data m).
Definition set_last_collection x (m : DailyJobManager) :=
  mkDailyJobManager (config m) (memory_store m) (ai_model_collector m)
    (github_collector m) (hf_collector m) (arxiv_collector m) (insight_analyzer m)
    (model_analyzer m) (insight_generator m) (model_generator m) x (_collected_data m).
Definition set_collected_data x (m : DailyJobManager) :=
  mkDailyJobManager (config m) (memory_store m) (ai_model_collector m)
    (github_collector m) (hf_collector m) (arxiv_collector m) (insight_analyzer m)
    (model_analyzer m) (insight_generator m) (model_generator m) (_last_collection m) x.

(** The collaborators are built by their classes from
    [config.get("collector", {})] and [config.get("analyzer", {})]; the
    two caches start empty. *)
Definition __init__ (config : gmap string (gmap string string))
    (memory_store : option MemoryStore)
    (ai_model_collector github_collector hf_collector arxiv_collector :
       base_collector.BaseCollector Item)
    (insight_analyzer : base_analyzer.BaseAnalyzer (gmap string pyobj) Insights)
    (model_analyzer : base_analyzer.BaseAnalyzer ModelData ModelAnalysis)
    (insight_generator : Generator Insights)
    (model_generator : Generator ModelAnalysis) : DailyJobManager :=
  mkDailyJobManager config memory_store ai_model_collector github_collector
    hf_collector arxiv_collector insight_analyzer model_analyzer
    insight_generator model_generator ∅ ∅.

(** [await self.memory_store.store(key=key, value=value)] *)
Definition memory_store_store (key : string) (value : StoreValue)
    : M DailyJobManager unit :=
  λ m, match memory_store m with
       | Some ms =>
           let '(o, ms') := store key value ms in
           (o, set_memory_store (Some ms') m)
       | None =>
           (Raise (AttributeError "'NoneType' object has no attribute 'store'"), m)
       end.

(** The collector is passed as the field that holds it. *)
Definition _safe_collect (name : string)
    (collector : DailyJobManager → base_collector.BaseCollector Item)
    (set_collector : base_collector.BaseCollector Item → DailyJobManager → DailyJobManager)
    : M DailyJobManager (base_collector.CollectorResult Item) :=
  try_except (zoom collector set_collector (base_collector.run now))
    (λ e, raise e).

(** What reading [e.data] raises for an exception object [e]. *)
Definition no_data (e : PyException) : PyException :=
  AttributeError ("'" ++ exc_class e ++ "' object has no attribute 'data'").

(** [result.data] for a gathered result: the payload of an envelope; an
    exception object has no such attribute. *)
Definition result_data (result : outcome (base_collector.CollectorResult Item))
    : outcome pyobj :=
  match result with
  | Return result => Return (PyList (PyItem <$> base_collector.data result))
  | Raise e => Raise (no_data e)
  end.

(** [results[slot] = result.data], for the slot of the task [name]. *)
Definition set_slot (name : string)
    (result : outcome (base_collector.CollectorResult Item))
    : M (gmap string pyobj) unit :=
  if String.eqb name "ai_models"
  then data <- lift_outcome (result_data result) ;; setitem "models" data
  else if String.eqb name "github"
  then data <- lift_outcome (result_data result) ;; setitem "repos" data
  else if String.eqb name "huggingface"
  then data <- lift_outcome (result_data result) ;; setitem "hf_models" data
  else if String.eqb name "arxiv"
  then data <- lift_outcome (result_data result) ;; setitem "papers" data
  else ret tt.

(** The body of the loop over [zip(names, collected)]:
    [if isinstance(result, Exception): .. elif result: ..]. An envelope is
    a dataclass instance and an exception is an object without [__bool__]
    or [__len__]: both are truthy, so the second branch is taken whenever
    the result is not an instance of [Exception]. *)
Definition aggregate_result (name : string)
    (result : outcome (base_collector.CollectorResult Item))
    : M (gmap string pyobj) unit :=
  match result with
  | Raise e =>
      if exc_is_Exception e
      then append_to "errors" (PyStr (name ++ ": " ++ exc_str e))
      else set_slot name result
  | Return _ => set_slot name result
  end.

Definition run_collection_job : M DailyJobManager (gmap string pyobj) :=
  let start_time := now in
  with_locals
    ({[ "models" := PyList []; "papers" := PyList []; "repos" := PyList [];
        "hf_models" := PyList []; "errors" := PyList [] ]} : gmap string pyobj)
    (collected <- self (gather
       [ _safe_collect "ai_models" ai_model_collector set_ai_model_collector;
         _safe_collect "github" github_collector set_github_collector;
         _safe_collect "huggingface" hf_collector set_hf_collector;
         _safe_collect "arxiv" arxiv_collector set_arxiv_collector ]) ;;
     local (for_each (zip ["ai_models"; "github"; "huggingface"; "arxiv"] collected)
              (λ nr, aggregate_result nr.1 nr.2)) ;;
     results <- local (gets id) ;;
     self (modify (set_collected_data results)) ;;
     self (modify (λ m, set_last_collection
                          (<["all" := start_time]> (_last_collection m)) m)) ;;
     ms <- self (gets memory_store) ;;
     (match ms with
      | Some _ =>
          models <- local (getitem "models") ;;
          n_models <- lift_outcome (py_len models) ;;
          papers <- local (getitem "papers") ;;
          n_papers <- lift_outcome (py_len papers) ;;
          repos <- local (getitem "repos") ;;
          n_repos <- lift_outcome (py_len repos) ;;
          hf_models <- local (getitem "hf_models") ;;
          n_hf_models <- lift_outcome (py_len hf_models) ;;
          self (memory_store_store "last_collection"
                  (LastCollection start_time n_models n_papers n_repos n_hf_models))
      | None => ret tt
      end) ;;
     ret results).

(** The locals of [run_analysis_job]: [results] and
    [model_analyses_results]. *)
Definition on_results {A} (m : M (gmap string pyobj) A)
    : M (DailyJobManager * (gmap string pyobj * list ModelAnalysis)) A :=
  local (zoom fst (λ r l, (r, l.2)) m).
Definition on_model_analyses_results {A} (m : M (list ModelAnalysis) A)
    : M (DailyJobManager * (gmap string pyobj * list ModelAnalysis)) A :=
  local (zoom snd (λ r l, (l.1, r)) m).

(** [len(results["insights"].insights) if results.get("insights") and
    hasattr(results["insights"], 'insights') else 0]; of the values of the
    mappings only an insight payload can have the attribute. *)
Definition insight_count_of (results : gmap string pyobj) : Z :=
  match results !! "insights" with
  | Some v =>
      if py_truthy v
      then match v with
           | PyInsights r => default 0%Z (insights_len r)
           | _ => 0%Z
           end
      else 0%Z
  | None => 0%Z
  end.

(** The body of the loop over the first five [hf_models]. The handler's
    message reads [model.model_id] again. *)
Definition analyze_model (model : pyobj)
    : M (DailyJobManager * (gmap string pyobj * list ModelAnalysis)) unit :=
  try_except
    (name <- lift_outcome (getattr_item "model_id" model_id model) ;;
     provider <- lift_outcome (getattr_item "author" author model) ;;
     type <- lift_outcome (getattr_item "pipeline_tag" pipeline_tag model) ;;
     let model_data := mkModelData name provider type in
     analysis_result <- self (zoom model_analyzer set_model_analyzer
                                (base_analyzer.run now model_data)) ;;
     match base_analyzer.result analysis_result with
     | Some r =>
         if analysis_truthy r
         then on_results (append_to "model_analyses" (PyModelAnalysis r)) ;;
              on_model_analyses_results (modify (λ l, l ++ [r]))
         else ret tt
     | None => ret tt
     end)
    (λ e,
     _ <- lift_outcome (getattr_item "model_id" model_id model) ;;
     ret tt).

Definition run_analysis_job : M DailyJobManager (gmap string pyobj) :=
  let start_time := now in
  collected_data <- gets _collected_data ;;
  if bool_decide (collected_data = ∅)
  then ret ({[ "error" := PyStr "No data available" ]} : gmap string pyobj)
  else
  with_locals
    (({[ "insights" := PyNone; "model_analyses" := PyList [];
         "errors" := PyList [] ]} : gmap string pyobj), [])
    (try_except
       (collected_data <- self (gets _collected_data) ;;
        insight_result <- self (zoom insight_analyzer set_insight_analyzer
                                  (base_analyzer.run now collected_data)) ;;
        match base_analyzer.result insight_result with
        | Some r =>
            if insights_truthy r
            then on_results (setitem "insights" (PyInsights r))
            else ret tt
        | None => ret tt
        end)
       (λ e, on_results (append_to "errors"
                           (PyStr ("Insight analysis: " ++ exc_str e)))) ;;
     collected_data <- self (gets _collected_data) ;;
     models <- lift_outcome
                 (py_slice_elements 5
                    (default (PyList []) (collected_data !! "hf_models"))) ;;
     for_each models analyze_model ;;
     model_analyses_results <- local (gets snd) ;;
     self (modify (λ m, set_model_analyzer
                          (base_analyzer.set_last_results model_analyses_results
                             (model_analyzer m)) m)) ;;
     ms <- self (gets memory_store) ;;
     (match ms with
      | Some _ =>
          results <- local (gets fst) ;;
          let insight_count := insight_count_of results in
          model_analyses <- on_results (getitem "model_analyses") ;;
          n_model_analyses <- lift_outcome (py_len model_analyses) ;;
          self (memory_store_store "last_analysis"
                  (LastAnalysis start_time insight_count n_model_analyses))
      | None => ret tt
      end) ;;
     local (gets fst)).

(** The body of the loop over the retained structural analyses. *)
Definition report_model (model_analysis : ModelAnalysis)
    : M (DailyJobManager * gmap string pyobj) unit :=
  try_except
    (report <- self (zoom model_generator set_model_generator
                       (generate model_analysis)) ;;
     local (append_to "model_reports"
              (PyModelReport (path_of report) (model_name model_analysis)
                 (status_value report))))
    (λ e, ret tt).

Definition run_report_job : M DailyJobManager (gmap string pyobj) :=
  with_locals
    ({[ "insight_report" := PyNone; "model_reports" := PyList [];
        "errors" := PyList [] ]} : gmap string pyobj)
    (analysis_data <- self (gets (λ m, base_analyzer._last_result (insight_analyzer m))) ;;
     (match analysis_data with
      | Some analysis_data =>
          match base_analyzer.result analysis_data with
          | Some r =>
              if insights_truthy r
              then
                try_except
                  (report <- self (zoom insight_generator set_insight_generator
                                     (generate r)) ;;
                   local (setitem "insight_report"
                            (PyInsightReport (path_of report) (title report)
                               (status_value report))))
                  (λ e, local (append_to "errors"
                                 (PyStr ("Insight report generation: " ++ exc_str e))))
              else ret tt
          | None => ret tt
          end
      | None => ret tt
      end) ;;
     last_results <- self (gets (λ m, default []
                                        (base_analyzer._last_results (model_analyzer m)))) ;;
     for_each last_results report_model ;;
     local (gets id)).

(** The composite result: the three stage outputs (the duration and the
    completion time are clock readings). *)
Definition run_full_pipeline
    : M DailyJobManager (gmap string pyobj * gmap string pyobj * gmap string pyobj) :=
  collection <- run_collection_job ;;
  analysis <- run_analysis_job ;;
  reports <- run_report_job ;;
  ret (collection, analysis, reports).
(** *** Notions used to state the properties of the stages *)

(** What the four tasks of the collect stage give [gather], in the order
    of the tasks: what the [run] of each unit returns or raises. *)
Definition gathered (m : DailyJobManager)
    : list (outcome (base_collector.CollectorResult Item)) :=
  [ (base_collector.run now (ai_model_collector m)).1;
    (base_collector.run now (github_collector m)).1;
    (base_collector.run now (hf_collector m)).1;
    (base_collector.run now (arxiv_collector m)).1 ].

(** What the aggregation loop appends to [errors] for a task: an entry
    when the task raised an instance of [Exception], nothing when it
    returned an envelope. *)
Definition raised_entry (name : string)
    (result : outcome (base_collector.CollectorResult Item)) : list pyobj :=
  match result with
  | Raise e => if exc_is_Exception e then [PyStr (name ++ ": " ++ exc_str e)] else []
  | Return _ => []
  end.

(** What the aggregation loop leaves in the slot of a task: the payload
    of the envelope it returned, or the initial empty list. *)
Definition slot_of (result : outcome (base_collector.CollectorResult Item)) : pyobj :=
  match result with
  | Return r => PyList (PyItem <$> base_collector.data r)
  | Raise _ => PyList []
  end.

(** The input of the structural analyzer for a collected item. *)
Definition model_data_of (model : Item) : ModelData :=
  mkModelData (model_id model) (author model) (pipeline_tag model).

(** The dictionary [results] starts from in [run_collection_job]. *)
Definition empty_collection : gmap string pyobj :=
  {[ "models" := PyList []; "papers" := PyList []; "repos" := PyList [];
     "hf_models" := PyList []; "errors" := PyList [] ]}.
(** What the aggregation loop makes of the outcomes of the four tasks,
    given in the order of the tasks. *)
Definition aggregated
    (ai_models github huggingface arxiv : outcome (base_collector.CollectorResult Item))
    : gmap string pyobj :=
  {[ "models" := slot_of ai_models; "papers" := slot_of arxiv;
     "repos" := slot_of github; "hf_models" := slot_of huggingface;
     "errors" := PyList (raised_entry "ai_models" ai_models
                         ++ raised_entry "github" github
                         ++ raised_entry "huggingface" huggingface
                         ++ raised_entry "arxiv" arxiv) ]}.

(** The count the collect stage reports for a slot. *)
Definition slot_len (result : outcome (base_collector.CollectorResult Item)) : Z :=
  match result with
  | Return r => len (base_collector.data r)
  | Raise _ => 0%Z
  end.
(** What the analyze stage keeps of an analysis envelope: its payload when
    it has a truthy one. *)
Definition kept (analysis_result : base_analyzer.AnalysisResult ModelAnalysis)
    : list ModelAnalysis :=
  match base_analyzer.result analysis_result with
  | Some r => if analysis_truthy r then [r] else []
  | None => []
  end.

(** Running the structural analyzer on collected items one after the
    other, up to the first [run] that raises: the analyzer afterwards and
    the payloads kept. *)
Fixpoint analyses (a : base_analyzer.BaseAnalyzer ModelData ModelAnalysis)
    (models : list Item)
    : base_analyzer.BaseAnalyzer ModelData ModelAnalysis * list ModelAnalysis :=
  match models with
  | [] => (a, [])
  | model :: models' =>
      let '(o, a1) := base_analyzer.run now (model_data_of model) a in
      match o with
      | Return r => let '(a2, ks) := analyses a1 models' in (a2, kept r ++ ks)
      | Raise _ => (a1, [])
      end
  end.

(** What the first such [run] that raises, if any, raises. *)
Fixpoint analyses_raised (a : base_analyzer.BaseAnalyzer ModelData ModelAnalysis)
    (models : list Item) : option PyException :=
  match models with
  | [] => None
  | model :: models' =>
      let '(o, a1) := base_analyzer.run now (model_data_of model) a in
      match o with
      | Return _ => analyses_raised a1 models'
      | Raise e => Some e
      end
  end.

(** What leaves the analyze stage from its analyzers, when [hf_models]
    holds [models]: what the [run] of the insight analyzer raises, or else
    what the first [run] of the structural analyzer that raises does, over
    the first five items. *)
Definition analysis_escaping (m : DailyJobManager) (models : list Item)
    : option PyException :=
  match (base_analyzer.run now (_collected_data m) (insight_analyzer m)).1 with
  | Raise e => Some e
  | Return _ => analyses_raised (model_analyzer m) (take 5 models)
  end.

(** The dictionary [results] starts from in [run_analysis_job], and what
    the insight envelope adds to it. *)
Definition empty_analysis : gmap string pyobj :=
  {[ "insights" := PyNone; "model_analyses" := PyList []; "errors" := PyList [] ]}.

Definition with_insights (insight_result : base_analyzer.AnalysisResult Insights)
    (results : gmap string pyobj) : gmap string pyobj :=
  match base_analyzer.result insight_result with
  | Some r => if insights_truthy r then <["insights" := PyInsights r]> results else results
  | None => results
  end.

(** Generating the model reports one after the other, up to the first
    [generate] that raises past the handler: the generator afterwards and
    the entries appended to [model_reports]. *)
Fixpoint model_reports (g : Generator ModelAnalysis) (l : list ModelAnalysis)
    : Generator ModelAnalysis * list pyobj :=
  match l with
  | [] => (g, [])
  | model_analysis :: l' =>
      let '(o, g1) := generate model_analysis g in
      match escaping o with
      | Some _ => (g1, [])
      | None =>
          let '(g2, rs) := model_reports g1 l' in
          (g2, match o with
               | Return report =>
                   [PyModelReport (path_of report) (model_name model_analysis)
                      (status_value report)]
               | Raise _ => []
               end ++ rs)
      end
  end.

(** What the first such [generate], if any, raises. *)
Fixpoint model_reports_raised (g : Generator ModelAnalysis) (l : list ModelAnalysis)
    : option PyException :=
  match l with
  | [] => None
  | model_analysis :: l' =>
      let '(o, g1) := generate model_analysis g in
      match escaping o with
      | Some e => Some e
      | None => model_reports_raised g1 l'
      end
  end.

(** The dictionary [results] starts from in [run_report_job]. *)
Definition empty_reports : gmap string pyobj :=
  {[ "insight_report" := PyNone; "model_reports" := PyList [];
     "errors" := PyList [] ]}.
(** The payload the report stage takes from the insight analyzer:
    [analysis_data and analysis_data.result], an envelope being truthy. *)
Definition usable_insights
    (a : base_analyzer.BaseAnalyzer (gmap string pyobj) Insights) : option Insights :=
  match base_analyzer._last_result a with
  | Some analysis_data =>
      match base_analyzer.result analysis_data with
      | Some r => if insights_truthy r then Some r else None
      | None => None
      end
  | None => None
  end.

(** The insight report: the generator afterwards and [results] once the
    report is generated, or its failure recorded by the handler. *)
Definition insight_report (g : Generator Insights) (payload : option Insights)
    : Generator Insights * gmap string pyobj :=
  match payload with
  | None => (g, empty_reports)
  | Some r =>
      let '(o, g') := generate r g in
      (g', match o with
           | Return report =>
               <["insight_report" :=
                   PyInsightReport (path_of report) (title report)
                     (status_value report)]> empty_reports
           | Raise e =>
               if exc_is_Exception e
               then <["errors" :=
                        PyList [PyStr ("Insight report generation: " ++ exc_str e)]]>
                      empty_reports
               else empty_reports
           end)
  end.

(** What leaves the report stage from its generators: what generating the
    insight report raises past the handler, or else what the first
    [generate] of a model report that does so raises. *)
Definition report_escaping (m : DailyJobManager) : option PyException :=
  match from_option (λ r, escaping (generate r (insight_generator m)).1) None
          (usable_insights (insight_analyzer m)) with
  | Some e => Some e
  | None =>
      model_reports_raised (model_generator m)
        (default [] (base_analyzer._last_results (model_analyzer m)))
  end.
Definition set_config x (m : DailyJobManager) :=
  mkDailyJobManager x (memory_store m) (ai_model_collector m) (github_collector m)
    (hf_collector m) (arxiv_collector m) (insight_analyzer m) (model_analyzer m)
    (insight_generator m) (model_generator m) (_last_collection m) (_collected_data m).

(** There is a memory store and its next [store] under [key] raises [e]. *)
Definition store_raises (m : DailyJobManager) (key : string) (e : PyException) : Prop :=
  ∃ ms, memory_store m = Some ms
        ∧ ∀ value, store_body ms (length (store_calls ms)) key value = Raise e.

(** There is no memory store, or its next [store] under [key] returns. *)
Definition store_returns (m : DailyJobManager) (key : string) : Prop :=
  ∀ ms, memory_store m = Some ms →
        ∀ value, store_body ms (length (store_calls ms)) key value = Return tt.
(** [results[key]] in what a stage returned; nothing when it raised. *)
Definition returned_slot (key : string) (o : outcome (gmap string pyobj))
    : option pyobj :=
  match o with
  | Return results => results !! key
  | Raise _ => None
  end.

(** [await self.github_collector.close()] *)
Definition cleanup : M DailyJobManager unit :=
  zoom github_collector set_github_collector base_collector.close.

(** [len(results[key])] for a slot that holds a list; [0] otherwise. *)
Definition slot_count (key : string) (results : gmap string pyobj) : Z :=
  match results !! key with
  | Some (PyList l) => len l
  | _ => 0%Z
  end.

(** There is no memory store, or none of its [store] invocations raises. *)
Definition store_never_raises (m : DailyJobManager) : Prop :=
  ∀ ms, memory_store m = Some ms →
        ∀ n key value, store_body ms n key value = Return tt.

(** What reading [model.model_id] raises when [model] is a string. *)
Definition no_model_id : PyException :=
  AttributeError "'str' object has no attribute 'model_id'".

(** What the analyze stage puts under "insights" for an insight envelope. *)
Definition insights_slot (insight_result : base_analyzer.AnalysisResult Insights)
    : pyobj :=
  match base_analyzer.result insight_result with
  | Some r => if insights_truthy r then PyInsights r else PyNone
  | None => PyNone
  end.

(** The units and the generators of the coordinator raise nothing but
    instances of [Exception]. *)
Definition raises_only_Exception (m : DailyJobManager) : Prop :=
  base_collector.raises_only_Exception (ai_model_collector m)
  ∧ base_collector.raises_only_Exception (github_collector m)
  ∧ base_collector.raises_only_Exception (hf_collector m)
  ∧ base_collector.raises_only_Exception (arxiv_collector m)
  ∧ base_analyzer.raises_only_Exception (insight_analyzer m)
  ∧ base_analyzer.raises_only_Exception (model_analyzer m)
  ∧ generator_raises_only_Exception (insight_generator m)
  ∧ generator_raises_only_Exception (model_generator m).
End Coordinator.

End jobs.

(** ** Concrete collaborators for the examples *)

Module scenario.
Import jobs.

Record HFModel := mkHFModel { hf_id : string; hf_author : string; hf_tag : string }.

(** Collected items are model cards, the insight payload is a list of
    insight strings and a structural analysis is named by its model. *)
#[global] Instance payloads : Payloads := {|
  Item := HFModel;
  model_id := hf_id;
  author := hf_author;
  pipeline_tag := hf_tag;
  Insights := list string;
  insights_truthy l := match l with [] => false | _ :: _ => true end;
  insights_len l := Some (len l);
  ModelAnalysis := string;
  analysis_truthy s := negb (String.eqb s "");
  model_name s := s
|}.

Definition card (id : string) : HFModel := mkHFModel id "org" "text-generation".

Definition network_error : PyException :=
  mkException "ConnectionError" "network down".

(** The cancellation of a task: not an instance of [Exception]. *)
Definition cancelled : PyException := CancelledError "".

(** A collector whose configuration is valid and whose body returns the
    given items in a [Success] envelope. *)
Definition collector_returning (name : string) (items : list HFModel)
    : base_collector.BaseCollector HFModel :=
  base_collector.mkBaseCollector name ∅ base_collector.PENDING
    (λ _, Return (base_collector.CollectorResult_init 0%Z base_collector.SUCCESS
                    (Some items) None None None None None))
    (λ _, Return true) 0 0.

(** A collector whose body raises. *)
Definition collector_raising (name : string) (e : PyException)
    : base_collector.BaseCollector HFModel :=
  base_collector.mkBaseCollector name ∅ base_collector.PENDING
    (λ _, Raise e) (λ _, Return true) 0 0.

(** A collector whose configuration is not valid. *)
Definition collector_misconfigured (name : string)
    : base_collector.BaseCollector HFModel :=
  base_collector.mkBaseCollector name ∅ base_collector.PENDING
    (λ _, Return (base_collector.CollectorResult_init 0%Z base_collector.SUCCESS
                    (Some [card "never"]) None None None None None))
    (λ _, Return false) 0 0.

(** A collector whose body reports [Success] and yet lists an error. *)
Definition collector_success_with_errors : base_collector.BaseCollector HFModel :=
  base_collector.mkBaseCollector "huggingface" ∅ base_collector.PENDING
    (λ _, Return (base_collector.CollectorResult_init 0%Z base_collector.SUCCESS
                    (Some [card "m1"]) (Some ["page 2 timed out"]) None None None None))
    (λ _, Return true) 0 0.

(** A collector whose body reports [Failed] without listing an error. *)
Definition collector_failed_without_errors : base_collector.BaseCollector HFModel :=
  base_collector.mkBaseCollector "arxiv" ∅ base_collector.PENDING
    (λ _, Return (base_collector.CollectorResult_init 0%Z base_collector.FAILED
                    None None None None None None))
    (λ _, Return true) 0 0.

(** An insight analyzer whose body succeeds at its first invocation and
    raises afterwards. *)
Definition insight_unit : base_analyzer.BaseAnalyzer (gmap string pyobj) (list string) :=
  base_analyzer.mkBaseAnalyzer "insight_analyzer" ∅ base_analyzer.PENDING None None
    (λ n _, match n with
            | 0 => Return (base_analyzer.AnalysisResult_init 0%Z base_analyzer.SUCCESS
                             (Some ["agents are trending"]) None None None None None)
            | _ => Raise (mkException "RuntimeError" "llm unavailable")
            end) [].

(** A structural analyzer whose body raises at its second invocation and
    otherwise returns the model's name. *)
Definition model_unit : base_analyzer.BaseAnalyzer ModelData string :=
  base_analyzer.mkBaseAnalyzer "model_analyzer" ∅ base_analyzer.PENDING None None
    (λ n d, match n with
            | 1 => Raise (mkException "RuntimeError" "unknown architecture")
            | _ => Return (base_analyzer.AnalysisResult_init 0%Z base_analyzer.SUCCESS
                             (Some (mi_name d)) None None None None None)
            end) [].

Definition generator_ok {P} : Generator P :=
  mkGenerator (λ _ _, Return (mkReport (Some "reports/out.pptx") "Daily" "completed")) [].

(** A generator whose reports carry an empty path, and one that is
    cancelled at every invocation. *)
Definition generator_without_path {P} : Generator P :=
  mkGenerator (λ _ _, Return (mkReport (Some "") "Daily" "failed")) [].
Definition generator_cancelled {P} : Generator P :=
  mkGenerator (λ _ _, Raise cancelled) [].

Definition store_ok : MemoryStore := mkMemoryStore (λ _ _ _, Return tt) [].
Definition store_raising : MemoryStore :=
  mkMemoryStore (λ _ _ _, Raise (mkException "OSError" "disk full")) [].

Definition eight_cards : list Item :=
  card <$> ["m1"; "m2"; "m3"; "m4"; "m5"; "m6"; "m7"; "m8"].

(** Four sources: the first returns one item, the second's body raises a
    network error, the third returns eight items and the last none. *)
Definition manager (memory_store : option MemoryStore) : DailyJobManager :=
  __init__ ∅ memory_store
    (collector_returning "ai_model_collector" [card "gpt"])
    (collector_raising "github_collector" network_error)
    (collector_returning "huggingface_collector" eight_cards)
    (collector_returning "arxiv_collector" [])
    insight_unit model_unit generator_ok generator_ok.


(** A coordinator that has collected eight model cards, under a given
    configuration. *)
Definition analysis_ready (config : gmap string (gmap string string))
    (memory_store : option MemoryStore) : DailyJobManager :=
  mkDailyJobManager config memory_store
    (collector_returning "ai_model_collector" [card "gpt"])
    (collector_raising "github_collector" network_error)
    (collector_returning "huggingface_collector" eight_cards)
    (collector_returning "arxiv_collector" [])
    insight_unit model_unit generator_ok generator_ok
    {[ "all" := 0%Z ]}
    {[ "models" := PyList [PyItem (card "gpt")]; "papers" := PyList [];
       "repos" := PyList []; "hf_models" := PyList (PyItem <$> eight_cards);
       "errors" := PyList [] ]}.

(** A configuration that asks for three structural analyses and three
    retries, under the names a reader of the settings would try. *)
Definition config_asking_three : gmap string (gmap string string) :=
  {[ "analyzer" := {[ "max_model_analyses" := "3"; "model_analysis_limit" := "3" ]};
     "scheduler" := {[ "max_retries" := "3"; "structural_analysis_cap" := "3" ]} ]}.

(** The coordinator after a collect stage and a first, successful analyze
    stage; the insight analyzer's body raises from then on. *)
Definition after_first_analysis : DailyJobManager :=
  (run_analysis_job 1%Z (run_collection_job 0%Z (manager None)).2).2.

(** A collector whose body builds its envelope with [_create_result], with
    one item and one error. *)
Definition collector_creating : base_collector.BaseCollector HFModel :=
  base_collector.mkBaseCollector "huggingface_collector" ∅ base_collector.PENDING
    (λ _, Return (base_collector._create_result 0%Z
                    (collector_returning "huggingface_collector" [])
                    [card "m1"] (Some ["page 2 timed out"]) None))
    (λ _, Return true) 0 0.

(** A coordinator whose collected [hf_models] hold, after two model cards,
    a string. *)
Definition analysis_with_stray (memory_store : option MemoryStore) : DailyJobManager :=
  mkDailyJobManager ∅ memory_store
    (collector_returning "ai_model_collector" [card "gpt"])
    (collector_raising "github_collector" network_error)
    (collector_returning "huggingface_collector" eight_cards)
    (collector_returning "arxiv_collector" [])
    insight_unit model_unit generator_ok generator_ok
    {[ "all" := 0%Z ]}
    {[ "models" := PyList []; "papers" := PyList []; "repos" := PyList [];
       "hf_models" := PyList ((PyItem <$> ([card "m1"; card "m2"] : list Item))
                              ++ PyStr "m3" :: (PyItem <$> ([card "m4"] : list Item)));
       "errors" := PyList [] ]}.

(** A coordinator that has collected data without an [hf_models] slot and
    retains two structural analyses from an earlier run. *)
Definition analysis_without_hf_models : DailyJobManager :=
  mkDailyJobManager ∅ None
    (collector_returning "ai_model_collector" [card "gpt"])
    (collector_raising "github_collector" network_error)
    (collector_returning "huggingface_collector" eight_cards)
    (collector_returning "arxiv_collector" [])
    insight_unit
    (base_analyzer.set_last_results ["m1"; "m2"] model_unit)
    generator_ok generator_ok
    {[ "all" := 0%Z ]}
    {[ "models" := PyList [PyItem (card "gpt")] ]}.

(** A structural analyzer whose body is cancelled at its third
    invocation and otherwise returns the model's name. *)
Definition model_unit_cancelled : base_analyzer.BaseAnalyzer ModelData string :=
  base_analyzer.mkBaseAnalyzer "model_analyzer" ∅ base_analyzer.PENDING None None
    (λ n d, match n with
            | 2 => Raise cancelled
            | _ => Return (base_analyzer.AnalysisResult_init 0%Z base_analyzer.SUCCESS
                             (Some (mi_name d)) None None None None None)
            end) [].

(** Four sources of which the second is cancelled in its body and the
    others succeed. *)
Definition manager_cancelled (memory_store : option MemoryStore) : DailyJobManager :=
  __init__ ∅ memory_store
    (collector_returning "ai_model_collector" [card "gpt"])
    (collector_raising "github_collector" cancelled)
    (collector_returning "huggingface_collector" eight_cards)
    (collector_returning "arxiv_collector" [])
    insight_unit model_unit generator_ok generator_ok.

(** A coordinator that has collected eight model cards and whose
    structural analyzer is cancelled at its third invocation. *)
Definition analysis_cancelled (memory_store : option MemoryStore) : DailyJobManager :=
  set_model_analyzer model_unit_cancelled (analysis_ready ∅ memory_store).

(** A generator that raises at its second invocation. *)
Definition generator_flaky {P} : Generator P :=
  mkGenerator (λ n _, match n with
                      | 1 => Raise (mkException "IOError" "template missing")
                      | _ => Return (mkReport (Some "reports/out.pptx") "Daily" "completed")
                      end) [].

(** A coordinator that retains an insight payload and three structural
    analyses, with generators that fail at their second invocation. *)
Definition report_ready : DailyJobManager :=
  mkDailyJobManager ∅ None
    (collector_returning "ai_model_collector" [card "gpt"])
    (collector_raising "github_collector" network_error)
    (collector_returning "huggingface_collector" eight_cards)
    (collector_returning "arxiv_collector" [])
    (base_analyzer.set_last_result
       (base_analyzer.mkAnalysisResult base_analyzer.SUCCESS
          (Some ["agents are trending"]) [] ∅ 0%Z "insight_analyzer" [])
       insight_unit)
    (base_analyzer.set_last_results ["m1"; "m2"; "m3"] model_unit)
    (mkGenerator (λ _ _, Raise (mkException "IOError" "template missing")) [])
    generator_flaky
    ∅ ∅.

(** A configuration file with a collector section, one without, and an
    environment that sets the GitHub token and the OpenAI key. *)
Definition file_with_collector : settings.yaml :=
  settings.YMap
    {[ "collector" := settings.YMap {[ "github_token" := settings.YStr "from-file";
                                       "hf_max_models" := settings.YInt 10 ]};
       "scheduler" := settings.YMap {[ "max_retries" := settings.YInt 5 ]} ]}.

Definition file_without_collector : settings.yaml :=
  settings.YMap {[ "scheduler" := settings.YMap {[ "max_retries" := settings.YInt 5 ]} ]}.

Definition files (path : string) : option (outcome settings.yaml) :=
  if String.eqb path "config.yaml" then Some (Return file_with_collector)
  else if String.eqb path "plain.yaml" then Some (Return file_without_collector)
  else None.

Definition environment (var : string) : option string :=
  if String.eqb var "GITHUB_TOKEN" then Some "ghp_env"
  else if String.eqb var "ANTHROPIC_API_KEY" then Some ""
  else if String.eqb var "OPENAI_API_KEY" then Some "sk-env"
  else None.

(** An environment without any of the variables. *)
Definition no_environment (var : string) : option string := None.

(** A stand-in for the constructor of the settings: the object is the
    keyword arguments it accepted, and it refuses, as the declaration of
    the collector settings makes pydantic do, a collector section with the
    key [llm_api_key], which that declaration does not have. *)
Definition Settings_init (getenv : string → option string)
    (kwargs : gmap string settings.yaml) : outcome (gmap string settings.yaml) :=
  match kwargs !! "collector" with
  | Some (settings.YMap c) =>
      match c !! "llm_api_key" with
      | Some _ =>
          Raise (mkException "ValidationError"
                   "collector.llm_api_key: Extra inputs are not permitted")
      | None => Return kwargs
      end
  | _ => Return kwargs
  end.

End scenario.

Import jobs.

(** ** Tactics *)

(** Unfolding a unit's [run]. *)
Ltac run_unit :=
  cbv [base_collector.run base_collector.validate_config base_collector.collect
       base_analyzer.run base_analyzer.analyze
       bind ret raise gets modify try_except lift_outcome]; cbn.

(** Equal maps built by inserting the same keys in another order. *)
Ltac map_chain_eq :=
  apply map_eq; intros ?;
  rewrite ?lookup_insert, ?lookup_singleton, ?lookup_empty;
  repeat case_decide; simplify_eq; done.

(** A lookup in a map built by inserts. *)
Ltac lookup_chain :=
  rewrite ?lookup_insert, ?lookup_singleton; repeat case_decide; simplify_eq; done.

(** Fields of a coordinator given by its constructor. *)
Ltac mgr_simpl :=
  cbv beta iota delta
    [config memory_store ai_model_collector github_collector hf_collector
     arxiv_collector insight_analyzer model_analyzer insight_generator
     model_generator _last_collection _collected_data
     set_memory_store set_ai_model_collector set_github_collector
     set_hf_collector set_arxiv_collector set_insight_analyzer
     set_model_analyzer set_insight_generator set_model_generator
     set_last_collection set_collected_data fst snd].
Ltac mgr_simpl_all :=
  cbv beta iota delta
    [config memory_store ai_model_collector github_collector hf_collector
     arxiv_collector insight_analyzer model_analyzer insight_generator
     model_generator _last_collection _collected_data
     set_memory_store set_ai_model_collector set_github_collector
     set_hf_collector set_arxiv_collector set_insight_analyzer
     set_model_analyzer set_insight_generator set_model_generator
     set_last_collection set_collected_data fst snd] in *.


(** * Properties *)

(** ** The result envelope and the unit contract *)

Section UnitContract.
Variable now : datetime.

(** [BaseCollector.run], case by case on what its abstract methods do. *)
Lemma collector_run_cases {T} (c : base_collector.BaseCollector T) :
  let after status collect_calls :=
    base_collector.mkBaseCollector (base_collector.name c) (base_collector.config c)
      status (base_collector.collect_body c) (base_collector.validate_config_body c)
      collect_calls (S (base_collector.validate_config_calls c)) in
  let failure msg :=
    base_collector.mkCollectorResult base_collector.FAILED [] [msg] ∅ now 0%Z
      (base_collector.name c) in
  base_collector.run now c
  = match base_collector.validate_config_body c (base_collector.validate_config_calls c) with
    | Return true =>
        match base_collector.collect_body c (base_collector.collect_calls c) with
        | Return r =>
            (Return (base_collector.set_source r (base_collector.name c)),
             after (match base_collector.errors r with
                    | [] => base_collector.SUCCESS
                    | _ :: _ => base_collector.PARTIAL
                    end)
               (S (base_collector.collect_calls c)))
        | Raise e =>
            if exc_is_Exception e
            then (Return (failure (exc_str e)),
                  after base_collector.FAILED (S (base_collector.collect_calls c)))
            else (Raise e,
                  after base_collector.RUNNING (S (base_collector.collect_calls c)))
        end
    | Return false =>
        (Return (failure ("Invalid configuration for " ++ base_collector.name c)%string),
         after base_collector.FAILED (base_collector.collect_calls c))
    | Raise e =>
        if exc_is_Exception e
        then (Return (failure (exc_str e)),
              after base_collector.FAILED (base_collector.collect_calls c))
        else (Raise e, after base_collector.RUNNING (base_collector.collect_calls c))
    end.
Proof.
  run_unit.
  destruct (base_collector.validate_config_body c _) as [[|]|e]; cbn.
  - destruct (base_collector.collect_body c _) as [r|e]; cbn.
    + destruct (base_collector.errors r); done.
    + destruct (exc_is_Exception e); done.
  - done.
  - destruct (exc_is_Exception e); done.
Qed.

(** [BaseAnalyzer.run], case by case on what its body does. *)
Lemma analyzer_run_cases {T R} (a : base_analyzer.BaseAnalyzer T R) (d : T) :
  let after status last_result :=
    base_analyzer.mkBaseAnalyzer (base_analyzer.name a) (base_analyzer.config a)
      status last_result (base_analyzer._last_results a) (base_analyzer.analyze_body a)
      (base_analyzer.analyze_calls a ++ [d]) in
  base_analyzer.run now d a
  = match base_analyzer.analyze_body a (length (base_analyzer.analyze_calls a)) d with
    | Return r =>
        (Return (base_analyzer.set_source r (base_analyzer.name a)),
         after (match base_analyzer.errors r with
                | [] => base_analyzer.SUCCESS
                | _ :: _ => base_analyzer.PARTIAL
                end)
           (Some (base_analyzer.set_source r (base_analyzer.name a))))
    | Raise e =>
        if exc_is_Exception e
        then (Return (base_analyzer.mkAnalysisResult base_analyzer.FAILED None [] ∅ now
                        (base_analyzer.name a) [exc_str e]),
              after base_analyzer.FAILED (base_analyzer._last_result a))
        else (Raise e, after base_analyzer.RUNNING (base_analyzer._last_result a))
    end.
Proof.
  run_unit.
  destruct (base_analyzer.analyze_body a _ d) as [r|e]; cbn.
  - destruct (base_analyzer.errors r); done.
  - destruct (exc_is_Exception e); done.
Qed.

(** What [run] raises is not an instance of [Exception]: an outcome of
    [run] that does not go past a handler is a returned envelope. *)
Lemma collector_run_raises {T} (c : base_collector.BaseCollector T) e :
  (base_collector.run now c).1 = Raise e → exc_is_Exception e = false.
Proof.
  rewrite collector_run_cases. cbv zeta.
  destruct (base_collector.validate_config_body c _) as [[|]|e'];
    [destruct (base_collector.collect_body c _) as [r|e']|..];
    try destruct (exc_is_Exception e') eqn:He; cbn; intros [=]; congruence.
Qed.

Lemma collector_run_returns {T} (c : base_collector.BaseCollector T) :
  escaping (base_collector.run now c).1 = None →
  ∃ r, (base_collector.run now c).1 = Return r.
Proof.
  destruct (base_collector.run now c).1 as [r|e] eqn:E; [eauto|].
  cbn. by rewrite (collector_run_raises c e E).
Qed.

Lemma analyzer_run_raises {T R} (a : base_analyzer.BaseAnalyzer T R) (d : T) e :
  (base_analyzer.run now d a).1 = Raise e → exc_is_Exception e = false.
Proof.
  rewrite analyzer_run_cases. cbv zeta.
  destruct (base_analyzer.analyze_body a _ d) as [r|e'];
    try destruct (exc_is_Exception e') eqn:He; cbn; intros [=]; congruence.
Qed.

(** A unit whose abstract methods raise nothing but instances of
    [Exception] has a [run] that returns, and stays such a unit. *)
Lemma collector_raises_only_Exception {T} (c : base_collector.BaseCollector T) :
  base_collector.raises_only_Exception c →
  escaping (base_collector.run now c).1 = None.
Proof.
  intros Hc. rewrite collector_run_cases. cbv zeta.
  destruct (Hc (base_collector.validate_config_calls c)) as (Hv & _).
  destruct (Hc (base_collector.collect_calls c)) as (_ & Hb).
  destruct (base_collector.validate_config_body c _) as [[|]|e];
    [destruct (base_collector.collect_body c _) as [r|e]|..];
    cbn in *; try destruct (exc_is_Exception e); done.
Qed.

Lemma analyzer_raises_only_Exception {T R} (a : base_analyzer.BaseAnalyzer T R) (d : T) :
  base_analyzer.raises_only_Exception a →
  escaping (base_analyzer.run now d a).1 = None
  ∧ base_analyzer.raises_only_Exception (base_analyzer.run now d a).2.
Proof.
  intros Ha. rewrite analyzer_run_cases. cbv zeta.
  pose proof (Ha (length (base_analyzer.analyze_calls a)) d) as Hd.
  destruct (base_analyzer.analyze_body a _ d) as [r|e];
    cbn in *; try destruct (exc_is_Exception e); done.
Qed.

(** [BaseAnalyzer.run] invokes [analyze] once, on its argument, and
    touches neither the unit's name nor the attribute [_last_results]. *)
Lemma analyzer_run_frame {T R} (a : base_analyzer.BaseAnalyzer T R) (d : T) :
  let a' := (base_analyzer.run now d a).2 in
  base_analyzer.analyze_calls a' = base_analyzer.analyze_calls a ++ [d]
  ∧ base_analyzer.analyze_body a' = base_analyzer.analyze_body a
  ∧ base_analyzer.name a' = base_analyzer.name a
  ∧ base_analyzer._last_results a' = base_analyzer._last_results a.
Proof.
  rewrite analyzer_run_cases. cbv zeta.
  destruct (base_analyzer.analyze_body a _ d) as [r|e];
    try destruct (exc_is_Exception e); done.
Qed.

(** C9. After construction the [items_count] of a collection envelope is
    the length of its payload when the argument is omitted; an explicit
    argument is kept, unless it is the falsy [0], which is replaced by the
    length as well. *)
Theorem items_count_after_construction {T} status (data : option (list T))
    errors metadata collected_at source :
  let omitted :=
    base_collector.CollectorResult_init now status data errors metadata
      collected_at None source in
  base_collector.items_count omitted = len (base_collector.data omitted)
  ∧ ∀ k : Z,
      let given :=
        base_collector.CollectorResult_init now status data errors metadata
          collected_at (Some k) source in
      base_collector.items_count given
      = if bool_decide (k = 0%Z) then len (base_collector.data given) else k.
Proof.
  cbn. split; [reflexivity|]. intros k.
  unfold base_collector.CollectorResult_init, base_collector.__post_init__. cbn.
  case_bool_decide; reflexivity.
Qed.

(** C4. When [validate_config()] returns false, [run()] returns a [Failed]
    envelope whose only error is "Invalid configuration for <unit name>",
    with an empty payload, and [collect()] is not invoked. *)
Theorem run_invalid_configuration {T} (c : base_collector.BaseCollector T) :
  base_collector.validate_config_body c (base_collector.validate_config_calls c)
    = Return false →
  (base_collector.run now c).1
    = Return (base_collector.mkCollectorResult base_collector.FAILED []
                [("Invalid configuration for " ++ base_collector.name c)%string]
                ∅ now 0%Z (base_collector.name c))
  ∧ base_collector.collect_calls (base_collector.run now c).2
    = base_collector.collect_calls c
  ∧ base_collector._status (base_collector.run now c).2 = base_collector.FAILED.
Proof.
  intros Hv. run_unit. rewrite Hv. cbn. done.
Qed.

(** C5, as the code has it. When the body of a unit raises an instance of
    [Exception], [run()] does not raise: it returns a [Failed] envelope
    whose only error is the exception's string, whose payload is empty
    (collector) or absent (analyzer) and whose source is the unit's name,
    and it records [Failed] on the unit. When the body raises an exception
    that is not an instance of [Exception], the handler does not apply:
    [run()] raises that exception and the unit's status stays [Running]. *)
Theorem run_body_raises :
  (∀ T (c : base_collector.BaseCollector T) e,
     base_collector.validate_config_body c (base_collector.validate_config_calls c)
       = Return true →
     base_collector.collect_body c (base_collector.collect_calls c) = Raise e →
     if exc_is_Exception e
     then (base_collector.run now c).1
            = Return (base_collector.mkCollectorResult base_collector.FAILED []
                        [exc_str e] ∅ now 0%Z (base_collector.name c))
          ∧ base_collector._status (base_collector.run now c).2 = base_collector.FAILED
     else (base_collector.run now c).1 = Raise e
          ∧ base_collector._status (base_collector.run now c).2 = base_collector.RUNNING)
  ∧ (∀ T R (a : base_analyzer.BaseAnalyzer T R) (d : T) e,
       base_analyzer.analyze_body a (length (base_analyzer.analyze_calls a)) d
         = Raise e →
       if exc_is_Exception e
       then (base_analyzer.run now d a).1
              = Return (base_analyzer.mkAnalysisResult base_analyzer.FAILED None []
                          ∅ now (base_analyzer.name a) [exc_str e])
            ∧ base_analyzer._status (base_analyzer.run now d a).2 = base_analyzer.FAILED
       else (base_analyzer.run now d a).1 = Raise e
            ∧ base_analyzer._status (base_analyzer.run now d a).2
              = base_analyzer.RUNNING).
Proof.
  split.
  - intros T c e Hv Hc. rewrite collector_run_cases, Hv, Hc.
    by destruct (exc_is_Exception e).
  - intros T R a d e Ha. rewrite analyzer_run_cases, Ha.
    by destruct (exc_is_Exception e).
Qed.

(** C2, as the code has it. When the body of a unit returns normally,
    [run()] returns the body's envelope with only its source stamped: the
    envelope keeps the status the body gave it. What becomes [Partial]
    when the envelope lists an error, and [Success] when it lists none, is
    the status recorded on the unit. *)
Theorem run_records_unit_status :
  (∀ T (c : base_collector.BaseCollector T) r,
     base_collector.validate_config_body c (base_collector.validate_config_calls c)
       = Return true →
     base_collector.collect_body c (base_collector.collect_calls c) = Return r →
     (base_collector.run now c).1
       = Return (base_collector.set_source r (base_collector.name c))
     ∧ base_collector._status (base_collector.run now c).2
       = match base_collector.errors r with
         | [] => base_collector.SUCCESS
         | _ :: _ => base_collector.PARTIAL
         end)
  ∧ (∀ T R (a : base_analyzer.BaseAnalyzer T R) (d : T) r,
       base_analyzer.analyze_body a (length (base_analyzer.analyze_calls a)) d
         = Return r →
       (base_analyzer.run now d a).1
         = Return (base_analyzer.set_source r (base_analyzer.name a))
       ∧ base_analyzer._status (base_analyzer.run now d a).2
         = match base_analyzer.errors r with
           | [] => base_analyzer.SUCCESS
           | _ :: _ => base_analyzer.PARTIAL
           end).
Proof.
  split.
  - intros T c r Hv Hc. run_unit. rewrite Hv. cbn. rewrite Hc. cbn.
    destruct (base_collector.errors r); done.
  - intros T R a d r Ha. run_unit. rewrite Ha. cbn.
    destruct (base_analyzer.errors r); done.
Qed.
End UnitContract.

Lemma run_invalid_configuration_witness :
  let c := scenario.collector_misconfigured "github_collector" in
  base_collector.validate_config_body c (base_collector.validate_config_calls c)
    = Return false
  ∧ (base_collector.run 0%Z c).1
    = Return (base_collector.mkCollectorResult base_collector.FAILED []
                ["Invalid configuration for github_collector"] ∅ 0%Z 0%Z
                "github_collector")
  ∧ base_collector.collect_calls (base_collector.run 0%Z c).2 = 0
  ∧ base_collector._status (base_collector.run 0%Z c).2 = base_collector.FAILED.
Proof.
  split; [reflexivity|].
  apply (run_invalid_configuration 0%Z (scenario.collector_misconfigured "github_collector")).
  reflexivity.
Defined.

Lemma run_body_raises_witness :
  let c := scenario.collector_raising "github_collector" scenario.network_error in
  let c' := scenario.collector_raising "github_collector" scenario.cancelled in
  let a := scenario.model_unit in
  let d := jobs.mkModelData "m1" "org" "text-generation" in
  let a1 := (base_analyzer.run 0%Z d a).2 in
  (base_collector.validate_config_body c (base_collector.validate_config_calls c)
     = Return true
   ∧ base_collector.collect_body c (base_collector.collect_calls c)
     = Raise scenario.network_error
   ∧ (base_collector.run 0%Z c).1
     = Return (base_collector.mkCollectorResult base_collector.FAILED []
                 ["network down"] ∅ 0%Z 0%Z "github_collector")
   ∧ base_collector._status (base_collector.run 0%Z c).2 = base_collector.FAILED)
  ∧ (base_collector.validate_config_body c' (base_collector.validate_config_calls c')
       = Return true
     ∧ base_collector.collect_body c' (base_collector.collect_calls c')
       = Raise scenario.cancelled
     ∧ (base_collector.run 0%Z c').1 = Raise scenario.cancelled
     ∧ base_collector._status (base_collector.run 0%Z c').2 = base_collector.RUNNING)
  ∧ (base_analyzer.analyze_body a1 (length (base_analyzer.analyze_calls a1)) d
       = Raise (mkException "RuntimeError" "unknown architecture")
     ∧ (base_analyzer.run 1%Z d a1).1
       = Return (base_analyzer.mkAnalysisResult base_analyzer.FAILED None []
                   ∅ 1%Z "model_analyzer" ["unknown architecture"])
     ∧ base_analyzer._status (base_analyzer.run 1%Z d a1).2 = base_analyzer.FAILED).
Proof.
  cbv zeta. split; [|split].
  - split; [reflexivity|]. split; [reflexivity|].
    apply (proj1 (run_body_raises 0%Z) _
             (scenario.collector_raising "github_collector" scenario.network_error)
             scenario.network_error); reflexivity.
  - split; [reflexivity|]. split; [reflexivity|].
    apply (proj1 (run_body_raises 0%Z) _
             (scenario.collector_raising "github_collector" scenario.cancelled)
             scenario.cancelled); reflexivity.
  - split; [reflexivity|].
    apply (proj2 (run_body_raises 1%Z) _ _
             (base_analyzer.run 0%Z (jobs.mkModelData "m1" "org" "text-generation")
                scenario.model_unit).2
             (jobs.mkModelData "m1" "org" "text-generation")
             (mkException "RuntimeError" "unknown architecture")).
    reflexivity.
Defined.

(** C5, as stated, fails. A collector and an analyzer whose body is
    cancelled do not return a [Failed] envelope: [run()] raises the
    [CancelledError], which is not an instance of [Exception], and the
    status recorded on the unit is still [Running]. *)
Lemma run_reraises_cancellation :
  let c := scenario.collector_raising "github_collector" scenario.cancelled in
  let a := scenario.model_unit_cancelled in
  let d := jobs.mkModelData "m1" "org" "text-generation" in
  let a2 := (base_analyzer.run 0%Z d (base_analyzer.run 0%Z d a).2).2 in
  (base_collector.collect_body c (base_collector.collect_calls c)
     = Raise scenario.cancelled
   ∧ (base_collector.run 0%Z c).1 = Raise scenario.cancelled
   ∧ (∀ r, (base_collector.run 0%Z c).1 ≠ Return r)
   ∧ base_collector._status (base_collector.run 0%Z c).2 = base_collector.RUNNING)
  ∧ (base_analyzer.analyze_body a2 (length (base_analyzer.analyze_calls a2)) d
       = Raise scenario.cancelled
     ∧ (base_analyzer.run 0%Z d a2).1 = Raise scenario.cancelled
     ∧ (∀ r, (base_analyzer.run 0%Z d a2).1 ≠ Return r)
     ∧ base_analyzer._status (base_analyzer.run 0%Z d a2).2 = base_analyzer.RUNNING).
Proof.
  cbv zeta. split; (split; [reflexivity|]); (split; [reflexivity|]);
    (split; [intros r; discriminate|reflexivity]).
Qed.

Lemma run_records_unit_status_witness :
  let c := scenario.collector_success_with_errors in
  let r := base_collector.mkCollectorResult base_collector.SUCCESS
             [scenario.card "m1"] ["page 2 timed out"] ∅ 0%Z 1%Z "" in
  let a := scenario.insight_unit in
  let ar := base_analyzer.mkAnalysisResult base_analyzer.SUCCESS
              (Some ["agents are trending"]) [] ∅ 0%Z "" [] in
  (base_collector.validate_config_body c (base_collector.validate_config_calls c)
     = Return true
   ∧ base_collector.collect_body c (base_collector.collect_calls c) = Return r
   ∧ (base_collector.run 5%Z c).1 = Return (base_collector.set_source r "huggingface")
   ∧ base_collector._status (base_collector.run 5%Z c).2 = base_collector.PARTIAL)
  ∧ (base_analyzer.analyze_body a (length (base_analyzer.analyze_calls a)) ∅
       = Return ar
     ∧ (base_analyzer.run 5%Z ∅ a).1
       = Return (base_analyzer.set_source ar "insight_analyzer")
     ∧ base_analyzer._status (base_analyzer.run 5%Z ∅ a).2 = base_analyzer.SUCCESS).
Proof.
  cbv zeta. split.
  - split; [reflexivity|]. split; [reflexivity|].
    apply (proj1 (run_records_unit_status 5%Z) _
             scenario.collector_success_with_errors); reflexivity.
  - split; [reflexivity|].
    apply (proj2 (run_records_unit_status 5%Z) _ _ scenario.insight_unit ∅).
    reflexivity.
Defined.

(** C2, as stated, fails. A body that reports [Success] while listing an
    error gets its envelope back from [run()] still marked [Success], not
    [Partial]; and a body that reports [Failed] without listing an error
    gets it back still marked [Failed], not [Success]. *)
Lemma run_keeps_body_status :
  (∃ r, (base_collector.run 5%Z scenario.collector_success_with_errors).1 = Return r
        ∧ base_collector.errors r = ["page 2 timed out"]
        ∧ base_collector.status r = base_collector.SUCCESS
        ∧ base_collector.status r ≠ base_collector.PARTIAL)
  ∧ (∃ r, (base_collector.run 5%Z scenario.collector_failed_without_errors).1 = Return r
          ∧ base_collector.errors r = []
          ∧ base_collector.status r = base_collector.FAILED
          ∧ base_collector.status r ≠ base_collector.SUCCESS).
Proof.
  split; eexists; (split; [reflexivity|]); cbn; done.
Qed.

(** ** Stepping through the monad *)

Section MonadSteps.
Context {Σ : Type}.

Lemma bind_return {A B} (m : M Σ A) (k : A → M Σ B) s a s' :
  m s = (Return a, s') → bind m k s = k a s'.
Proof. unfold bind. by intros ->. Qed.

Lemma bind_raise {A B} (m : M Σ A) (k : A → M Σ B) s e s' :
  m s = (Raise e, s') → bind m k s = (Raise e, s').
Proof. unfold bind. by intros ->. Qed.

Lemma bind_run {A B} (m : M Σ A) (k : A → M Σ B) s o s' :
  m s = (o, s') →
  bind m k s = match o with Return a => k a s' | Raise e => (Raise e, s') end.
Proof. unfold bind. by intros ->. Qed.

Lemma try_except_return {A} (body : M Σ A) handler s a s' :
  body s = (Return a, s') → try_except body handler s = (Return a, s').
Proof. unfold try_except. by intros ->. Qed.

Lemma try_except_raise {A} (body : M Σ A) handler s e s' :
  body s = (Raise e, s') → exc_is_Exception e = true →
  try_except body handler s = handler e s'.
Proof. unfold try_except. by intros -> ->. Qed.

Lemma try_except_escape {A} (body : M Σ A) handler s e s' :
  body s = (Raise e, s') → exc_is_Exception e = false →
  try_except body handler s = (Raise e, s').
Proof. unfold try_except. by intros -> ->. Qed.

Lemma zoom_run {Τ A} proj upd (m : M Τ A) (s : Σ) o t :
  m (proj s) = (o, t) → zoom proj upd m s = (o, upd t s).
Proof. unfold zoom. by intros ->. Qed.

Lemma self_run {L A} (m : M Σ A) s (l : L) o s' :
  m s = (o, s') → self m (s, l) = (o, (s', l)).
Proof. unfold self, zoom. cbn. by intros ->. Qed.

Lemma local_run {L A} (m : M L A) (s : Σ) l o l' :
  m l = (o, l') → local m (s, l) = (o, (s, l')).
Proof. unfold local, zoom. cbn. by intros ->. Qed.

Lemma gather_cons {A} (t : M Σ A) ts s o s1 os s2 :
  attempt t s = (Return o, s1) →
  gather ts s1 = (Return os, s2) →
  gather (t :: ts) s = (Return (o :: os), s2).
Proof.
  intros Ht Hts. cbn [gather]. erewrite bind_return by exact Ht.
  erewrite bind_return by exact Hts. reflexivity.
Qed.

Lemma for_each_cons {A} (x : A) xs (body : A → M Σ unit) s s1 o s2 :
  body x s = (Return tt, s1) →
  for_each xs body s1 = (o, s2) →
  for_each (x :: xs) body s = (o, s2).
Proof.
  intros Hx Hxs. cbn [for_each]. by erewrite bind_return by exact Hx.
Qed.

Lemma for_each_app_raise {A} (xs : list A) x rest (body : A → M Σ unit) s s1 e s2 :
  for_each xs body s = (Return tt, s1) →
  body x s1 = (Raise e, s2) →
  for_each (xs ++ x :: rest) body s = (Raise e, s2).
Proof.
  revert s. induction xs as [|y xs IH]; intros s Hxs Hx.
  - cbn [for_each app] in *. injection Hxs as <-. by erewrite bind_raise.
  - cbn [for_each app] in *. unfold bind in Hxs |- *.
    destruct (body y s) as [[[]|e'] s'] eqn:Hy; [|discriminate Hxs].
    by apply IH.
Qed.

Lemma first_escaping_none {A} (os : list (outcome A)) :
  first_escaping os = None ↔ Forall (λ o, escaping o = None) os.
Proof.
  induction os as [|o os IH]; cbn [first_escaping]; [by split; [constructor|]|].
  destruct (escaping o) eqn:E.
  - split; [done|]. intros Hall. apply Forall_cons in Hall as [? _]. congruence.
  - rewrite IH. split; [by constructor|]. by intros [_ ?]%Forall_cons.
Qed.
End MonadSteps.

(** ** The dictionaries of the stages *)

Section Dictionaries.
Context `{Payloads}.

Lemma getitem_lookup key v (d : gmap string pyobj) :
  d !! key = Some v → getitem key d = (Return v, d).
Proof. unfold getitem. by intros ->. Qed.

Lemma append_to_list key x l (d : gmap string pyobj) :
  d !! key = Some (PyList l) →
  append_to key x d = (Return tt, <[key := PyList (l ++ [x])]> d).
Proof.
  intros Hk. unfold append_to, getitem, bind, lift_outcome, setitem, modify.
  rewrite Hk. reflexivity.
Qed.

Lemma py_len_slot o : py_len (slot_of o) = Return (slot_len o).
Proof. destruct o; cbn; [|done]. unfold len. by rewrite length_fmap. Qed.

Lemma aggregated_lookup o1 o2 o3 o4 :
  aggregated o1 o2 o3 o4 !! "models" = Some (slot_of o1)
  ∧ aggregated o1 o2 o3 o4 !! "papers" = Some (slot_of o4)
  ∧ aggregated o1 o2 o3 o4 !! "repos" = Some (slot_of o2)
  ∧ aggregated o1 o2 o3 o4 !! "hf_models" = Some (slot_of o3)
  ∧ aggregated o1 o2 o3 o4 !! "errors"
    = Some (PyList (raised_entry "ai_models" o1 ++ raised_entry "github" o2
                    ++ raised_entry "huggingface" o3 ++ raised_entry "arxiv" o4)).
Proof.
  unfold aggregated.
  repeat split;
    lookup_chain.
Qed.

Lemma aggregated_dom o1 o2 o3 o4 :
  dom (aggregated o1 o2 o3 o4)
  = ({["models"; "papers"; "repos"; "hf_models"; "errors"]} : gset string).
Proof.
  unfold aggregated. rewrite !dom_insert_L, dom_singleton_L. set_solver.
Qed.

Lemma aggregated_not_empty o1 o2 o3 o4 : aggregated o1 o2 o3 o4 ≠ ∅.
Proof.
  intros Heq. destruct (aggregated_lookup o1 o2 o3 o4) as (L1 & _).
  by rewrite Heq, lookup_empty in L1.
Qed.
End Dictionaries.

(** ** The collect stage *)

Section CollectStage.
Context `{Payloads}.
Variable now : datetime.

(** One turn of the aggregation loop, for a task whose slot still holds
    the initial empty list and whose result is an envelope or an instance
    of [Exception]. *)
Lemma aggregate_result_step name key o (d : gmap string pyobj) errs :
  (name = "ai_models" ∧ key = "models") ∨ (name = "github" ∧ key = "repos")
  ∨ (name = "huggingface" ∧ key = "hf_models") ∨ (name = "arxiv" ∧ key = "papers") →
  escaping o = None →
  d !! "errors" = Some (PyList errs) →
  d !! key = Some (PyList []) →
  aggregate_result name o d
  = (Return tt, <["errors" := PyList (errs ++ raised_entry name o)]>
                  (<[key := slot_of o]> d)).
Proof.
  intros Hin Ho He Hk.
  assert (key ≠ "errors") as Hne.
  { intros ->. intuition discriminate. }
  destruct o as [r|e]; cbn [aggregate_result raised_entry slot_of].
  - rewrite app_nil_r. rewrite (insert_id (<[key:=_]> d) "errors").
    2:{ by rewrite lookup_insert_ne. }
    destruct Hin as [[-> ->]|[[-> ->]|[[-> ->]|[-> ->]]]]; reflexivity.
  - cbn in Ho. destruct (exc_is_Exception e); [|discriminate Ho].
    rewrite (insert_id d key) by done.
    by apply append_to_list.
Qed.

(** One turn of the loop on a result that is an exception but not an
    instance of [Exception]: reading its [data] raises. *)
Lemma aggregate_result_escaping name o e (d : gmap string pyobj) :
  name ∈ ["ai_models"; "github"; "huggingface"; "arxiv"] →
  escaping o = Some e →
  aggregate_result name o d = (Raise (no_data e), d).
Proof.
  intros Hin Ho. destruct o as [r|e']; [discriminate Ho|]. cbn in Ho.
  cbn [aggregate_result]. destruct (exc_is_Exception e'); [discriminate Ho|].
  injection Ho as ->. set_unfold in Hin.
  destruct Hin as [->|[->|[->|[->|[]]]]]; reflexivity.
Qed.

(** The aggregation loop over the results of the four tasks: it stops at
    the first result that is neither an envelope nor an instance of
    [Exception]. *)
Lemma aggregate_four o1 o2 o3 o4 :
  ∃ d,
    for_each (zip ["ai_models"; "github"; "huggingface"; "arxiv"] [o1; o2; o3; o4])
      (λ nr, aggregate_result nr.1 nr.2) empty_collection
    = (match first_escaping [o1; o2; o3; o4] with
       | Some e => Raise (no_data e)
       | None => Return tt
       end, d)
    ∧ (first_escaping [o1; o2; o3; o4] = None → d = aggregated o1 o2 o3 o4).
Proof.
  cbn [zip zip_with for_each fst snd first_escaping].
  destruct (escaping o1) as [e|] eqn:E1.
  { eexists. split; [|intros [=]]. eapply bind_raise.
    apply aggregate_result_escaping; [set_solver|done]. }
  erewrite bind_return.
  2:{ apply (aggregate_result_step _ "models" _ _ []); [intuition|done..]. }
  destruct (escaping o2) as [e|] eqn:E2.
  { eexists. split; [|intros [=]]. eapply bind_raise.
    apply aggregate_result_escaping; [set_solver|done]. }
  erewrite bind_return.
  2:{ apply (aggregate_result_step _ "repos"); [intuition|done|by rewrite lookup_insert_eq|].
      by rewrite !lookup_insert_ne. }
  destruct (escaping o3) as [e|] eqn:E3.
  { eexists. split; [|intros [=]]. eapply bind_raise.
    apply aggregate_result_escaping; [set_solver|done]. }
  erewrite bind_return.
  2:{ apply (aggregate_result_step _ "hf_models");
        [intuition|done|by rewrite lookup_insert_eq|].
      by rewrite !lookup_insert_ne. }
  destruct (escaping o4) as [e|] eqn:E4.
  { eexists. split; [|intros [=]]. eapply bind_raise.
    apply aggregate_result_escaping; [set_solver|done]. }
  erewrite bind_return.
  2:{ apply (aggregate_result_step _ "papers");
        [intuition|done|by rewrite lookup_insert_eq|].
      by rewrite !lookup_insert_ne. }
  eexists. split; [reflexivity|]. intros _.
  unfold empty_collection, aggregated.
  rewrite !app_nil_l, <-!app_assoc.
  map_chain_eq.
Qed.

Lemma attempt_safe_collect name proj upd (m : DailyJobManager) o c :
  base_collector.run now (proj m) = (o, c) →
  attempt (_safe_collect now name proj upd) m = (Return o, upd c m).
Proof.
  intros E. unfold attempt, _safe_collect, try_except, zoom, raise.
  rewrite E. destruct o as [r|e]; [done|]. by destruct (exc_is_Exception e).
Qed.

(** The collect stage in one equation. The four units run. When the [run]
    of one of them raised, the aggregation loop raises on that result and
    nothing is committed. Otherwise the results are aggregated and
    committed, and the memory store, when there is one, is notified last;
    what [store] raises is what the stage raises. *)
Lemma run_collection_job_unfolded (m : DailyJobManager) o1 c1 o2 c2 o3 c3 o4 c4 :
  base_collector.run now (ai_model_collector m) = (o1, c1) →
  base_collector.run now (github_collector m) = (o2, c2) →
  base_collector.run now (hf_collector m) = (o3, c3) →
  base_collector.run now (arxiv_collector m) = (o4, c4) →
  let results := aggregated o1 o2 o3 o4 in
  let ran :=
    mkDailyJobManager (config m) (memory_store m) c1 c2 c3 c4
      (insight_analyzer m) (model_analyzer m) (insight_generator m)
      (model_generator m) (_last_collection m) (_collected_data m) in
  let committed :=
    mkDailyJobManager (config m) (memory_store m) c1 c2 c3 c4
      (insight_analyzer m) (model_analyzer m) (insight_generator m)
      (model_generator m) (<["all" := now]> (_last_collection m)) results in
  run_collection_job now m
  = match first_escaping [o1; o2; o3; o4] with
    | Some e => (Raise (no_data e), ran)
    | None =>
        match memory_store m with
        | None => (Return results, committed)
        | Some ms =>
            let '(o, ms') :=
              store "last_collection"
                (LastCollection now (slot_len o1) (slot_len o4) (slot_len o2)
                   (slot_len o3)) ms in
            (match o with Return _ => Return results | Raise e => Raise e end,
             set_memory_store (Some ms') committed)
        end
    end.
Proof.
  intros E1 E2 E3 E4 results ran committed. subst results ran committed.
  destruct m as [cfg mstore ai gh hf ax ia ma ig mg lc cd]. mgr_simpl_all.
  unfold run_collection_job, with_locals.
  erewrite bind_return.
  2:{ apply self_run.
      repeat (eapply gather_cons; [by apply attempt_safe_collect|]).
      reflexivity. }
  destruct (aggregate_four o1 o2 o3 o4) as (d & Hloop & Hd).
  destruct (first_escaping [o1; o2; o3; o4]) as [e|].
  { erewrite bind_raise.
    2:{ apply local_run. mgr_simpl. exact Hloop. }
    reflexivity. }
  rewrite (Hd eq_refl) in Hloop. clear Hd d.
  erewrite bind_return.
  2:{ apply local_run. exact Hloop. }
  destruct (aggregated_lookup o1 o2 o3 o4) as (L1 & L2 & L3 & L4 & _).
  do 4 erewrite bind_return by reflexivity.
  mgr_simpl. unfold id.
  destruct mstore as [ms|].
  2:{ cbv [bind ret]. cbv beta iota delta [fst snd]. reflexivity. }
  unfold bind at 1.
  erewrite bind_return by (apply local_run, getitem_lookup, L1).
  erewrite bind_return by (unfold lift_outcome; rewrite py_len_slot; reflexivity).
  erewrite bind_return by (apply local_run, getitem_lookup, L2).
  erewrite bind_return by (unfold lift_outcome; rewrite py_len_slot; reflexivity).
  erewrite bind_return by (apply local_run, getitem_lookup, L3).
  erewrite bind_return by (unfold lift_outcome; rewrite py_len_slot; reflexivity).
  erewrite bind_return by (apply local_run, getitem_lookup, L4).
  erewrite bind_return by (unfold lift_outcome; rewrite py_len_slot; reflexivity).
  unfold memory_store_store. erewrite self_run.
  2:{ mgr_simpl. reflexivity. }
  unfold store. mgr_simpl.
  destruct (store_body ms _ _ _); cbv beta iota delta [ret fst snd]; reflexivity.
Qed.

(** The same, on the results of the four tasks. *)
Lemma run_collection_job_gathered (m : DailyJobManager) :
  let o1 := (base_collector.run now (ai_model_collector m)).1 in
  let o2 := (base_collector.run now (github_collector m)).1 in
  let o3 := (base_collector.run now (hf_collector m)).1 in
  let o4 := (base_collector.run now (arxiv_collector m)).1 in
  let ran (last_collection : gmap string datetime) collected_data memory_store :=
    mkDailyJobManager (config m) memory_store
      (base_collector.run now (ai_model_collector m)).2
      (base_collector.run now (github_collector m)).2
      (base_collector.run now (hf_collector m)).2
      (base_collector.run now (arxiv_collector m)).2
      (insight_analyzer m) (model_analyzer m) (insight_generator m)
      (model_generator m) last_collection collected_data in
  let results := aggregated o1 o2 o3 o4 in
  let value :=
    LastCollection now (slot_len o1) (slot_len o4) (slot_len o2) (slot_len o3) in
  run_collection_job now m
  = match first_escaping (gathered now m) with
    | Some e =>
        (Raise (no_data e), ran (_last_collection m) (_collected_data m) (memory_store m))
    | None =>
        (match memory_store m with
         | None => Return results
         | Some ms =>
             match store_body ms (length (store_calls ms)) "last_collection" value with
             | Return _ => Return results
             | Raise e => Raise e
             end
         end,
         ran (<["all" := now]> (_last_collection m)) results
           (match memory_store m with
            | Some ms =>
                Some (mkMemoryStore (store_body ms)
                        (store_calls ms ++ [("last_collection", value)]))
            | None => None
            end))
    end.
Proof.
  cbv zeta. unfold gathered.
  destruct (base_collector.run now (ai_model_collector m)) as [o1 c1] eqn:E1.
  destruct (base_collector.run now (github_collector m)) as [o2 c2] eqn:E2.
  destruct (base_collector.run now (hf_collector m)) as [o3 c3] eqn:E3.
  destruct (base_collector.run now (arxiv_collector m)) as [o4 c4] eqn:E4.
  rewrite (run_collection_job_unfolded m _ _ _ _ _ _ _ _ E1 E2 E3 E4).
  cbn [fst snd].
  destruct (first_escaping [o1; o2; o3; o4]); [done|].
  destruct (memory_store m) as [ms|]; [|done].
  unfold store. by destruct (store_body ms _ _ _).
Qed.

(** When no [run] raised, the four gathered results are envelopes. *)
Lemma gathered_envelopes (m : DailyJobManager) :
  first_escaping (gathered now m) = None →
  ∃ r1 r2 r3 r4, gathered now m = [Return r1; Return r2; Return r3; Return r4].
Proof.
  intros Hg. apply first_escaping_none in Hg. unfold gathered in *.
  apply Forall_cons in Hg as [H1 Hg]. apply Forall_cons in Hg as [H2 Hg].
  apply Forall_cons in Hg as [H3 Hg]. apply Forall_cons in Hg as [H4 _].
  apply collector_run_returns in H1 as [r1 ->].
  apply collector_run_returns in H2 as [r2 ->].
  apply collector_run_returns in H3 as [r3 ->].
  apply collector_run_returns in H4 as [r4 ->].
  by exists r1, r2, r3, r4.
Qed.

End CollectStage.

(** ** The analyze stage *)

Section AnalyzeStage.
Context `{Payloads}.
Variable now : datetime.

(** The loop over the items leaves the attributes of the analyzer that
    [run] leaves; when no [run] raises, every item was analysed. *)
Lemma analyses_frame models : ∀ a,
  base_analyzer._last_results (analyses now a models).1 = base_analyzer._last_results a
  ∧ base_analyzer.analyze_body (analyses now a models).1 = base_analyzer.analyze_body a
  ∧ ∃ analysed,
      analysed `prefix_of` models
      ∧ base_analyzer.analyze_calls (analyses now a models).1
        = base_analyzer.analyze_calls a ++ (model_data_of <$> analysed)
      ∧ (analyses_raised now a models = None → analysed = models).
Proof.
  induction models as [|model models IH]; intros a;
    cbn [analyses analyses_raised fst].
  - do 2 (split; [done|]). exists []. by rewrite app_nil_r.
  - pose proof (analyzer_run_frame now a (model_data_of model)) as (Hc & Hb & _ & Hl).
    destruct (base_analyzer.run now (model_data_of model) a) as [[r|e] a1].
    + destruct (IH a1) as (IHl & IHb & analysed & Hp & IHc & IHn).
      destruct (analyses now a1 models) as [a2 ks]. cbn [fst snd] in *.
      split; [congruence|]. split; [congruence|].
      exists (model :: analysed). split; [by apply prefix_cons|].
      split; [by rewrite IHc, Hc, <-app_assoc|]. intros Hn. by rewrite IHn.
    + cbn [fst snd] in *. do 2 (split; [done|]).
      exists [model]. split; [by apply prefix_cons, prefix_nil|]. done.
Qed.

(** What the loop raises is what a [run] raised: no instance of
    [Exception]. *)
Lemma analyses_raised_escapes models : ∀ a e,
  analyses_raised now a models = Some e → exc_is_Exception e = false.
Proof.
  induction models as [|model models IH]; intros a e; cbn [analyses_raised];
    [by intros [=]|].
  destruct (base_analyzer.run now (model_data_of model) a) as [[r|e'] a1] eqn:E.
  - apply IH.
  - intros [= <-]. apply (analyzer_run_raises now a (model_data_of model)).
    by rewrite E.
Qed.

Lemma analyses_calls models a :
  analyses_raised now a models = None →
  base_analyzer.analyze_calls (analyses now a models).1
  = base_analyzer.analyze_calls a ++ (model_data_of <$> models).
Proof.
  intros Hn. destruct (analyses_frame models a) as (_ & _ & analysed & _ & -> & Ha).
  by rewrite (Ha Hn).
Qed.

(** An analyzer whose body raises nothing but instances of [Exception] is
    run on every item. *)
Lemma analyses_raises_only_Exception models : ∀ a,
  base_analyzer.raises_only_Exception a → analyses_raised now a models = None.
Proof.
  induction models as [|model models IH]; intros a Ha; cbn [analyses_raised]; [done|].
  destruct (analyzer_raises_only_Exception now a (model_data_of model) Ha) as (Hr & Ha').
  destruct (base_analyzer.run now (model_data_of model) a) as [[r|e] a1] eqn:E;
    cbn [fst snd] in *.
  - by apply IH.
  - pose proof (analyzer_run_raises now a (model_data_of model) e) as He.
    rewrite E in He. cbn in Hr. by rewrite (He eq_refl) in Hr.
Qed.

(** One turn of the loop over the models, on a collected item whose
    analysis returns. *)
Lemma analyze_model_item cfg ms ai gh hf ax ia a ig mg lc cd
    (results : gmap string pyobj) mar xs model r a1 :
  results !! "model_analyses" = Some (PyList xs) →
  base_analyzer.run now (model_data_of model) a = (Return r, a1) →
  analyze_model now (PyItem model)
    (mkDailyJobManager cfg ms ai gh hf ax ia a ig mg lc cd, (results, mar))
  = (Return tt,
     (mkDailyJobManager cfg ms ai gh hf ax ia a1 ig mg lc cd,
      (<["model_analyses" := PyList (xs ++ (PyModelAnalysis <$> kept r))]> results,
       mar ++ kept r))).
Proof.
  intros Hr E. unfold analyze_model.
  apply try_except_return.
  do 3 erewrite bind_return by reflexivity.
  erewrite bind_return.
  2:{ apply self_run. apply zoom_run. mgr_simpl. exact E. }
  mgr_simpl. unfold kept.
  destruct (base_analyzer.result r) as [p|]; [destruct (analysis_truthy p)|].
  - erewrite bind_return.
    2:{ unfold on_results. apply local_run, zoom_run. cbn [fst].
        by apply append_to_list. }
    reflexivity.
  - cbn [fmap list_fmap]. rewrite !app_nil_r, insert_id by done. reflexivity.
  - cbn [fmap list_fmap]. rewrite !app_nil_r, insert_id by done. reflexivity.
Qed.

(** One turn of the loop on an item whose analysis raises: what [run]
    raises passes the handler of the loop too. *)
Lemma analyze_model_raise cfg ms ai gh hf ax ia a ig mg lc cd locals model e a1 :
  base_analyzer.run now (model_data_of model) a = (Raise e, a1) →
  analyze_model now (PyItem model)
    (mkDailyJobManager cfg ms ai gh hf ax ia a ig mg lc cd, locals)
  = (Raise e, (mkDailyJobManager cfg ms ai gh hf ax ia a1 ig mg lc cd, locals)).
Proof.
  intros E. unfold analyze_model.
  erewrite try_except_escape; cycle 1.
  - do 3 erewrite bind_return by reflexivity.
    eapply bind_raise. apply self_run, zoom_run. mgr_simpl. exact E.
  - apply (analyzer_run_raises now a (model_data_of model)). by rewrite E.
  - reflexivity.
Qed.

(** The loop over collected items: it stops at the first item whose
    analysis raises. *)
Lemma analyze_models_items cfg ms ai gh hf ax ia ig mg lc cd models :
  ∀ a (results : gmap string pyobj) mar xs,
  results !! "model_analyses" = Some (PyList xs) →
  for_each (PyItem <$> models) (analyze_model now)
    (mkDailyJobManager cfg ms ai gh hf ax ia a ig mg lc cd, (results, mar))
  = (match analyses_raised now a models with
     | Some e => Raise e
     | None => Return tt
     end,
     (mkDailyJobManager cfg ms ai gh hf ax ia (analyses now a models).1 ig mg lc cd,
      (<["model_analyses" :=
           PyList (xs ++ (PyModelAnalysis <$> (analyses now a models).2))]> results,
       mar ++ (analyses now a models).2))).
Proof.
  induction models as [|model models IH]; intros a results mar xs Hr.
  - cbn [fmap list_fmap for_each analyses analyses_raised fst snd].
    rewrite !app_nil_r, insert_id by done. reflexivity.
  - cbn [fmap list_fmap analyses analyses_raised].
    destruct (base_analyzer.run now (model_data_of model) a) as [[r|e] a1] eqn:E.
    + eapply for_each_cons; [by eapply analyze_model_item|].
      erewrite IH by apply lookup_insert_eq.
      destruct (analyses now a1 models) as [a2 ks]. cbn [fst snd].
      by rewrite insert_insert_eq, fmap_app, !app_assoc.
    + cbn [for_each fst snd fmap list_fmap].
      erewrite bind_raise by (by eapply analyze_model_raise).
      by rewrite !app_nil_r, insert_id.
Qed.

(** The analyze stage in one equation, when there is collected data whose
    [hf_models] slot holds items. What the [run] of an analyzer raises
    leaves the stage at once; otherwise the payloads kept are retained on
    the structural analyzer and the memory store, when there is one, is
    notified last. *)
Lemma run_analysis_job_unfolded (m : DailyJobManager) models :
  _collected_data m ≠ ∅ →
  default (PyList []) (_collected_data m !! "hf_models") = PyList (PyItem <$> models) →
  let insight := base_analyzer.run now (_collected_data m) (insight_analyzer m) in
  let structural := analyses now (model_analyzer m) (take 5 models) in
  let ran memory_store model_analyzer :=
    mkDailyJobManager (config m) memory_store (ai_model_collector m)
      (github_collector m) (hf_collector m) (arxiv_collector m) insight.2
      model_analyzer (insight_generator m) (model_generator m)
      (_last_collection m) (_collected_data m) in
  run_analysis_job now m
  = match insight.1 with
    | Raise e => (Raise e, ran (memory_store m) (model_analyzer m))
    | Return ir =>
        match analyses_raised now (model_analyzer m) (take 5 models) with
        | Some e => (Raise e, ran (memory_store m) structural.1)
        | None =>
            let results :=
              <["model_analyses" := PyList (PyModelAnalysis <$> structural.2)]>
                (with_insights ir empty_analysis) in
            let value :=
              LastAnalysis now (insight_count_of results) (len structural.2) in
            let retained := base_analyzer.set_last_results structural.2 structural.1 in
            match memory_store m with
            | None => (Return results, ran None retained)
            | Some ms =>
                (match store_body ms (length (store_calls ms)) "last_analysis" value with
                 | Return _ => Return results
                 | Raise e => Raise e
                 end,
                 ran (Some (mkMemoryStore (store_body ms)
                              (store_calls ms ++ [("last_analysis", value)])))
                   retained)
            end
        end
    end.
Proof.
  intros Hcd Hhf insight structural ran. subst insight structural ran.
  destruct m as [cfg mstore ai gh hf ax ia ma ig mg lc cd]. mgr_simpl_all.
  unfold run_analysis_job.
  erewrite bind_return by reflexivity. mgr_simpl.
  rewrite bool_decide_eq_false_2 by done.
  unfold with_locals.
  destruct (base_analyzer.run now cd ia) as [[ir|e] ia'] eqn:Ei; cbn [fst snd].
  2:{ erewrite bind_raise.
      2:{ eapply try_except_escape.
          - erewrite bind_return by reflexivity.
            eapply bind_raise. apply self_run, zoom_run. mgr_simpl. exact Ei.
          - apply (analyzer_run_raises now ia cd). by rewrite Ei. }
      reflexivity. }
  erewrite bind_return.
  2:{ apply try_except_return.
      erewrite bind_return by reflexivity.
      erewrite bind_return.
      2:{ apply self_run, zoom_run. mgr_simpl. exact Ei. }
      mgr_simpl.
      instantiate (1 := (_, (with_insights ir empty_analysis, []))).
      unfold with_insights.
      destruct (base_analyzer.result ir) as [p|]; [destruct (insights_truthy p)|];
        reflexivity. }
  erewrite bind_return by reflexivity. mgr_simpl.
  rewrite Hhf. cbn [py_slice_elements lift_outcome].
  erewrite bind_return by reflexivity.
  rewrite <-fmap_take.
  erewrite bind_run.
  2:{ apply (analyze_models_items _ _ _ _ _ _ _ _ _ _ _ _ _ _ _ []).
      unfold with_insights, empty_analysis.
      destruct (base_analyzer.result ir) as [p|]; [destruct (insights_truthy p)|];
        lookup_chain. }
  destruct (analyses_raised now ma (take 5 models)) as [e|]; [reflexivity|].
  rewrite app_nil_l.
  do 3 erewrite bind_return by reflexivity.
  mgr_simpl.
  destruct mstore as [ms|].
  2:{ cbv [bind ret local zoom gets]. cbv beta iota delta [fst snd]. reflexivity. }
  unfold bind at 1.
  erewrite bind_return by reflexivity.
  erewrite bind_return.
  2:{ unfold on_results. apply local_run, zoom_run, getitem_lookup.
      cbv beta iota delta [fst snd]. apply lookup_insert_eq. }
  erewrite bind_return.
  2:{ unfold lift_outcome, py_len, len. rewrite length_fmap. reflexivity. }
  unfold memory_store_store. erewrite self_run.
  2:{ mgr_simpl. reflexivity. }
  unfold store. mgr_simpl. fold (len (analyses now ma (take 5 models)).2).
  destruct (store_body ms _ _ _);
    cbv [bind ret local zoom gets]; cbv beta iota delta [fst snd]; reflexivity.
Qed.
End AnalyzeStage.

(** ** The report stage *)

Section ReportStage.
Context `{Payloads}.

(** One turn of the loop over the retained analyses. *)
Lemma report_model_step cfg ms ai gh hf ax ia ma ig mg lc cd
    (results : gmap string pyobj) xs model_analysis :
  results !! "model_reports" = Some (PyList xs) →
  report_model model_analysis
    (mkDailyJobManager cfg ms ai gh hf ax ia ma ig mg lc cd, results)
  = (match (generate model_analysis mg).1 with
     | Return _ => Return tt
     | Raise e => if exc_is_Exception e then Return tt else Raise e
     end,
     (mkDailyJobManager cfg ms ai gh hf ax ia ma ig (generate model_analysis mg).2 lc cd,
      <["model_reports" :=
          PyList (xs ++ match (generate model_analysis mg).1 with
                        | Return report =>
                            [PyModelReport (path_of report) (model_name model_analysis)
                               (status_value report)]
                        | Raise _ => []
                        end)]> results)).
Proof.
  intros Hr. unfold report_model.
  destruct (generate model_analysis mg) as [[report|e] g1] eqn:E; cbn [fst snd].
  - apply try_except_return.
    erewrite bind_return.
    2:{ apply self_run, zoom_run. mgr_simpl. exact E. }
    mgr_simpl. apply local_run. by apply append_to_list.
  - rewrite app_nil_r, insert_id by done.
    destruct (exc_is_Exception e) eqn:He.
    + erewrite try_except_raise; [|eapply bind_raise; apply self_run, zoom_run;
                                    mgr_simpl; exact E|exact He].
      reflexivity.
    + erewrite try_except_escape; [|eapply bind_raise; apply self_run, zoom_run;
                                     mgr_simpl; exact E|exact He].
      reflexivity.
Qed.

(** The loop over the retained analyses: it stops at the first [generate]
    that raises past the handler. *)
Lemma report_models_run cfg ms ai gh hf ax ia ma ig lc cd l :
  ∀ mg (results : gmap string pyobj) xs,
  results !! "model_reports" = Some (PyList xs) →
  for_each l report_model
    (mkDailyJobManager cfg ms ai gh hf ax ia ma ig mg lc cd, results)
  = (match model_reports_raised mg l with
     | Some e => Raise e
     | None => Return tt
     end,
     (mkDailyJobManager cfg ms ai gh hf ax ia ma ig (model_reports mg l).1 lc cd,
      <["model_reports" := PyList (xs ++ (model_reports mg l).2)]> results)).
Proof.
  induction l as [|x l IH]; intros mg results xs Hr.
  - cbn [for_each model_reports model_reports_raised fst snd].
    rewrite app_nil_r, insert_id by done. reflexivity.
  - cbn [for_each model_reports model_reports_raised].
    pose proof (report_model_step cfg ms ai gh hf ax ia ma ig mg lc cd results xs x Hr)
      as Hstep.
    destruct (generate x mg) as [[report|e] g1]; cbn [fst snd escaping] in *.
    + erewrite bind_return by exact Hstep.
      erewrite IH by apply lookup_insert_eq.
      destruct (model_reports g1 l) as [g2 rs]. cbn [fst snd].
      by rewrite insert_insert_eq, <-app_assoc.
    + destruct (exc_is_Exception e).
      * erewrite bind_return by exact Hstep.
        erewrite IH by apply lookup_insert_eq.
        destruct (model_reports g1 l) as [g2 rs]. cbn [fst snd].
        by rewrite insert_insert_eq, <-app_assoc.
      * erewrite bind_raise by exact Hstep. reflexivity.
Qed.

(** The report stage in one equation: what a [generate] raises past its
    handler leaves the stage; otherwise the stage returns its mapping. *)
Lemma run_report_job_unfolded (m : DailyJobManager) :
  let insight := insight_report (insight_generator m)
                   (usable_insights (insight_analyzer m)) in
  let retained := default [] (base_analyzer._last_results (model_analyzer m)) in
  let models := model_reports (model_generator m) retained in
  let ran model_generator :=
    mkDailyJobManager (config m) (memory_store m) (ai_model_collector m)
      (github_collector m) (hf_collector m) (arxiv_collector m)
      (insight_analyzer m) (model_analyzer m) insight.1 model_generator
      (_last_collection m) (_collected_data m) in
  run_report_job m
  = match from_option (λ r, escaping (generate r (insight_generator m)).1) None
            (usable_insights (insight_analyzer m)) with
    | Some e => (Raise e, ran (model_generator m))
    | None =>
        (match model_reports_raised (model_generator m) retained with
         | Some e => Raise e
         | None => Return (<["model_reports" := PyList models.2]> insight.2)
         end, ran models.1)
    end.
Proof.
  intros insight retained models ran. subst insight retained models ran.
  destruct m as [cfg mstore ai gh hf ax ia ma ig mg lc cd]. mgr_simpl_all.
  unfold run_report_job, with_locals.
  erewrite bind_return by reflexivity. mgr_simpl.
  unfold usable_insights, insight_report in *.
  destruct (base_analyzer._last_result ia) as [ad|];
    [destruct (base_analyzer.result ad) as [r|];
     [destruct (insights_truthy r)|]|];
    cbn [from_option fst snd] in *.
  2-4: erewrite bind_return by reflexivity;
       erewrite bind_return by reflexivity; mgr_simpl;
       (erewrite bind_run;
        [|apply (report_models_run _ _ _ _ _ _ _ _ _ _ _ _ _ _ []);
          unfold empty_reports; lookup_chain]);
       cbn [app]; by destruct (model_reports_raised mg _).
  destruct (generate r ig) as [[report|e] g'] eqn:E; cbn [fst snd escaping] in *.
  - erewrite bind_return.
    2:{ apply try_except_return.
        erewrite bind_return.
        2:{ apply self_run, zoom_run. mgr_simpl. exact E. }
        reflexivity. }
    mgr_simpl.
    erewrite bind_return by reflexivity. mgr_simpl.
    erewrite bind_run.
    2:{ apply (report_models_run _ _ _ _ _ _ _ _ _ _ _ _ _ _ []).
        unfold empty_reports. lookup_chain. }
    cbn [app]. by destruct (model_reports_raised mg _).
  - destruct (exc_is_Exception e) eqn:He.
    + erewrite bind_return.
      2:{ erewrite try_except_raise; [|eapply bind_raise; apply self_run, zoom_run;
                                        mgr_simpl; exact E|exact He].
          mgr_simpl. apply local_run.
          apply (append_to_list "errors" _ [] empty_reports).
          unfold empty_reports. lookup_chain. }
      erewrite bind_return by reflexivity. mgr_simpl.
      erewrite bind_run.
      2:{ apply (report_models_run _ _ _ _ _ _ _ _ _ _ _ _ _ _ []).
          unfold empty_reports. lookup_chain. }
      cbn [app]. by destruct (model_reports_raised mg _).
    + erewrite bind_raise.
      2:{ erewrite try_except_escape; [|eapply bind_raise; apply self_run, zoom_run;
                                         mgr_simpl; exact E|exact He].
          reflexivity. }
      reflexivity.
Qed.
End ReportStage.

(** ** Claims about the collect stage *)

Section CollectClaims.
Context `{Payloads}.
Variable now : datetime.

(** What the collect stage commits and returns when the [run] of each of
    its units returns. *)
Lemma collect_stage_outcome (m : DailyJobManager) :
  first_escaping (gathered now m) = None →
  ∃ r1 r2 r3 r4,
    gathered now m = [Return r1; Return r2; Return r3; Return r4]
    ∧ _collected_data (run_collection_job now m).2
      = aggregated (Return r1) (Return r2) (Return r3) (Return r4)
    ∧ (run_collection_job now m).1
      = match memory_store m with
        | None => Return (aggregated (Return r1) (Return r2) (Return r3) (Return r4))
        | Some ms =>
            match store_body ms (length (store_calls ms)) "last_collection"
                    (LastCollection now (len (base_collector.data r1))
                       (len (base_collector.data r4)) (len (base_collector.data r2))
                       (len (base_collector.data r3))) with
            | Return _ =>
                Return (aggregated (Return r1) (Return r2) (Return r3) (Return r4))
            | Raise e => Raise e
            end
        end.
Proof.
  intros Hg. destruct (gathered_envelopes now m Hg) as (r1 & r2 & r3 & r4 & Hr).
  exists r1, r2, r3, r4. split; [done|].
  rewrite run_collection_job_gathered. cbv zeta. rewrite Hg.
  unfold gathered in Hr. injection Hr as -> -> -> ->. done.
Qed.



(** The collect half of C3: what [store] raises leaves the stage, after
    the results were committed. *)
Lemma collect_store_failure (m : DailyJobManager) e :
  first_escaping (gathered now m) = None →
  store_raises m "last_collection" e →
  (run_collection_job now m).1 = Raise e
  ∧ dom (_collected_data (run_collection_job now m).2)
    = ({["models"; "papers"; "repos"; "hf_models"; "errors"]} : gset string).
Proof.
  intros Hg (ms & Hms & Hraise).
  destruct (collect_stage_outcome m Hg) as (r1 & r2 & r3 & r4 & _ & Hc & Ho).
  rewrite Hc, Ho, Hms, Hraise. by rewrite aggregated_dom.
Qed.
End CollectClaims.




(** The collect stage with a unit that is cancelled in its body: the unit's
    [run] raises, the other three units run to their end, and the stage
    raises the [AttributeError] of the aggregation loop without committing
    anything or notifying the memory store. *)
Example collect_stage_on_cancellation :
  let m := scenario.manager_cancelled (Some scenario.store_ok) in
  let after := run_collection_job 0%Z m in
  (base_collector.run 0%Z (github_collector m)).1 = Raise scenario.cancelled
  ∧ after.1
    = Raise (AttributeError "'CancelledError' object has no attribute 'data'")
  ∧ _collected_data after.2 = ∅
  ∧ _last_collection after.2 = ∅
  ∧ memory_store after.2 = Some scenario.store_ok
  ∧ base_collector._status (github_collector after.2) = base_collector.RUNNING
  ∧ base_collector._status (hf_collector after.2) = base_collector.SUCCESS
  ∧ base_collector._status (arxiv_collector after.2) = base_collector.SUCCESS.
Proof. vm_compute. done. Qed.

(** ** Claims about the analyze stage *)

Section AnalyzeClaims.
Context `{Payloads}.
Variable now : datetime.

(** What the analyze stage leaves untouched, and the insight analyzer
    after it, whether the stage returns or raises. *)
Lemma analyze_stage_frame (m : DailyJobManager) models :
  _collected_data m ≠ ∅ →
  default (PyList []) (_collected_data m !! "hf_models") = PyList (PyItem <$> models) →
  let after := (run_analysis_job now m).2 in
  insight_analyzer after
    = (base_analyzer.run now (_collected_data m) (insight_analyzer m)).2
  ∧ insight_generator after = insight_generator m
  ∧ model_generator after = model_generator m
  ∧ _collected_data after = _collected_data m
  ∧ ai_model_collector after = ai_model_collector m
  ∧ github_collector after = github_collector m
  ∧ hf_collector after = hf_collector m
  ∧ arxiv_collector after = arxiv_collector m
  ∧ _last_collection after = _last_collection m
  ∧ config after = config m.
Proof.
  intros Hcd Hhf. cbv zeta.
  rewrite (run_analysis_job_unfolded now m models Hcd Hhf). cbv zeta.
  destruct (base_analyzer.run now (_collected_data m) (insight_analyzer m)).1;
    [|done].
  destruct (analyses_raised now (model_analyzer m) (take 5 models)); [done|].
  by destruct (memory_store m).
Qed.

(** The analyze stage when the [run] of its analyzers return: what it
    returns, what it retains and what it tells the memory store. *)
Lemma analyze_stage_returns (m : DailyJobManager) models :
  _collected_data m ≠ ∅ →
  default (PyList []) (_collected_data m !! "hf_models") = PyList (PyItem <$> models) →
  analysis_escaping now m models = None →
  ∃ ir,
    (base_analyzer.run now (_collected_data m) (insight_analyzer m)).1 = Return ir
    ∧ let after := run_analysis_job now m in
      let structural := analyses now (model_analyzer m) (take 5 models) in
      let results : gmap string pyobj :=
        <["model_analyses" := PyList (PyModelAnalysis <$> structural.2)]>
          (with_insights ir empty_analysis) in
      let value := LastAnalysis now (insight_count_of results) (len structural.2) in
      after.1
        = match memory_store m with
          | Some ms =>
              match store_body ms (length (store_calls ms)) "last_analysis" value with
              | Return _ => Return results
              | Raise e => Raise e
              end
          | None => Return results
          end
      ∧ memory_store after.2
        = match memory_store m with
          | Some ms =>
              Some (mkMemoryStore (store_body ms)
                      (store_calls ms ++ [("last_analysis", value)]))
          | None => None
          end
      ∧ model_analyzer after.2
        = base_analyzer.set_last_results structural.2 structural.1.
Proof.
  intros Hcd Hhf Hesc. unfold analysis_escaping in Hesc.
  rewrite (run_analysis_job_unfolded now m models Hcd Hhf). cbv zeta.
  destruct (base_analyzer.run now (_collected_data m) (insight_analyzer m)).1
    as [ir|e]; [|discriminate Hesc].
  exists ir. split; [done|]. rewrite Hesc.
  by destruct (memory_store m).
Qed.

(** What the analyze stage does on a memory store that raises or
    returns. *)
Lemma analyze_stage_outcome (m : DailyJobManager) models :
  _collected_data m ≠ ∅ →
  default (PyList []) (_collected_data m !! "hf_models") = PyList (PyItem <$> models) →
  analysis_escaping now m models = None →
  let after := run_analysis_job now m in
  (∀ e, store_raises m "last_analysis" e → after.1 = Raise e)
  ∧ (store_returns m "last_analysis" → ∃ results, after.1 = Return results)
  ∧ (∀ e, after.1 = Raise e →
       ∃ ms value,
         memory_store m = Some ms
         ∧ store_body ms (length (store_calls ms)) "last_analysis" value = Raise e).
Proof.
  intros Hcd Hhf Hesc. cbv zeta.
  destruct (analyze_stage_returns m models Hcd Hhf Hesc) as (ir & _ & -> & _).
  unfold store_raises, store_returns.
  destruct (memory_store m) as [ms|] eqn:Hms.
  - split; [|split].
    + intros e (ms' & [= <-] & Hraise). by rewrite Hraise.
    + intros Hret. rewrite (Hret ms) by done. eauto.
    + intros e He.
      destruct (store_body ms _ _ _) as [[]|e'] eqn:Hs; [discriminate He|].
      injection He as ->. eauto.
  - split; [|split].
    + by intros e (ms' & [=] & _).
    + eauto.
    + by intros e [=].
Qed.

(** The invocations of the structural analyzer by the analyze stage. *)
Lemma analyze_stage_structural_calls (m : DailyJobManager) models :
  _collected_data m ≠ ∅ →
  default (PyList []) (_collected_data m !! "hf_models") = PyList (PyItem <$> models) →
  analysis_escaping now m models = None →
  base_analyzer.analyze_calls (model_analyzer (run_analysis_job now m).2)
  = base_analyzer.analyze_calls (model_analyzer m) ++ (model_data_of <$> take 5 models).
Proof.
  intros Hcd Hhf Hesc.
  destruct (analyze_stage_returns m models Hcd Hhf Hesc) as (ir & Hir & _ & _ & ->).
  cbn [base_analyzer.set_last_results base_analyzer.analyze_calls].
  apply analyses_calls. unfold analysis_escaping in Hesc. by rewrite Hir in Hesc.
Qed.

(** C7. Without committed collect-stage output the analyze stage returns
    the single error "No data available" and leaves the coordinator, its
    units included, as it was: no analysis unit is invoked. *)
Theorem analysis_without_collected_data (m : DailyJobManager) :
  _collected_data m = ∅ →
  run_analysis_job now m
  = (Return ({[ "error" := PyStr "No data available" ]} : gmap string pyobj), m).
Proof.
  intros Hcd. unfold run_analysis_job.
  erewrite bind_return by reflexivity.
  by rewrite bool_decide_eq_true_2.
Qed.


(** C8, as the code has it. The analyze stage runs the structural
    analyzer once per item over the first five items of the collected
    [hf_models], in order, whether an invocation returns or raises an
    instance of [Exception]. Five is written in the stage: whatever
    configuration the coordinator holds, the invocations are the same.
    With eight items, five are analysed and three are not. The payloads
    kept are retained on the analyzer. *)
Theorem structural_analyses_first_five (m : DailyJobManager) cfg models :
  _collected_data m ≠ ∅ →
  default (PyList []) (_collected_data m !! "hf_models") = PyList (PyItem <$> models) →
  analysis_escaping now m models = None →
  let after := (run_analysis_job now (set_config cfg m)).2 in
  base_analyzer.analyze_calls (model_analyzer after)
    = base_analyzer.analyze_calls (model_analyzer m) ++ (model_data_of <$> take 5 models)
  ∧ length (base_analyzer.analyze_calls (model_analyzer after))
    = length (base_analyzer.analyze_calls (model_analyzer m)) + 5 `min` length models
  ∧ base_analyzer._last_results (model_analyzer after)
    = Some (analyses now (model_analyzer m) (take 5 models)).2
  ∧ (∀ e, (run_analysis_job now (set_config cfg m)).1 = Raise e →
       ∃ ms value,
         memory_store m = Some ms
         ∧ store_body ms (length (store_calls ms)) "last_analysis" value = Raise e).
Proof.
  intros Hcd Hhf Hesc after. subst after.
  assert (analysis_escaping now (set_config cfg m) models = None) as Hesc'
    by exact Hesc.
  pose proof (analyze_stage_structural_calls (set_config cfg m) models Hcd Hhf Hesc')
    as Hcalls.
  destruct (analyze_stage_returns (set_config cfg m) models Hcd Hhf Hesc')
    as (_ & _ & _ & _ & Hma).
  destruct (analyze_stage_outcome (set_config cfg m) models Hcd Hhf Hesc')
    as (_ & _ & Hraise).
  cbv zeta in Hma. cbn [set_config model_analyzer memory_store] in *.
  split; [done|]. split; [|split].
  - by rewrite Hcalls, length_app, length_fmap, length_take.
  - by rewrite Hma.
  - exact Hraise.
Qed.
End AnalyzeClaims.

(** ** Claims about the report stage *)

Section ReportClaims.
Context `{Payloads}.
Variable now : datetime.

(** C10. When the body of an analyzer raises, [run] leaves the retained
    [_last_result] as it was. So after an analyze stage whose insight
    analysis failed, the report stage still finds the envelope retained by
    an earlier run and invokes the insight generator on its payload; when
    the stage returns, its insight report is the one generated from that
    payload. *)
Theorem failed_analysis_keeps_last_result :
  (∀ T R (a : base_analyzer.BaseAnalyzer T R) (d : T) e,
     base_analyzer.analyze_body a (length (base_analyzer.analyze_calls a)) d
       = Raise e →
     base_analyzer._last_result (base_analyzer.run now d a).2
       = base_analyzer._last_result a)
  ∧ (∀ (m : DailyJobManager) e analysis_data p models,
       _collected_data m ≠ ∅ →
       default (PyList []) (_collected_data m !! "hf_models")
         = PyList (PyItem <$> models) →
       base_analyzer.analyze_body (insight_analyzer m)
         (length (base_analyzer.analyze_calls (insight_analyzer m)))
         (_collected_data m) = Raise e →
       base_analyzer._last_result (insight_analyzer m) = Some analysis_data →
       base_analyzer.result analysis_data = Some p →
       insights_truthy p = true →
       let analysed := (run_analysis_job now m).2 in
       let reported := run_report_job analysed in
       base_analyzer._last_result (insight_analyzer analysed) = Some analysis_data
       ∧ generate_calls (insight_generator reported.2)
         = generate_calls (insight_generator m) ++ [p]
       ∧ (report_escaping analysed = None →
          returned_slot "insight_report" reported.1
          = match generate_body (insight_generator m)
                    (length (generate_calls (insight_generator m))) p with
            | Return report =>
                Some (PyInsightReport (path_of report) (title report)
                        (status_value report))
            | Raise _ => Some PyNone
            end)).
Proof.
  assert (∀ T R (a : base_analyzer.BaseAnalyzer T R) (d : T) e,
     base_analyzer.analyze_body a (length (base_analyzer.analyze_calls a)) d
       = Raise e →
     base_analyzer._last_result (base_analyzer.run now d a).2
       = base_analyzer._last_result a) as Hkeep.
  { intros T R a d e Ha. rewrite analyzer_run_cases, Ha. cbv zeta.
    by destruct (exc_is_Exception e). }
  split; [exact Hkeep|].
  intros m e ad p models Hcd Hhf Hraise Hlast Hres Htruthy analysed reported.
  subst reported analysed.
  destruct (analyze_stage_frame now m models Hcd Hhf) as (Hia & Hig & _).
  cbv zeta in Hia, Hig.
  assert (usable_insights (insight_analyzer (run_analysis_job now m).2) = Some p)
    as Husable.
  { unfold usable_insights.
    by rewrite Hia, (Hkeep _ _ _ _ _ Hraise), Hlast, Hres, Htruthy. }
  split; [by rewrite Hia, (Hkeep _ _ _ _ _ Hraise)|].
  rewrite run_report_job_unfolded. cbv zeta. unfold report_escaping.
  rewrite Husable, Hig. cbn [from_option].
  unfold insight_report, generate. cbn [fst snd escaping].
  destruct (generate_body (insight_generator m) _ p) as [report|e'];
    cbn [fst snd escaping]; [|destruct (exc_is_Exception e')];
    cbn [fst snd insight_generator generate_calls].
  - split; [done|]. intros ->. cbn [returned_slot].
    by rewrite lookup_insert_ne, lookup_insert_eq.
  - split; [done|]. intros ->. cbn [returned_slot].
    by rewrite !lookup_insert_ne.
  - split; [done|]. intros [=].
Qed.
End ReportClaims.

(** ** The claims on the example coordinators *)

Lemma analysis_ready_has_data cfg ms :
  _collected_data (scenario.analysis_ready cfg ms) ≠ ∅.
Proof.
  intros Heq. apply (f_equal (lookup "errors")) in Heq.
  vm_compute in Heq. discriminate.
Qed.

Lemma analysis_ready_hf_models cfg ms :
  default (PyList []) (_collected_data (scenario.analysis_ready cfg ms) !! "hf_models")
  = PyList (PyItem <$> scenario.eight_cards).
Proof. vm_compute. reflexivity. Qed.

Lemma analysis_ready_returns cfg ms :
  analysis_escaping 0%Z (scenario.analysis_ready cfg ms) scenario.eight_cards = None.
Proof. vm_compute. reflexivity. Qed.

Lemma analysis_without_collected_data_witness :
  _collected_data (scenario.manager None) = ∅
  ∧ run_analysis_job 0%Z (scenario.manager None)
    = (Return ({[ "error" := PyStr "No data available" ]} : gmap string pyobj),
       scenario.manager None).
Proof.
  split; [reflexivity|].
  apply (analysis_without_collected_data 0%Z (scenario.manager None)). reflexivity.
Defined.



Lemma structural_analyses_first_five_witness :
  let m := scenario.analysis_ready ∅ None in
  let after := (run_analysis_job 0%Z (set_config scenario.config_asking_three m)).2 in
  _collected_data m ≠ ∅
  ∧ default (PyList []) (_collected_data m !! "hf_models")
    = PyList (PyItem <$> scenario.eight_cards)
  ∧ analysis_escaping 0%Z m scenario.eight_cards = None
  ∧ base_analyzer.analyze_calls (model_analyzer after)
    = base_analyzer.analyze_calls (model_analyzer m)
      ++ (model_data_of <$> take 5 scenario.eight_cards)
  ∧ length (base_analyzer.analyze_calls (model_analyzer after))
    = length (base_analyzer.analyze_calls (model_analyzer m))
      + 5 `min` length scenario.eight_cards
  ∧ base_analyzer._last_results (model_analyzer after)
    = Some (analyses 0%Z (model_analyzer m) (take 5 scenario.eight_cards)).2
  ∧ (∀ e, (run_analysis_job 0%Z (set_config scenario.config_asking_three m)).1
          = Raise e →
       ∃ ms value,
         memory_store m = Some ms
         ∧ store_body ms (length (store_calls ms)) "last_analysis" value = Raise e).
Proof.
  cbv zeta.
  split; [apply analysis_ready_has_data|].
  split; [apply analysis_ready_hf_models|].
  split; [apply analysis_ready_returns|].
  apply (structural_analyses_first_five 0%Z (scenario.analysis_ready ∅ None)
           scenario.config_asking_three scenario.eight_cards).
  - apply analysis_ready_has_data.
  - apply analysis_ready_hf_models.
  - apply analysis_ready_returns.
Defined.

(** C8, as stated, fails on where the bound comes from. A coordinator whose
    configuration asks for three analyses still analyses five of the eight
    collected items (the second of which fails, without stopping the
    others), and so it does under every configuration. The scheduler
    settings declare no such bound: their integers are 3 and 300. *)
Lemma structural_cap_ignores_configuration :
  length (base_analyzer.analyze_calls
            (model_analyzer
               (run_analysis_job 0%Z
                  (scenario.analysis_ready scenario.config_asking_three None)).2)) = 5
  ∧ returned_slot "model_analyses"
      (run_analysis_job 0%Z (scenario.analysis_ready scenario.config_asking_three None)).1
    = Some (PyList (PyModelAnalysis <$> ["m1"; "m3"; "m4"; "m5"]))
  ∧ (¬ ∃ cfg,
        length (base_analyzer.analyze_calls
                  (model_analyzer
                     (run_analysis_job 0%Z (scenario.analysis_ready cfg None)).2)) ≠ 5)
  ∧ settings.max_retries settings.SchedulerSettings_default = 3%Z
  ∧ settings.retry_delay settings.SchedulerSettings_default = 300%Z.
Proof.
  split; [vm_compute; reflexivity|].
  split; [vm_compute; reflexivity|].
  split; [|done].
  intros [cfg Hne]. apply Hne.
  by rewrite (analyze_stage_structural_calls (H:=scenario.payloads) 0%Z _
                scenario.eight_cards
                (analysis_ready_has_data cfg None) (analysis_ready_hf_models cfg None)
                (analysis_ready_returns cfg None)).
Qed.

Lemma failed_analysis_keeps_last_result_witness :
  let m := scenario.after_first_analysis in
  let e := mkException "RuntimeError" "llm unavailable" in
  let analysis_data :=
    base_analyzer.mkAnalysisResult base_analyzer.SUCCESS (Some ["agents are trending"])
      [] ∅ 0%Z "insight_analyzer" [] in
  let p : Insights := ["agents are trending"] in
  let analysed := (run_analysis_job 2%Z m).2 in
  let reported := run_report_job analysed in
  (base_analyzer.analyze_body scenario.model_unit 1
     (mkModelData "m2" "org" "text-generation")
     = Raise (mkException "RuntimeError" "unknown architecture")
   ∧ base_analyzer._last_result
       (base_analyzer.run 2%Z (mkModelData "m2" "org" "text-generation")
          (base_analyzer.run 2%Z (mkModelData "m1" "org" "text-generation")
             scenario.model_unit).2).2
     = base_analyzer._last_result
         (base_analyzer.run 2%Z (mkModelData "m1" "org" "text-generation")
            scenario.model_unit).2)
  ∧ (_collected_data m ≠ ∅
     ∧ default (PyList []) (_collected_data m !! "hf_models")
       = PyList (PyItem <$> scenario.eight_cards)
     ∧ base_analyzer.analyze_body (insight_analyzer m)
         (length (base_analyzer.analyze_calls (insight_analyzer m)))
         (_collected_data m) = Raise e
     ∧ base_analyzer._last_result (insight_analyzer m) = Some analysis_data
     ∧ base_analyzer.result analysis_data = Some p
     ∧ insights_truthy p = true
     ∧ report_escaping analysed = None
     ∧ base_analyzer._last_result (insight_analyzer analysed) = Some analysis_data
     ∧ generate_calls (insight_generator reported.2)
       = generate_calls (insight_generator m) ++ [p]
     ∧ returned_slot "insight_report" reported.1
       = Some (PyInsightReport (Some "reports/out.pptx") "Daily" "completed")).
Proof.
  cbv zeta.
  assert (_collected_data scenario.after_first_analysis ≠ ∅) as Hcd.
  { intros Heq. apply (f_equal (lookup "errors")) in Heq.
    vm_compute in Heq. discriminate. }
  assert (default (PyList []) (_collected_data scenario.after_first_analysis !! "hf_models")
          = PyList (PyItem <$> scenario.eight_cards)) as Hhf.
  { vm_compute. reflexivity. }
  assert (report_escaping (run_analysis_job 2%Z scenario.after_first_analysis).2 = None)
    as Hreport.
  { vm_compute. reflexivity. }
  split.
  - split; [reflexivity|].
    apply (proj1 (failed_analysis_keeps_last_result 2%Z) _ _ _ _
             (mkException "RuntimeError" "unknown architecture")).
    reflexivity.
  - split; [exact Hcd|]. split; [exact Hhf|].
    split; [vm_compute; reflexivity|].
    split; [vm_compute; reflexivity|].
    split; [reflexivity|]. split; [reflexivity|]. split; [exact Hreport|].
    destruct (proj2 (failed_analysis_keeps_last_result 2%Z) scenario.after_first_analysis
                (mkException "RuntimeError" "llm unavailable")
                (base_analyzer.mkAnalysisResult base_analyzer.SUCCESS
                   (Some ["agents are trending"]) [] ∅ 0%Z "insight_analyzer" [])
                ["agents are trending"] scenario.eight_cards Hcd Hhf)
      as (Hlast & Hcalls & Hslot).
    + vm_compute. reflexivity.
    + vm_compute. reflexivity.
    + reflexivity.
    + reflexivity.
    + split; [exact Hlast|]. split; [exact Hcalls|]. exact (Hslot Hreport).
Defined.

(** * Further properties *)

(** ** The unit contract, case by case *)

Section UnitRuns.
Variable now : datetime.

(** X1. [run] of a collector or of an analyzer returns an envelope or
    raises. When it returns, the source of the envelope is the unit's name
    and the status recorded on the unit is one of [SUCCESS], [FAILED],
    [PARTIAL], whatever the status was before. It raises exactly when one
    of its abstract methods is invoked and raises an exception that is not
    an instance of [Exception]: [run] raises that exception and the status
    recorded on the unit stays [RUNNING]. *)
Theorem run_returns_or_reraises :
  (∀ T (c : base_collector.BaseCollector T),
     match (base_collector.run now c).1 with
     | Return r =>
         base_collector.source r = base_collector.name c
         ∧ base_collector._status (base_collector.run now c).2 ≠ base_collector.PENDING
         ∧ base_collector._status (base_collector.run now c).2 ≠ base_collector.RUNNING
     | Raise e =>
         base_collector._status (base_collector.run now c).2 = base_collector.RUNNING
     end
     ∧ ∀ e,
         (base_collector.run now c).1 = Raise e
         ↔ exc_is_Exception e = false
           ∧ (base_collector.validate_config_body c
                (base_collector.validate_config_calls c) = Raise e
              ∨ base_collector.validate_config_body c
                  (base_collector.validate_config_calls c) = Return true
                ∧ base_collector.collect_body c (base_collector.collect_calls c)
                  = Raise e))
  ∧ (∀ T R (a : base_analyzer.BaseAnalyzer T R) (d : T),
       match (base_analyzer.run now d a).1 with
       | Return r =>
           base_analyzer.source r = base_analyzer.name a
           ∧ base_analyzer._status (base_analyzer.run now d a).2 ≠ base_analyzer.PENDING
           ∧ base_analyzer._status (base_analyzer.run now d a).2 ≠ base_analyzer.RUNNING
       | Raise e =>
           base_analyzer._status (base_analyzer.run now d a).2 = base_analyzer.RUNNING
       end
       ∧ ∀ e,
           (base_analyzer.run now d a).1 = Raise e
           ↔ exc_is_Exception e = false
             ∧ base_analyzer.analyze_body a (length (base_analyzer.analyze_calls a)) d
               = Raise e).
Proof.
  split.
  - intros T c. rewrite collector_run_cases. cbv zeta.
    destruct (base_collector.validate_config_body c _) as [[|]|e'];
      [destruct (base_collector.collect_body c _) as [r|e'];
       [destruct (base_collector.errors r)|destruct (exc_is_Exception e') eqn:He]
      | |destruct (exc_is_Exception e') eqn:He];
      cbn [fst snd base_collector.source base_collector.set_source
           base_collector._status];
      (split; [done|]); intros e; split;
      try (intros [=]; subst; by eauto);
      try (intros (? & [[=]|[[=] [=]]]); subst; congruence).
  - intros T R a d. rewrite analyzer_run_cases. cbv zeta.
    destruct (base_analyzer.analyze_body a _ d) as [r|e'];
      [destruct (base_analyzer.errors r)|destruct (exc_is_Exception e') eqn:He];
      cbn [fst snd base_analyzer.source base_analyzer.set_source
           base_analyzer._status];
      (split; [done|]); intros e; split;
      try (intros [=]; subst; by eauto);
      try (intros (? & [=]); subst; congruence).
Qed.

(** X2. When the status a run records on the unit is [FAILED], what it
    returned is the failure envelope: status [FAILED], exactly one error
    string, and an empty payload (collector, with [items_count] 0) or no
    payload (analyzer). *)
Theorem failed_status_means_failure_envelope :
  (∀ T (c : base_collector.BaseCollector T),
     base_collector._status (base_collector.run now c).2 = base_collector.FAILED →
     ∃ msg, (base_collector.run now c).1
            = Return (base_collector.mkCollectorResult base_collector.FAILED []
                        [msg] ∅ now 0%Z (base_collector.name c)))
  ∧ (∀ T R (a : base_analyzer.BaseAnalyzer T R) (d : T),
       base_analyzer._status (base_analyzer.run now d a).2 = base_analyzer.FAILED →
       ∃ msg, (base_analyzer.run now d a).1
              = Return (base_analyzer.mkAnalysisResult base_analyzer.FAILED None []
                          ∅ now (base_analyzer.name a) [msg])).
Proof.
  split.
  - intros T c. rewrite collector_run_cases. cbv zeta.
    destruct (base_collector.validate_config_body c _) as [[|]|e];
      [destruct (base_collector.collect_body c _) as [r|e];
       [destruct (base_collector.errors r)|destruct (exc_is_Exception e)]
      | |destruct (exc_is_Exception e)];
      cbn; intros Hs; try discriminate Hs; eauto.
  - intros T R a d. rewrite analyzer_run_cases. cbv zeta.
    destruct (base_analyzer.analyze_body a _ d) as [r|e];
      [destruct (base_analyzer.errors r)|destruct (exc_is_Exception e)];
      cbn; intros Hs; try discriminate Hs; eauto.
Qed.

(** X3. A run of a collector invokes [validate_config] exactly once, and
    [collect] exactly once when [validate_config] returned true and not at
    all otherwise; a run of an analyzer invokes [analyze] exactly once, on
    the data it was given. *)
Theorem run_invocations :
  (∀ T (c : base_collector.BaseCollector T),
     base_collector.validate_config_calls (base_collector.run now c).2
       = S (base_collector.validate_config_calls c)
     ∧ base_collector.collect_calls (base_collector.run now c).2
       = match base_collector.validate_config_body c
                 (base_collector.validate_config_calls c) with
         | Return true => S (base_collector.collect_calls c)
         | _ => base_collector.collect_calls c
         end)
  ∧ (∀ T R (a : base_analyzer.BaseAnalyzer T R) (d : T),
       base_analyzer.analyze_calls (base_analyzer.run now d a).2
         = base_analyzer.analyze_calls a ++ [d]).
Proof.
  split.
  - intros T c. rewrite collector_run_cases. cbv zeta.
    destruct (base_collector.validate_config_body c _) as [[|]|e];
      [destruct (base_collector.collect_body c _) as [r|e]|..];
      try destruct (exc_is_Exception e); done.
  - intros T R a d. by destruct (analyzer_run_frame now a d) as (? & _).
Qed.

(** X4. For a collector whose body builds its envelope with
    [_create_result], the envelope [run] returns agrees with the unit: its
    status is the status recorded on the unit, [PARTIAL] exactly when
    errors were given and [SUCCESS] otherwise, its [items_count] is the
    number of items and its source is the unit's name. *)
Theorem run_of_created_result (T : Type) (c self : base_collector.BaseCollector T)
    data errors metadata :
  base_collector.validate_config_body c (base_collector.validate_config_calls c)
    = Return true →
  base_collector.collect_body c (base_collector.collect_calls c)
    = Return (base_collector._create_result now self data errors metadata) →
  ∃ r, (base_collector.run now c).1 = Return r
       ∧ base_collector.status r = base_collector._status (base_collector.run now c).2
       ∧ base_collector.status r
         = match default [] errors with
           | [] => base_collector.SUCCESS
           | _ :: _ => base_collector.PARTIAL
           end
       ∧ base_collector.errors r = default [] errors
       ∧ base_collector.data r = data
       ∧ base_collector.items_count r = len data
       ∧ base_collector.source r = base_collector.name c.
Proof.
  intros Hv Hc. rewrite collector_run_cases, Hv, Hc. cbv zeta.
  eexists. split; [done|].
  unfold base_collector._create_result, base_collector.CollectorResult_init,
    base_collector.__post_init__.
  cbn [base_collector.items_count default bool_decide decide_rel].
  rewrite bool_decide_eq_true_2 by done. cbn.
  destruct errors as [[|e es]|]; done.
Qed.

(** X5. After a run of an analyzer the retained [_last_result] is the
    envelope this run returned when the body returned, and what was
    retained before when the body raised. *)
Theorem analyzer_retains_latest_returned {T R} (a : base_analyzer.BaseAnalyzer T R)
    (d : T) :
  base_analyzer._last_result (base_analyzer.run now d a).2
  = match base_analyzer.analyze_body a (length (base_analyzer.analyze_calls a)) d with
    | Return _ =>
        match (base_analyzer.run now d a).1 with
        | Return returned => Some returned
        | Raise _ => None
        end
    | Raise _ => base_analyzer._last_result a
    end.
Proof.
  rewrite analyzer_run_cases. cbv zeta.
  destruct (base_analyzer.analyze_body a _ d) as [r|e]; [done|].
  by destruct (exc_is_Exception e).
Qed.
End UnitRuns.

Lemma failed_status_means_failure_envelope_witness :
  let c := scenario.collector_raising "github_collector" scenario.network_error in
  let a := (base_analyzer.run 0%Z (mkModelData "m1" "org" "text-generation")
              scenario.model_unit).2 in
  let d := mkModelData "m2" "org" "text-generation" in
  (base_collector._status (base_collector.run 0%Z c).2 = base_collector.FAILED
   ∧ ∃ msg, (base_collector.run 0%Z c).1
            = Return (base_collector.mkCollectorResult base_collector.FAILED []
                        [msg] ∅ 0%Z 0%Z (base_collector.name c)))
  ∧ (base_analyzer._status (base_analyzer.run 1%Z d a).2 = base_analyzer.FAILED
     ∧ ∃ msg, (base_analyzer.run 1%Z d a).1
              = Return (base_analyzer.mkAnalysisResult base_analyzer.FAILED None []
                          ∅ 1%Z (base_analyzer.name a) [msg])).
Proof.
  cbv zeta. split.
  - split; [reflexivity|].
    apply (proj1 (failed_status_means_failure_envelope 0%Z) _
             (scenario.collector_raising "github_collector" scenario.network_error)).
    reflexivity.
  - split; [reflexivity|].
    apply (proj2 (failed_status_means_failure_envelope 1%Z) _ _
             (base_analyzer.run 0%Z (mkModelData "m1" "org" "text-generation")
                scenario.model_unit).2
             (mkModelData "m2" "org" "text-generation")).
    reflexivity.
Defined.

Lemma run_of_created_result_witness :
  let c := scenario.collector_creating in
  let self := scenario.collector_returning "huggingface_collector" [] in
  base_collector.validate_config_body c (base_collector.validate_config_calls c)
    = Return true
  ∧ base_collector.collect_body c (base_collector.collect_calls c)
    = Return (base_collector._create_result 0%Z self [scenario.card "m1"]
                (Some ["page 2 timed out"]) None)
  ∧ ∃ r, (base_collector.run 0%Z c).1 = Return r
         ∧ base_collector.status r = base_collector._status (base_collector.run 0%Z c).2
         ∧ base_collector.status r = base_collector.PARTIAL
         ∧ base_collector.errors r = ["page 2 timed out"]
         ∧ base_collector.data r = [scenario.card "m1"]
         ∧ base_collector.items_count r = 1%Z
         ∧ base_collector.source r = "huggingface_collector".
Proof.
  cbv zeta. split; [reflexivity|]. split; [reflexivity|].
  apply (run_of_created_result 0%Z _ scenario.collector_creating
           (scenario.collector_returning "huggingface_collector" [])
           [scenario.card "m1"] (Some ["page 2 timed out"]) None); reflexivity.
Defined.

(** ** The collect stage: what it leaves in the coordinator *)

Section CollectState.
Context `{Payloads}.
Variable now : datetime.


(** X7. When the [run] of each unit returns, the collect stage overwrites
    the cache wholesale: what it commits does not depend on what was cached
    before, and it records its start time under "all" without touching the
    other entries of [_last_collection]. When the [run] of a unit raises,
    both caches are left as they were. *)
Theorem collect_stage_replaces_cache (m : DailyJobManager) previous :
  match first_escaping (gathered now m) with
  | None =>
      _collected_data (run_collection_job now (set_collected_data previous m)).2
        = _collected_data (run_collection_job now m).2
      ∧ _last_collection (run_collection_job now m).2 !! "all" = Some now
      ∧ ∀ stage, stage ≠ "all" →
          _last_collection (run_collection_job now m).2 !! stage
          = _last_collection m !! stage
  | Some _ =>
      _collected_data (run_collection_job now (set_collected_data previous m)).2
        = previous
      ∧ _last_collection (run_collection_job now m).2 = _last_collection m
  end.
Proof.
  rewrite !run_collection_job_gathered. cbv zeta.
  change (gathered now (set_collected_data previous m)) with (gathered now m).
  destruct (first_escaping (gathered now m)); cbn [fst snd _collected_data
    _last_collection set_collected_data]; [done|].
  split; [done|]. split.
  - apply lookup_insert_eq.
  - intros stage Hne. by rewrite lookup_insert_ne.
Qed.

Lemma slot_count_aggregated o1 o2 o3 o4 :
  slot_count "models" (aggregated o1 o2 o3 o4) = slot_len o1
  ∧ slot_count "papers" (aggregated o1 o2 o3 o4) = slot_len o4
  ∧ slot_count "repos" (aggregated o1 o2 o3 o4) = slot_len o2
  ∧ slot_count "hf_models" (aggregated o1 o2 o3 o4) = slot_len o3.
Proof.
  destruct (aggregated_lookup o1 o2 o3 o4) as (L1 & L2 & L3 & L4 & _).
  unfold slot_count. rewrite L1, L2, L3, L4.
  assert (∀ o, match slot_of o with PyList l => len l | _ => 0%Z end = slot_len o) as Hlen.
  { intros [r|e]; cbn; [|done]. unfold len. by rewrite length_fmap. }
  by rewrite !Hlen.
Qed.

(** X8. With a memory store, when the [run] of each unit returns, the
    collect stage calls [store] exactly once, after the commit, under the
    key "last_collection", with its start time and the number of entries
    of each committed slot; it does so whatever the envelopes are and
    whether or not the call raises. When the [run] of a unit raises, the
    memory store is not called. Without a memory store there is none
    afterwards either. *)
Theorem collect_stage_notifies_store (m : DailyJobManager) :
  let after := (run_collection_job now m).2 in
  memory_store after
  = match first_escaping (gathered now m), memory_store m with
    | None, Some ms =>
        Some (mkMemoryStore (store_body ms)
                (store_calls ms
                 ++ [("last_collection",
                      LastCollection now
                        (slot_count "models" (_collected_data after))
                        (slot_count "papers" (_collected_data after))
                        (slot_count "repos" (_collected_data after))
                        (slot_count "hf_models" (_collected_data after)))]))
    | _, _ => memory_store m
    end.
Proof.
  cbv zeta. rewrite run_collection_job_gathered. cbv zeta.
  destruct (first_escaping (gathered now m)); cbn [fst snd memory_store
    _collected_data]; [by destruct (memory_store m)|].
  destruct (slot_count_aggregated
              (base_collector.run now (ai_model_collector m)).1
              (base_collector.run now (github_collector m)).1
              (base_collector.run now (hf_collector m)).1
              (base_collector.run now (arxiv_collector m)).1) as (-> & -> & -> & ->).
  by destruct (memory_store m).
Qed.
End CollectState.

(** ** The analyze stage: what it returns and leaves *)

Section AnalyzeState.
Context `{Payloads}.
Variable now : datetime.

Lemma analysis_results_lookup ir (ks : list ModelAnalysis) :
  let results : gmap string pyobj :=
    <["model_analyses" := PyList (PyModelAnalysis <$> ks)]>
      (with_insights ir empty_analysis) in
  results !! "insights" = Some (insights_slot ir)
  ∧ results !! "model_analyses" = Some (PyList (PyModelAnalysis <$> ks))
  ∧ results !! "errors" = Some (PyList [])
  ∧ dom results = ({["insights"; "model_analyses"; "errors"]} : gset string)
  ∧ insight_count_of results
    = match base_analyzer.result ir with
      | Some r => if insights_truthy r then default 0%Z (insights_len r) else 0%Z
      | None => 0%Z
      end.
Proof.
  cbv zeta. unfold with_insights, insights_slot, insight_count_of, empty_analysis.
  destruct (base_analyzer.result ir) as [r|]; [destruct (insights_truthy r) eqn:Hr|];
    (split; [lookup_chain|]); (split; [lookup_chain|]); (split; [lookup_chain|]);
    (split; [rewrite !dom_insert_L, dom_singleton_L; set_solver|]).
  - rewrite lookup_insert_ne, lookup_insert_eq by done. cbn. by rewrite Hr.
  - by rewrite lookup_insert_ne, lookup_insert_eq.
  - by rewrite lookup_insert_ne, lookup_insert_eq.
Qed.

(** X9. When the analyze stage returns (there is collected data whose
    [hf_models] slot holds items, the [run] of the analyzers return and
    the memory store does not raise), its mapping has exactly the keys
    insights, model_analyses and errors. [errors] is empty whatever the
    envelopes of the analyzers are: a failed analysis shows only as [None]
    under insights or as a missing entry of model_analyses. The entries of
    model_analyses are the payloads retained on the structural analyzer,
    in the same order. *)
Theorem analyze_stage_results (m : DailyJobManager) models :
  _collected_data m ≠ ∅ →
  default (PyList []) (_collected_data m !! "hf_models") = PyList (PyItem <$> models) →
  analysis_escaping now m models = None →
  store_returns m "last_analysis" →
  ∃ results ir ks,
    (run_analysis_job now m).1 = Return results
    ∧ (base_analyzer.run now (_collected_data m) (insight_analyzer m)).1 = Return ir
    ∧ base_analyzer._last_results (model_analyzer (run_analysis_job now m).2) = Some ks
    ∧ dom results = ({["insights"; "model_analyses"; "errors"]} : gset string)
    ∧ results !! "errors" = Some (PyList [])
    ∧ results !! "insights" = Some (insights_slot ir)
    ∧ results !! "model_analyses" = Some (PyList (PyModelAnalysis <$> ks)).
Proof.
  intros Hcd Hhf Hesc Hstore.
  destruct (analyze_stage_returns now m models Hcd Hhf Hesc)
    as (ir & Hir & Hout & _ & Hma).
  destruct (analysis_results_lookup ir (analyses now (model_analyzer m) (take 5 models)).2)
    as (Li & Lm & Le & Hdom & _).
  eexists _, ir, _. split; [|split; [exact Hir|split; [by rewrite Hma|done]]].
  rewrite Hout. destruct (memory_store m) as [ms|] eqn:Hms; [|done].
  by rewrite (Hstore ms).
Qed.

(** X10. The analyze stage invokes the insight analyzer exactly once, on
    the whole collected mapping, and leaves the collected mapping, the
    collectors, the generators and the configuration as they were. *)
Theorem analyze_stage_insight_input (m : DailyJobManager) models :
  _collected_data m ≠ ∅ →
  default (PyList []) (_collected_data m !! "hf_models") = PyList (PyItem <$> models) →
  let after := (run_analysis_job now m).2 in
  base_analyzer.analyze_calls (insight_analyzer after)
    = base_analyzer.analyze_calls (insight_analyzer m) ++ [_collected_data m]
  ∧ _collected_data after = _collected_data m
  ∧ ai_model_collector after = ai_model_collector m
  ∧ github_collector after = github_collector m
  ∧ hf_collector after = hf_collector m
  ∧ arxiv_collector after = arxiv_collector m
  ∧ insight_generator after = insight_generator m
  ∧ model_generator after = model_generator m
  ∧ config after = config m.
Proof.
  intros Hcd Hhf.
  destruct (analyze_stage_frame now m models Hcd Hhf)
    as (Hia & Hig & Hmg & Hdata & Hai & Hgh & Hhfc & Hax & _ & Hcfg).
  cbv zeta in *. rewrite Hia.
  by destruct (analyzer_run_frame now (insight_analyzer m) (_collected_data m))
    as (-> & _).
Qed.

(** X11. With a memory store, when the [run] of the analyzers return, the
    analyze stage calls [store] exactly once under the key
    "last_analysis", with its start time, the number of insights of the
    insight payload it kept (0 when it kept none or the payload has no
    [insights]) and the number of structural analyses it retained. *)
Theorem analyze_stage_notifies_store (m : DailyJobManager) models ms :
  _collected_data m ≠ ∅ →
  default (PyList []) (_collected_data m !! "hf_models") = PyList (PyItem <$> models) →
  analysis_escaping now m models = None →
  memory_store m = Some ms →
  ∃ ir ks,
    (base_analyzer.run now (_collected_data m) (insight_analyzer m)).1 = Return ir
    ∧ base_analyzer._last_results (model_analyzer (run_analysis_job now m).2) = Some ks
    ∧ memory_store (run_analysis_job now m).2
      = Some (mkMemoryStore (store_body ms)
                (store_calls ms
                 ++ [("last_analysis",
                      LastAnalysis now
                        (match base_analyzer.result ir with
                         | Some r =>
                             if insights_truthy r then default 0%Z (insights_len r)
                             else 0%Z
                         | None => 0%Z
                         end)
                        (len ks))])).
Proof.
  intros Hcd Hhf Hesc Hms.
  destruct (analyze_stage_returns now m models Hcd Hhf Hesc)
    as (ir & Hir & _ & Hstore & Hma).
  destruct (analysis_results_lookup ir (analyses now (model_analyzer m) (take 5 models)).2)
    as (_ & _ & _ & _ & Hcount).
  exists ir, (analyses now (model_analyzer m) (take 5 models)).2.
  split; [done|]. split; [by rewrite Hma|].
  cbv zeta in Hstore, Hcount. by rewrite Hstore, Hms, Hcount.
Qed.

(** X12. When the collected mapping has no [hf_models] key, the analyze
    stage makes no structural analysis and, when the [run] of the insight
    analyzer returns, replaces the analyses retained on the structural
    analyzer by the empty list. *)
Theorem analyze_stage_without_hf_models (m : DailyJobManager) :
  _collected_data m ≠ ∅ →
  _collected_data m !! "hf_models" = None →
  base_analyzer.analyze_calls (model_analyzer (run_analysis_job now m).2)
    = base_analyzer.analyze_calls (model_analyzer m)
  ∧ (analysis_escaping now m [] = None →
     base_analyzer._last_results (model_analyzer (run_analysis_job now m).2) = Some []).
Proof.
  intros Hcd Hnone.
  assert (default (PyList []) (_collected_data m !! "hf_models")
          = PyList (PyItem <$> [])) as Hhf by by rewrite Hnone.
  split.
  - rewrite (run_analysis_job_unfolded now m [] Hcd Hhf). cbv zeta.
    destruct (base_analyzer.run now (_collected_data m) (insight_analyzer m)).1;
      [|done].
    cbn [take analyses analyses_raised fst snd]. by destruct (memory_store m).
  - intros Hesc.
    by destruct (analyze_stage_returns now m [] Hcd Hhf Hesc) as (_ & _ & _ & _ & ->).
Qed.

(** X23. What the [run] of an analyzer raises leaves the analyze stage:
    when the [run] of the insight analyzer, or of the structural analyzer
    on one of the first five items, raises (an exception that is not an
    instance of [Exception]), the stage raises that exception at once. The
    analyses retained on the structural analyzer are not replaced and the
    memory store is not called. *)
Theorem analyze_stage_reraises (m : DailyJobManager) models e :
  _collected_data m ≠ ∅ →
  default (PyList []) (_collected_data m !! "hf_models") = PyList (PyItem <$> models) →
  analysis_escaping now m models = Some e →
  (run_analysis_job now m).1 = Raise e
  ∧ exc_is_Exception e = false
  ∧ base_analyzer._last_results (model_analyzer (run_analysis_job now m).2)
    = base_analyzer._last_results (model_analyzer m)
  ∧ memory_store (run_analysis_job now m).2 = memory_store m.
Proof.
  intros Hcd Hhf Hesc. unfold analysis_escaping in Hesc.
  rewrite (run_analysis_job_unfolded now m models Hcd Hhf). cbv zeta.
  destruct (base_analyzer.run now (_collected_data m) (insight_analyzer m)).1
    as [ir|e'] eqn:Ei.
  - rewrite Hesc. cbn [fst snd model_analyzer memory_store].
    split; [done|]. split; [by eapply analyses_raised_escapes|].
    split; [|done]. apply analyses_frame.
  - injection Hesc as ->. cbn [fst snd model_analyzer memory_store].
    split; [done|]. split; [|done].
    by apply (analyzer_run_raises now (insight_analyzer m) (_collected_data m)).
Qed.
End AnalyzeState.

(** ** The analyze stage on an element that is not an item *)

Section StrayElement.
Context `{Payloads}.
Variable now : datetime.

(** A string has no [model_id]: the loop body raises from its handler. *)
Lemma analyze_model_str s state :
  analyze_model now (PyStr s) state = (Raise no_model_id, state).
Proof.
  unfold analyze_model. erewrite try_except_raise; [|by eapply bind_raise|done].
  by eapply bind_raise.
Qed.

(** X13. When one of the first five elements of the collected [hf_models]
    is a string instead of an item, the failure is not skipped: the handler
    of the loop reads [model.model_id] itself, so the analyze stage raises
    the [AttributeError]. The items before the string were analysed, the
    ones after it are not, and the retained [_last_results] keep their
    earlier value. This is for a stage that reaches the string: the [run]
    of the insight analyzer and of the structural analyzer on the items
    before it return. *)
Theorem analyze_stage_stray_element (m : DailyJobManager) good s rest :
  _collected_data m ≠ ∅ →
  default (PyList []) (_collected_data m !! "hf_models")
    = PyList ((PyItem <$> good) ++ PyStr s :: rest) →
  length good < 5 →
  analysis_escaping now m good = None →
  (run_analysis_job now m).1 = Raise no_model_id
  ∧ base_analyzer.analyze_calls (model_analyzer (run_analysis_job now m).2)
    = base_analyzer.analyze_calls (model_analyzer m) ++ (model_data_of <$> good)
  ∧ base_analyzer._last_results (model_analyzer (run_analysis_job now m).2)
    = base_analyzer._last_results (model_analyzer m).
Proof.
  intros Hcd Hhf Hlen Hesc. unfold analysis_escaping in Hesc.
  rewrite take_ge in Hesc by lia.
  destruct (base_analyzer.run now (_collected_data m) (insight_analyzer m))
    as [[ir|e] ia'] eqn:Ei; [|discriminate Hesc]. cbn [fst] in Hesc.
  destruct m as [cfg mstore ai gh hf ax ia ma ig mg lc cd]. mgr_simpl_all.
  unfold run_analysis_job.
  erewrite bind_return by reflexivity. mgr_simpl.
  rewrite bool_decide_eq_false_2 by done.
  unfold with_locals.
  erewrite bind_return.
  2:{ apply try_except_return.
      erewrite bind_return by reflexivity.
      erewrite bind_return.
      2:{ apply self_run, zoom_run. mgr_simpl. exact Ei. }
      mgr_simpl.
      instantiate (1 := (_, (with_insights ir empty_analysis, []))).
      unfold with_insights.
      destruct (base_analyzer.result ir) as [p|]; [destruct (insights_truthy p)|];
        reflexivity. }
  erewrite bind_return by reflexivity. mgr_simpl.
  rewrite Hhf. cbn [py_slice_elements lift_outcome].
  erewrite bind_return by reflexivity.
  rewrite take_app_ge by (rewrite length_fmap; lia).
  rewrite length_fmap.
  replace (5 - length good) with (S (4 - length good)) by lia.
  cbn [take].
  erewrite bind_raise.
  2:{ eapply for_each_app_raise; [|apply analyze_model_str].
      rewrite (analyze_models_items now _ _ _ _ _ _ _ _ _ _ _ good ma _ [] []), Hesc;
        [reflexivity|].
      unfold with_insights, empty_analysis.
      destruct (base_analyzer.result ir) as [p|]; [destruct (insights_truthy p)|];
        lookup_chain. }
  cbv beta iota delta [fst snd model_analyzer].
  split; [done|]. split; [by apply analyses_calls|].
  exact (proj1 (analyses_frame now good ma)).
Qed.
End StrayElement.

Lemma analyze_stage_stray_element_witness :
  let m := scenario.analysis_with_stray None in
  let good : list Item := [scenario.card "m1"; scenario.card "m2"] in
  _collected_data m ≠ ∅
  ∧ default (PyList []) (_collected_data m !! "hf_models")
    = PyList ((PyItem <$> good) ++ PyStr "m3" :: (PyItem <$> ([scenario.card "m4"] : list Item)))
  ∧ length good < 5
  ∧ analysis_escaping 0%Z m good = None
  ∧ (run_analysis_job 0%Z m).1 = Raise no_model_id
  ∧ base_analyzer.analyze_calls (model_analyzer (run_analysis_job 0%Z m).2)
    = base_analyzer.analyze_calls (model_analyzer m) ++ (model_data_of <$> good)
  ∧ base_analyzer._last_results (model_analyzer (run_analysis_job 0%Z m).2)
    = base_analyzer._last_results (model_analyzer m).
Proof.
  cbv zeta.
  assert (_collected_data (scenario.analysis_with_stray None) ≠ ∅) as Hcd.
  { intros Heq. apply (f_equal (lookup "errors")) in Heq.
    vm_compute in Heq. discriminate. }
  assert (default (PyList []) (_collected_data (scenario.analysis_with_stray None) !! "hf_models")
          = PyList ((PyItem <$> ([scenario.card "m1"; scenario.card "m2"] : list Item))
                    ++ PyStr "m3" :: (PyItem <$> ([scenario.card "m4"] : list Item))))
    as Hhf.
  { vm_compute. reflexivity. }
  assert (analysis_escaping 0%Z (scenario.analysis_with_stray None)
            ([scenario.card "m1"; scenario.card "m2"] : list Item) = None) as Hesc.
  { vm_compute. reflexivity. }
  split; [exact Hcd|]. split; [exact Hhf|]. split; [cbn; lia|]. split; [exact Hesc|].
  exact (analyze_stage_stray_element 0%Z (scenario.analysis_with_stray None)
           _ _ _ Hcd Hhf ltac:(cbn; lia) Hesc).
Defined.

(** ** The report stage: what it returns and leaves *)

Section ReportState.
Context `{Payloads}.

Lemma model_reports_frame l : ∀ g : Generator ModelAnalysis,
  generate_body (model_reports g l).1 = generate_body g
  ∧ length (model_reports g l).2 ≤ length l
  ∧ (model_reports_raised g l = None →
     generate_calls (model_reports g l).1 = generate_calls g ++ l)
  ∧ ((∀ n p, ∃ report, generate_body g n p = Return report) →
     length (model_reports g l).2 = length l)
  ∧ ∀ e, model_reports_raised g l = Some e → exc_is_Exception e = false.
Proof.
  induction l as [|x l IH]; intros g;
    cbn [model_reports model_reports_raised fst snd length].
  - rewrite app_nil_r. do 4 (split; [done|]). by intros e [=].
  - unfold generate.
    destruct (IH (mkGenerator (generate_body g) (generate_calls g ++ [x])))
      as (Hb & Hle & Hc & Heq & He).
    destruct (generate_body g (length (generate_calls g)) x) as [report|e'] eqn:Hx;
      cbn [escaping]; [|destruct (exc_is_Exception e') eqn:Hexc].
    + destruct (model_reports _ l) as [g2 rs].
      cbn [fst snd generate_body generate_calls length app] in *.
      split; [done|]. split; [lia|]. split; [|split; [|done]].
      * intros Hn. by rewrite (Hc Hn), <-app_assoc.
      * intros Hok. by rewrite (Heq Hok).
    + destruct (model_reports _ l) as [g2 rs].
      cbn [fst snd generate_body generate_calls length app] in *.
      split; [done|]. split; [lia|]. split; [|split; [|done]].
      * intros Hn. by rewrite (Hc Hn), <-app_assoc.
      * intros Hok. destruct (Hok (length (generate_calls g)) x) as (report & Hr).
        congruence.
    + cbn [fst snd generate_body generate_calls length].
      split; [done|]. split; [lia|]. split; [done|]. split.
      * intros Hok. destruct (Hok (length (generate_calls g)) x) as (report & Hr).
        congruence.
      * by intros e [= <-].
Qed.

(** Generators that raise nothing but instances of [Exception] let
    nothing leave the report stage. *)
Lemma model_reports_raises_only_Exception l : ∀ g : Generator ModelAnalysis,
  generator_raises_only_Exception g → model_reports_raised g l = None.
Proof.
  induction l as [|x l IH]; intros g Hg; cbn [model_reports_raised]; [done|].
  unfold generate. rewrite (Hg (length (generate_calls g)) x).
  apply IH. intros n p. apply Hg.
Qed.

Lemma report_raises_only_Exception (m : DailyJobManager) :
  generator_raises_only_Exception (insight_generator m) →
  generator_raises_only_Exception (model_generator m) →
  report_escaping m = None.
Proof.
  intros Hig Hmg. unfold report_escaping.
  rewrite (model_reports_raises_only_Exception _ _ Hmg).
  destruct (usable_insights (insight_analyzer m)) as [r|]; [|done].
  cbn [from_option]. unfold generate. cbn [fst]. by rewrite Hig.
Qed.

Lemma insight_report_lookup (g : Generator Insights) payload :
  (insight_report g payload).2 !! "model_reports" = Some (PyList [])
  ∧ dom (insight_report g payload).2
    = ({["insight_report"; "model_reports"; "errors"]} : gset string).
Proof.
  unfold insight_report, empty_reports.
  destruct payload as [r|];
    [destruct (generate r g) as [[report|e] g']; [|destruct (exc_is_Exception e)]|];
    cbn [snd];
    (split; [lookup_chain|rewrite ?dom_insert_L, dom_singleton_L; set_solver]).
Qed.

(** X14. The report stage returns or raises. It raises exactly what a
    [generate] raised past its handler, an exception that is not an
    instance of [Exception]; so it returns when the generators raise
    nothing but instances of [Exception], and what it returns is a mapping
    with exactly the keys insight_report, model_reports and errors. Either
    way it changes nothing in the coordinator but the generators: the
    analyzers and what they retain, the collectors, the caches, the memory
    store and the configuration are as before. *)
Theorem report_stage_returns_or_reraises (m : DailyJobManager) :
  match report_escaping m with
  | None =>
      ∃ results,
        (run_report_job m).1 = Return results
        ∧ dom results = ({["insight_report"; "model_reports"; "errors"]} : gset string)
  | Some e => (run_report_job m).1 = Raise e ∧ exc_is_Exception e = false
  end
  ∧ (generator_raises_only_Exception (insight_generator m) →
     generator_raises_only_Exception (model_generator m) →
     report_escaping m = None)
  ∧ insight_analyzer (run_report_job m).2 = insight_analyzer m
  ∧ model_analyzer (run_report_job m).2 = model_analyzer m
  ∧ ai_model_collector (run_report_job m).2 = ai_model_collector m
  ∧ github_collector (run_report_job m).2 = github_collector m
  ∧ hf_collector (run_report_job m).2 = hf_collector m
  ∧ arxiv_collector (run_report_job m).2 = arxiv_collector m
  ∧ _collected_data (run_report_job m).2 = _collected_data m
  ∧ _last_collection (run_report_job m).2 = _last_collection m
  ∧ memory_store (run_report_job m).2 = memory_store m
  ∧ config (run_report_job m).2 = config m.
Proof.
  split; [|split; [apply report_raises_only_Exception|]].
  - rewrite run_report_job_unfolded. cbv zeta. unfold report_escaping.
    destruct (from_option _ None (usable_insights (insight_analyzer m)))
      as [e|] eqn:Hi.
    + split; [done|].
      destruct (usable_insights (insight_analyzer m)) as [r|]; [|discriminate Hi].
      cbn [from_option] in Hi.
      destruct (generate r (insight_generator m)).1 as [report|e']; [discriminate Hi|].
      cbn [escaping] in Hi.
      destruct (exc_is_Exception e') eqn:He; [discriminate Hi|]. by injection Hi as <-.
    + destruct (model_reports_raised _ _) as [e|] eqn:Hm; cbn [fst].
      * split; [done|].
        destruct (model_reports_frame
                    (default [] (base_analyzer._last_results (model_analyzer m)))
                    (model_generator m)) as (_ & _ & _ & _ & He).
        by apply He.
      * eexists. split; [done|].
        destruct (insight_report_lookup (insight_generator m)
                    (usable_insights (insight_analyzer m))) as (_ & Hdom).
        rewrite dom_insert_L, Hdom. set_solver.
  - rewrite run_report_job_unfolded. cbv zeta.
    by destruct (from_option _ None (usable_insights (insight_analyzer m))).
Qed.

(** X15. When nothing leaves the report stage, it invokes the model
    report generator once per retained structural analysis, in order,
    whether an invocation returns or raises an instance of [Exception].
    model_reports has one entry per invocation that returned, so at most
    as many entries as retained analyses, and exactly as many when the
    generator never raises; an invocation that raises leaves no entry. *)
Theorem report_stage_model_reports (m : DailyJobManager) :
  report_escaping m = None →
  let retained := default [] (base_analyzer._last_results (model_analyzer m)) in
  generate_calls (model_generator (run_report_job m).2)
    = generate_calls (model_generator m) ++ retained
  ∧ ∃ entries,
      returned_slot "model_reports" (run_report_job m).1 = Some (PyList entries)
      ∧ entries = (model_reports (model_generator m) retained).2
      ∧ length entries ≤ length retained
      ∧ ((∀ n p, ∃ report, generate_body (model_generator m) n p = Return report) →
         length entries = length retained).
Proof.
  intros Hesc. cbv zeta. rewrite run_report_job_unfolded. cbv zeta.
  unfold report_escaping in Hesc.
  destruct (from_option _ None (usable_insights (insight_analyzer m)));
    [discriminate Hesc|].
  rewrite Hesc. cbn [fst snd model_generator returned_slot].
  destruct (model_reports_frame
              (default [] (base_analyzer._last_results (model_analyzer m)))
              (model_generator m)) as (_ & Hle & Hc & Heq & _).
  split; [by apply Hc|].
  eexists. split; [apply lookup_insert_eq|]. done.
Qed.

(** X16. The insight report, for a stage whose model reports raise
    nothing past their handler. Without a usable retained insight payload
    the insight generator is not invoked and insight_report is [None],
    with no error. With one, the generator is invoked once on it: when it
    returns, insight_report describes the report, its path being [None]
    when the report's [file_path] is falsy, and errors is empty; when it
    raises an instance of [Exception], insight_report stays [None] and
    errors holds the single entry "Insight report generation:
    <exception>"; when it raises another exception, the stage raises it.
    Failures of model reports never reach errors. *)
Theorem report_stage_insight_report (m : DailyJobManager) :
  model_reports_raised (model_generator m)
    (default [] (base_analyzer._last_results (model_analyzer m))) = None →
  let out := run_report_job m in
  let g := insight_generator m in
  match usable_insights (insight_analyzer m) with
  | None =>
      generate_calls (insight_generator out.2) = generate_calls g
      ∧ returned_slot "insight_report" out.1 = Some PyNone
      ∧ returned_slot "errors" out.1 = Some (PyList [])
  | Some payload =>
      generate_calls (insight_generator out.2) = generate_calls g ++ [payload]
      ∧ match generate_body g (length (generate_calls g)) payload with
        | Return report =>
            returned_slot "insight_report" out.1
              = Some (PyInsightReport
                        (match file_path report with
                         | Some "" | None => None
                         | Some path => Some path
                         end)
                        (title report) (status_value report))
            ∧ returned_slot "errors" out.1 = Some (PyList [])
        | Raise e =>
            if exc_is_Exception e
            then returned_slot "insight_report" out.1 = Some PyNone
                 ∧ returned_slot "errors" out.1
                   = Some (PyList [PyStr ("Insight report generation: " ++ exc_str e)])
            else out.1 = Raise e
        end
  end.
Proof.
  intros Hmodels. cbv zeta. rewrite run_report_job_unfolded. cbv zeta.
  rewrite Hmodels.
  unfold insight_report, generate, empty_reports.
  destruct (usable_insights (insight_analyzer m)) as [payload|];
    cbn [from_option fst snd insight_generator returned_slot].
  - destruct (generate_body (insight_generator m) _ payload) as [report|e];
      cbn [escaping]; [|destruct (exc_is_Exception e)];
      cbn [fst snd insight_generator generate_calls returned_slot];
      (split; [done|]).
    + split; [|lookup_chain].
      rewrite lookup_insert_ne, lookup_insert_eq by done.
      unfold path_of. by destruct (file_path report) as [[|c path]|].
    + split; lookup_chain.
    + done.
  - repeat split; lookup_chain.
Qed.

(** X17. When nothing usable is retained (no truthy insight payload and no
    structural analyses), the report stage returns the empty report
    mapping and leaves the coordinator exactly as it was: no generator is
    invoked. *)
Theorem report_stage_nothing_retained (m : DailyJobManager) :
  usable_insights (insight_analyzer m) = None →
  default [] (base_analyzer._last_results (model_analyzer m)) = [] →
  run_report_job m = (Return empty_reports, m).
Proof.
  intros Hu Hl. rewrite run_report_job_unfolded. cbv zeta. rewrite Hu, Hl.
  cbn [from_option insight_report model_reports model_reports_raised fst snd].
  rewrite insert_id by (unfold empty_reports; lookup_chain).
  by destruct m.
Qed.
End ReportState.

Lemma report_stage_model_reports_witness :
  let m := scenario.report_ready in
  report_escaping m = None
  ∧ generate_calls (model_generator (run_report_job m).2)
    = generate_calls (model_generator m) ++ ["m1"; "m2"; "m3"]
  ∧ ∃ entries,
      returned_slot "model_reports" (run_report_job m).1 = Some (PyList entries)
      ∧ entries
        = (model_reports (model_generator m) (["m1"; "m2"; "m3"] : list ModelAnalysis)).2
      ∧ length entries ≤ 3
      ∧ ((∀ n p, ∃ report, generate_body (model_generator m) n p = Return report) →
         length entries = 3).
Proof.
  cbv zeta. split; [reflexivity|].
  exact (report_stage_model_reports scenario.report_ready eq_refl).
Defined.

Lemma report_stage_insight_report_witness :
  let m := set_insight_generator scenario.generator_without_path scenario.report_ready in
  model_reports_raised (model_generator m)
    (default [] (base_analyzer._last_results (model_analyzer m))) = None
  ∧ usable_insights (insight_analyzer m) = Some ["agents are trending"]
  ∧ generate_calls (insight_generator (run_report_job m).2) = [["agents are trending"]]
  ∧ returned_slot "insight_report" (run_report_job m).1
    = Some (PyInsightReport None "Daily" "failed")
  ∧ returned_slot "errors" (run_report_job m).1 = Some (PyList []).
Proof.
  cbv zeta. split; [reflexivity|]. split; [reflexivity|].
  exact (report_stage_insight_report
           (set_insight_generator scenario.generator_without_path scenario.report_ready)
           eq_refl).
Defined.

Lemma report_stage_nothing_retained_witness :
  let m := scenario.manager None in
  usable_insights (insight_analyzer m) = None
  ∧ default [] (base_analyzer._last_results (model_analyzer m)) = []
  ∧ run_report_job m = (Return empty_reports, m).
Proof.
  cbv zeta. split; [reflexivity|]. split; [reflexivity|].
  apply (report_stage_nothing_retained (scenario.manager None)); reflexivity.
Defined.

(** The report stage on a coordinator whose insight generator raises and
    whose model generator fails at its second invocation: the failure of
    the insight report is recorded, the failed model report is skipped. *)
Example report_stage_example :
  returned_slot "insight_report" (run_report_job scenario.report_ready).1 = Some PyNone
  ∧ returned_slot "errors" (run_report_job scenario.report_ready).1
    = Some (PyList [PyStr "Insight report generation: template missing"])
  ∧ returned_slot "model_reports" (run_report_job scenario.report_ready).1
    = Some (PyList [PyModelReport (Some "reports/out.pptx") "m1" "completed";
                    PyModelReport (Some "reports/out.pptx") "m3" "completed"])
  ∧ generate_calls (model_generator (run_report_job scenario.report_ready).2)
    = ["m1"; "m2"; "m3"].
Proof. vm_compute. done. Qed.

(** The report stage with a model generator that is cancelled: the
    cancellation leaves the stage at the first retained analysis, after the
    insight report was generated. *)
Example report_stage_on_cancellation :
  let m := set_insight_generator scenario.generator_ok
             (set_model_generator scenario.generator_cancelled scenario.report_ready) in
  (run_report_job m).1 = Raise scenario.cancelled
  ∧ generate_calls (insight_generator (run_report_job m).2) = [["agents are trending"]]
  ∧ generate_calls (model_generator (run_report_job m).2) = ["m1"].
Proof. vm_compute. done. Qed.

(** ** The full pipeline *)

Section Pipeline.
Context `{Payloads}.
Variable now : datetime.

(** Units that raise nothing but instances of [Exception] have a [run]
    that returns. *)
Lemma gathered_raises_only_Exception (m : DailyJobManager) :
  raises_only_Exception m → first_escaping (gathered now m) = None.
Proof.
  intros (H1 & H2 & H3 & H4 & _). apply first_escaping_none.
  unfold gathered. repeat apply Forall_cons_2; [..|constructor];
    by apply collector_raises_only_Exception.
Qed.

Lemma analysis_raises_only_Exception (m : DailyJobManager) models :
  base_analyzer.raises_only_Exception (insight_analyzer m) →
  base_analyzer.raises_only_Exception (model_analyzer m) →
  analysis_escaping now m models = None.
Proof.
  intros Hia Hma. unfold analysis_escaping.
  destruct (analyzer_raises_only_Exception now (insight_analyzer m) (_collected_data m)
              Hia) as (Hr & _).
  destruct (base_analyzer.run now (_collected_data m) (insight_analyzer m)).1
    as [ir|e] eqn:E.
  - by apply analyses_raises_only_Exception.
  - cbn in Hr. by rewrite (analyzer_run_raises now _ _ e E) in Hr.
Qed.

(** X18. In the full pipeline, when the units and the generators raise
    nothing but instances of [Exception] and the memory store never raises
    (or there is none), the three stages run in order and the pipeline
    returns their three mappings. The analyze stage always finds data: it
    receives the mapping the collect stage just committed, never takes the
    "No data available" exit, hands that whole mapping to the insight
    analyzer and the first five items of the HuggingFace unit's envelope to
    the structural analyzer. *)
Theorem full_pipeline_analyzes_what_it_collected (m : DailyJobManager) :
  raises_only_Exception m →
  store_never_raises m →
  ∃ collection analysis reports r3,
    (run_full_pipeline now m).1 = Return (collection, analysis, reports)
    ∧ (base_collector.run now (hf_collector m)).1 = Return r3
    ∧ _collected_data (run_full_pipeline now m).2 = collection
    ∧ dom analysis = ({["insights"; "model_analyses"; "errors"]} : gset string)
    ∧ base_analyzer.analyze_calls (insight_analyzer (run_full_pipeline now m).2)
      = base_analyzer.analyze_calls (insight_analyzer m) ++ [collection]
    ∧ base_analyzer.analyze_calls (model_analyzer (run_full_pipeline now m).2)
      = base_analyzer.analyze_calls (model_analyzer m)
        ++ (model_data_of <$> take 5 (base_collector.data r3)).
Proof.
  intros Hunits Hstore.
  pose proof (gathered_raises_only_Exception m Hunits) as Hg.
  destruct Hunits as (_ & _ & _ & _ & Hia & Hma & Hig & Hmg).
  (* the collect stage *)
  destruct (collect_stage_outcome now m Hg) as (r1 & r2 & r3 & r4 & Hr & Hc1 & Ho1).
  assert (insight_analyzer (run_collection_job now m).2 = insight_analyzer m
          ∧ model_analyzer (run_collection_job now m).2 = model_analyzer m
          ∧ insight_generator (run_collection_job now m).2 = insight_generator m
          ∧ model_generator (run_collection_job now m).2 = model_generator m
          ∧ memory_store (run_collection_job now m).2
            = match memory_store m with
              | Some ms =>
                  Some (mkMemoryStore (store_body ms)
                          (store_calls ms
                           ++ [("last_collection",
                                LastCollection now
                                  (slot_len (base_collector.run now (ai_model_collector m)).1)
                                  (slot_len (base_collector.run now (arxiv_collector m)).1)
                                  (slot_len (base_collector.run now (github_collector m)).1)
                                  (slot_len (base_collector.run now (hf_collector m)).1))]))
              | None => None
              end)
    as (Hia1 & Hma1 & Hig1 & Hmg1 & Hms1).
  { rewrite run_collection_job_gathered. cbv zeta. by rewrite Hg. }
  set (collection := aggregated (Return r1) (Return r2) (Return r3) (Return r4)) in *.
  assert ((run_collection_job now m).1 = Return collection) as Hret1.
  { rewrite Ho1. destruct (memory_store m) as [ms|] eqn:Hms; [|done].
    by rewrite (Hstore ms). }
  clear Ho1.
  destruct (run_collection_job now m) as [o1 m1] eqn:Hrun1. cbn [fst snd] in *.
  subst o1.
  assert (_collected_data m1 ≠ ∅) as Hcd.
  { rewrite Hc1. apply aggregated_not_empty. }
  assert (default (PyList []) (_collected_data m1 !! "hf_models")
          = PyList (PyItem <$> base_collector.data r3)) as Hhf.
  { rewrite Hc1. unfold collection.
    destruct (aggregated_lookup (Return r1) (Return r2) (Return r3) (Return r4))
      as (_ & _ & _ & -> & _). done. }
  assert (store_returns m1 "last_analysis") as Hstore1.
  { intros ms' Hms' value. rewrite Hms1 in Hms'.
    destruct (memory_store m) as [ms|] eqn:Hms; [|done].
    injection Hms' as <-. cbn [store_body]. by apply Hstore. }
  assert (analysis_escaping now m1 (base_collector.data r3) = None) as Hesc.
  { apply analysis_raises_only_Exception; by rewrite ?Hia1, ?Hma1. }
  (* the analyze stage *)
  destruct (analyze_stage_returns now m1 _ Hcd Hhf Hesc) as (ir & _ & Ho2 & _).
  destruct (analyze_stage_frame now m1 _ Hcd Hhf) as (Hia2 & Hig2 & Hmg2 & Hcd2 & _).
  pose proof (analyze_stage_structural_calls now m1 _ Hcd Hhf Hesc) as Hcalls2.
  cbv zeta in Ho2, Hia2, Hig2, Hmg2, Hcd2.
  set (analysis := <["model_analyses" := _]> (with_insights ir empty_analysis)) in *.
  assert ((run_analysis_job now m1).1 = Return analysis) as Hret2.
  { rewrite Ho2. destruct (memory_store m1) as [ms'|] eqn:Hms'; [|done].
    by rewrite (Hstore1 ms'). }
  clear Ho2.
  destruct (run_analysis_job now m1) as [o2 m2] eqn:Hrun2. cbn [fst snd] in *.
  subst o2.
  (* the report stage *)
  assert (report_escaping m2 = None) as Hesc3.
  { apply report_raises_only_Exception; by rewrite ?Hig2, ?Hmg2, ?Hig1, ?Hmg1. }
  pose proof (run_report_job_unfolded m2) as Hrun3. cbv zeta in Hrun3.
  unfold report_escaping in Hesc3.
  destruct (from_option _ None (usable_insights (insight_analyzer m2)));
    [discriminate Hesc3|].
  rewrite Hesc3 in Hrun3.
  unfold run_full_pipeline.
  erewrite bind_return by exact Hrun1.
  erewrite bind_return by exact Hrun2.
  erewrite bind_return by exact Hrun3.
  eexists collection, analysis, _, r3.
  cbn [ret fst snd _collected_data insight_analyzer model_analyzer].
  split; [done|]. split.
  { unfold gathered in Hr. by injection Hr as _ _ -> _. }
  split; [by rewrite Hcd2|].
  split.
  { subst analysis.
    by destruct (analysis_results_lookup ir
                   (analyses now (model_analyzer m1)
                      (take 5 (base_collector.data r3))).2) as (_ & _ & _ & ? & _). }
  split.
  - rewrite Hia2, Hia1, Hc1.
    by destruct (analyzer_run_frame now (insight_analyzer m) collection) as (-> & _).
  - by rewrite Hcalls2, Hma1.
Qed.

(** X19. In the full pipeline, when the memory store raises on the collect
    stage's notification (which the stage reaches when the [run] of its
    units return), the pipeline raises that exception right there: the
    analyze and report stages do not run, so no analyzer and no generator
    is invoked, although the collected data is committed. *)
Theorem full_pipeline_stops_at_store_failure (m : DailyJobManager) e :
  first_escaping (gathered now m) = None →
  store_raises m "last_collection" e →
  (run_full_pipeline now m).1 = Raise e
  ∧ insight_analyzer (run_full_pipeline now m).2 = insight_analyzer m
  ∧ model_analyzer (run_full_pipeline now m).2 = model_analyzer m
  ∧ insight_generator (run_full_pipeline now m).2 = insight_generator m
  ∧ model_generator (run_full_pipeline now m).2 = model_generator m
  ∧ _collected_data (run_full_pipeline now m).2 ≠ ∅.
Proof.
  intros Hg Hraise.
  destruct (collect_store_failure now m e Hg Hraise) as (Hout & _).
  assert (insight_analyzer (run_collection_job now m).2 = insight_analyzer m
          ∧ model_analyzer (run_collection_job now m).2 = model_analyzer m
          ∧ insight_generator (run_collection_job now m).2 = insight_generator m
          ∧ model_generator (run_collection_job now m).2 = model_generator m
          ∧ _collected_data (run_collection_job now m).2 ≠ ∅)
    as Hstate.
  { rewrite run_collection_job_gathered. cbv zeta. rewrite Hg.
    do 4 (split; [done|]). apply aggregated_not_empty. }
  destruct (run_collection_job now m) as [o1 m1] eqn:Hrun1. cbn [fst snd] in *.
  subst o1.
  unfold run_full_pipeline. erewrite bind_raise by exact Hrun1.
  split; [done|exact Hstate].
Qed.
End Pipeline.

Lemma manager_raises_only_Exception ms : raises_only_Exception (scenario.manager ms).
Proof.
  repeat split; try done.
  - intros [|n] data; reflexivity.
  - intros [|[|n]] data; reflexivity.
Qed.

Lemma full_pipeline_analyzes_what_it_collected_witness :
  let m := scenario.manager (Some scenario.store_ok) in
  raises_only_Exception m
  ∧ store_never_raises m
  ∧ ∃ collection analysis reports r3,
      (run_full_pipeline 0%Z m).1 = Return (collection, analysis, reports)
      ∧ (base_collector.run 0%Z (hf_collector m)).1 = Return r3
      ∧ _collected_data (run_full_pipeline 0%Z m).2 = collection
      ∧ dom analysis = ({["insights"; "model_analyses"; "errors"]} : gset string)
      ∧ base_analyzer.analyze_calls (insight_analyzer (run_full_pipeline 0%Z m).2)
        = base_analyzer.analyze_calls (insight_analyzer m) ++ [collection]
      ∧ base_analyzer.analyze_calls (model_analyzer (run_full_pipeline 0%Z m).2)
        = base_analyzer.analyze_calls (model_analyzer m)
          ++ (model_data_of <$> take 5 (base_collector.data r3)).
Proof.
  cbv zeta.
  assert (store_never_raises (scenario.manager (Some scenario.store_ok))) as Hstore.
  { intros ms [= <-] n key value. reflexivity. }
  split; [apply manager_raises_only_Exception|]. split; [exact Hstore|].
  exact (full_pipeline_analyzes_what_it_collected 0%Z
           (scenario.manager (Some scenario.store_ok))
           (manager_raises_only_Exception _) Hstore).
Defined.

Lemma full_pipeline_stops_at_store_failure_witness :
  let m := scenario.manager (Some scenario.store_raising) in
  let e := mkException "OSError" "disk full" in
  first_escaping (gathered 0%Z m) = None
  ∧ store_raises m "last_collection" e
  ∧ (run_full_pipeline 0%Z m).1 = Raise e
  ∧ insight_analyzer (run_full_pipeline 0%Z m).2 = insight_analyzer m
  ∧ model_analyzer (run_full_pipeline 0%Z m).2 = model_analyzer m
  ∧ insight_generator (run_full_pipeline 0%Z m).2 = insight_generator m
  ∧ model_generator (run_full_pipeline 0%Z m).2 = model_generator m
  ∧ _collected_data (run_full_pipeline 0%Z m).2 ≠ ∅.
Proof.
  cbv zeta.
  assert (store_raises (scenario.manager (Some scenario.store_raising)) "last_collection"
            (mkException "OSError" "disk full")) as Hraise.
  { exists scenario.store_raising. split; reflexivity. }
  split; [reflexivity|]. split; [exact Hraise|].
  exact (full_pipeline_stops_at_store_failure 0%Z
           (scenario.manager (Some scenario.store_raising)) _ eq_refl Hraise).
Defined.

(** The full pipeline with a unit that is cancelled in its body: it stops
    in the collect stage with the [AttributeError] of the aggregation
    loop. *)
Example full_pipeline_on_cancellation :
  (run_full_pipeline 0%Z (scenario.manager_cancelled None)).1
  = Raise (AttributeError "'CancelledError' object has no attribute 'data'").
Proof. vm_compute. reflexivity. Qed.

(** ** Loading the settings *)

Section LoadSettings.
Context {Settings : Type}.
Variable Settings_init :
  (string → option string) → gmap string settings.yaml → outcome Settings.
Variable read : string → option (outcome settings.yaml).
Variable getenv : string → option string.


(** X20. The keyword arguments [load_settings] hands to the constructor of
    the settings hold the environment tokens only when the configuration
    file has a collector section. Without a path, with a path to a file
    that does not exist, or with a file that is empty, [load_settings] is
    the constructor applied to no keyword argument; with a file that is a
    mapping without a collector section, or with an empty one, it is the
    constructor applied to the file's mapping unchanged. The values read
    into [env_settings] are not passed on; what the constructor itself
    takes from the environment is its own. *)
Theorem load_settings_env_needs_collector_section :
  settings.load_settings Settings_init read getenv None = Settings_init getenv ∅
  ∧ (∀ path, read path = None →
       settings.load_settings Settings_init read getenv (Some path)
       = Settings_init getenv ∅)
  ∧ (∀ path y, read path = Some (Return y) → settings.yaml_truthy y = false →
       settings.load_settings Settings_init read getenv (Some path)
       = Settings_init getenv ∅)
  ∧ (∀ path d, read path = Some (Return (settings.YMap d)) →
       from_option settings.yaml_truthy false (d !! "collector") = false →
       settings.load_settings Settings_init read getenv (Some path)
       = Settings_init getenv d).
Proof.
  unfold settings.load_settings, settings.settings_dict.
  split; [by rewrite lookup_empty|]. split; [|split].
  - intros path ->. by rewrite lookup_empty.
  - intros path y -> ->. by rewrite lookup_empty.
  - intros path d -> Hc.
    destruct (settings.yaml_truthy (settings.YMap d)) eqn:Hd.
    + destruct (d !! "collector") as [collector|]; [|done].
      cbn in Hc. by rewrite Hc.
    + cbn in Hd. apply negb_false_iff, bool_decide_eq_true in Hd. subst d.
      by rewrite lookup_empty.
Qed.


(** X22. A configuration file whose content is not a mapping: [null],
    [false], [0], an empty string, list or mapping count as no
    configuration, the constructor of the settings being applied to no
    keyword argument, and any other value that is not a mapping makes
    [load_settings] raise the [AttributeError] of [settings_dict.get],
    before the constructor is reached. What opening or parsing the file
    raises leaves [load_settings] as it is. *)
Theorem load_settings_non_mapping_file path :
  match read path with
  | Some (Raise e) =>
      settings.load_settings Settings_init read getenv (Some path) = Raise e
  | Some (Return y) =>
      match y with
      | settings.YMap _ => True
      | _ =>
          settings.load_settings Settings_init read getenv (Some path)
          = if settings.yaml_truthy y
            then Raise (AttributeError
                          ("'" ++ settings.yaml_type_name y
                           ++ "' object has no attribute 'get'"))
            else Settings_init getenv ∅
      end
  | None =>
      settings.load_settings Settings_init read getenv (Some path)
      = Settings_init getenv ∅
  end.
Proof.
  unfold settings.load_settings, settings.settings_dict.
  destruct (read path) as [[y|e]|]; [|done|by rewrite lookup_empty].
  destruct y as [|b|z|s|l|d]; try done;
    destruct (settings.yaml_truthy _) eqn:Ht; try done; by rewrite ?lookup_empty.
Qed.
End LoadSettings.

Lemma load_settings_env_needs_collector_section_witness :
  let read := scenario.files in
  let getenv := scenario.environment in
  let load := settings.load_settings scenario.Settings_init read getenv in
  load None = scenario.Settings_init getenv ∅
  ∧ (read "missing.yaml" = None
     ∧ load (Some "missing.yaml") = scenario.Settings_init getenv ∅)
  ∧ (∃ d, scenario.file_without_collector = settings.YMap d
          ∧ read "plain.yaml" = Some (Return (settings.YMap d))
          ∧ from_option settings.yaml_truthy false (d !! "collector") = false
          ∧ load (Some "plain.yaml") = scenario.Settings_init getenv d).
Proof.
  cbv zeta.
  pose proof (load_settings_env_needs_collector_section scenario.Settings_init
                scenario.files scenario.environment)
    as (H0 & Hmissing & _ & Hplain).
  split; [exact H0|]. split.
  - split; [reflexivity|]. apply Hmissing. reflexivity.
  - eexists. split; [reflexivity|]. split; [reflexivity|]. split; [reflexivity|].
    apply Hplain; reflexivity.
Defined.


(** The same file and environment, evaluated: in the keyword arguments the
    GitHub token of the file is overridden, the empty Anthropic key gives
    way to the OpenAI key, which lands in the collector section, and the
    scheduler section is the file's. A constructor that refuses the key
    [llm_api_key] in the collector section makes [load_settings] raise;
    without the API keys in the environment it returns. *)
Example load_settings_example :
  match settings.settings_dict scenario.files scenario.environment (Some "config.yaml") with
  | Return d =>
      d !! "collector"
      = Some (settings.YMap {[ "github_token" := settings.YStr "ghp_env";
                               "hf_max_models" := settings.YInt 10;
                               "llm_api_key" := settings.YStr "sk-env" ]})
      ∧ d !! "scheduler"
        = Some (settings.YMap {[ "max_retries" := settings.YInt 5 ]})
  | Raise _ => False
  end
  ∧ settings.load_settings scenario.Settings_init scenario.files scenario.environment
      (Some "config.yaml")
    = Raise (mkException "ValidationError"
               "collector.llm_api_key: Extra inputs are not permitted")
  ∧ match settings.load_settings scenario.Settings_init scenario.files
            scenario.no_environment (Some "config.yaml") with
    | Return _ => True
    | Raise _ => False
    end.
Proof. vm_compute. done. Qed.

(** ** The properties of the analyze stage on the example coordinators *)

Lemma analyze_stage_results_witness :
  let m := scenario.analysis_ready ∅ None in
  _collected_data m ≠ ∅
  ∧ default (PyList []) (_collected_data m !! "hf_models")
    = PyList (PyItem <$> scenario.eight_cards)
  ∧ analysis_escaping 0%Z m scenario.eight_cards = None
  ∧ store_returns m "last_analysis"
  ∧ ∃ results ir ks,
      (run_analysis_job 0%Z m).1 = Return results
      ∧ (base_analyzer.run 0%Z (_collected_data m) (insight_analyzer m)).1 = Return ir
      ∧ base_analyzer._last_results (model_analyzer (run_analysis_job 0%Z m).2) = Some ks
      ∧ dom results = ({["insights"; "model_analyses"; "errors"]} : gset string)
      ∧ results !! "errors" = Some (PyList [])
      ∧ results !! "insights" = Some (insights_slot ir)
      ∧ results !! "model_analyses" = Some (PyList (PyModelAnalysis <$> ks)).
Proof.
  cbv zeta.
  assert (store_returns (scenario.analysis_ready ∅ None) "last_analysis") as Hstore.
  { intros ms [=]. }
  split; [apply analysis_ready_has_data|].
  split; [apply analysis_ready_hf_models|].
  split; [apply analysis_ready_returns|].
  split; [exact Hstore|].
  exact (analyze_stage_results 0%Z (scenario.analysis_ready ∅ None) scenario.eight_cards
           (analysis_ready_has_data ∅ None) (analysis_ready_hf_models ∅ None)
           (analysis_ready_returns ∅ None) Hstore).
Defined.

Lemma analyze_stage_insight_input_witness :
  let m := scenario.analysis_ready ∅ None in
  let after := (run_analysis_job 0%Z m).2 in
  _collected_data m ≠ ∅
  ∧ default (PyList []) (_collected_data m !! "hf_models")
    = PyList (PyItem <$> scenario.eight_cards)
  ∧ base_analyzer.analyze_calls (insight_analyzer after)
    = base_analyzer.analyze_calls (insight_analyzer m) ++ [_collected_data m]
  ∧ _collected_data after = _collected_data m
  ∧ ai_model_collector after = ai_model_collector m
  ∧ github_collector after = github_collector m
  ∧ hf_collector after = hf_collector m
  ∧ arxiv_collector after = arxiv_collector m
  ∧ insight_generator after = insight_generator m
  ∧ model_generator after = model_generator m
  ∧ config after = config m.
Proof.
  cbv zeta.
  split; [apply analysis_ready_has_data|].
  split; [apply analysis_ready_hf_models|].
  exact (analyze_stage_insight_input 0%Z (scenario.analysis_ready ∅ None)
           scenario.eight_cards (analysis_ready_has_data ∅ None)
           (analysis_ready_hf_models ∅ None)).
Defined.

Lemma analyze_stage_notifies_store_witness :
  let m := scenario.analysis_ready ∅ (Some scenario.store_ok) in
  _collected_data m ≠ ∅
  ∧ default (PyList []) (_collected_data m !! "hf_models")
    = PyList (PyItem <$> scenario.eight_cards)
  ∧ analysis_escaping 0%Z m scenario.eight_cards = None
  ∧ memory_store m = Some scenario.store_ok
  ∧ ∃ ir ks,
      (base_analyzer.run 0%Z (_collected_data m) (insight_analyzer m)).1 = Return ir
      ∧ base_analyzer._last_results (model_analyzer (run_analysis_job 0%Z m).2) = Some ks
      ∧ memory_store (run_analysis_job 0%Z m).2
        = Some (mkMemoryStore (store_body scenario.store_ok)
                  (store_calls scenario.store_ok
                   ++ [("last_analysis",
                        LastAnalysis 0%Z
                          (match base_analyzer.result ir with
                           | Some r =>
                               if insights_truthy r then default 0%Z (insights_len r)
                               else 0%Z
                           | None => 0%Z
                           end)
                          (len ks))])).
Proof.
  cbv zeta.
  split; [apply analysis_ready_has_data|].
  split; [apply analysis_ready_hf_models|].
  split; [apply analysis_ready_returns|].
  split; [reflexivity|].
  exact (analyze_stage_notifies_store 0%Z
           (scenario.analysis_ready ∅ (Some scenario.store_ok)) scenario.eight_cards
           scenario.store_ok (analysis_ready_has_data ∅ _)
           (analysis_ready_hf_models ∅ _) (analysis_ready_returns ∅ _) eq_refl).
Defined.

Lemma analyze_stage_without_hf_models_witness :
  let m := scenario.analysis_without_hf_models in
  _collected_data m ≠ ∅
  ∧ _collected_data m !! "hf_models" = None
  ∧ base_analyzer._last_results (model_analyzer m) = Some ["m1"; "m2"]
  ∧ analysis_escaping 0%Z m [] = None
  ∧ base_analyzer.analyze_calls (model_analyzer (run_analysis_job 0%Z m).2)
    = base_analyzer.analyze_calls (model_analyzer m)
  ∧ base_analyzer._last_results (model_analyzer (run_analysis_job 0%Z m).2) = Some [].
Proof.
  cbv zeta.
  assert (_collected_data scenario.analysis_without_hf_models ≠ ∅) as Hcd.
  { intros Heq. apply (f_equal (lookup "models")) in Heq.
    vm_compute in Heq. discriminate. }
  assert (_collected_data scenario.analysis_without_hf_models !! "hf_models" = None)
    as Hnone.
  { vm_compute. reflexivity. }
  assert (analysis_escaping 0%Z scenario.analysis_without_hf_models [] = None) as Hesc.
  { vm_compute. reflexivity. }
  split; [exact Hcd|]. split; [exact Hnone|]. split; [reflexivity|].
  split; [exact Hesc|].
  destruct (analyze_stage_without_hf_models 0%Z scenario.analysis_without_hf_models
              Hcd Hnone) as (Hcalls & Hlast).
  split; [exact Hcalls|exact (Hlast Hesc)].
Defined.

Lemma analyze_stage_reraises_witness :
  let m := scenario.analysis_cancelled (Some scenario.store_ok) in
  _collected_data m ≠ ∅
  ∧ default (PyList []) (_collected_data m !! "hf_models")
    = PyList (PyItem <$> scenario.eight_cards)
  ∧ analysis_escaping 0%Z m scenario.eight_cards = Some scenario.cancelled
  ∧ (run_analysis_job 0%Z m).1 = Raise scenario.cancelled
  ∧ exc_is_Exception scenario.cancelled = false
  ∧ base_analyzer._last_results (model_analyzer (run_analysis_job 0%Z m).2)
    = base_analyzer._last_results (model_analyzer m)
  ∧ memory_store (run_analysis_job 0%Z m).2 = memory_store m.
Proof.
  cbv zeta.
  split; [exact (analysis_ready_has_data ∅ _)|].
  split; [exact (analysis_ready_hf_models ∅ _)|].
  split; [vm_compute; reflexivity|].
  apply (analyze_stage_reraises 0%Z (scenario.analysis_cancelled (Some scenario.store_ok))
           scenario.eight_cards scenario.cancelled).
  - exact (analysis_ready_has_data ∅ _).
  - exact (analysis_ready_hf_models ∅ _).
  - vm_compute. reflexivity.
Defined.

(** The analyze stage with a structural analyzer that is cancelled at its
    third invocation: the cancellation leaves the stage, the last two of
    the five items are not analysed and the retained [_last_results] are
    not replaced. *)
Example analyze_stage_on_cancellation :
  let m := scenario.analysis_cancelled None in
  (run_analysis_job 0%Z m).1 = Raise scenario.cancelled
  ∧ length (base_analyzer.analyze_calls (model_analyzer (run_analysis_job 0%Z m).2)) = 3
  ∧ base_analyzer._last_results (model_analyzer (run_analysis_job 0%Z m).2) = None.
Proof. vm_compute. done. Qed.
